(** * Linux-Kernel-Detector: rule-based scanning and classification engine

    A shallow embedding of [tools/detectors/detector.py]
    ([AntiPatternDetector]) and of [scripts/analysis/concurrency_analyzer.py]
    ([ConcurrencyAnalyzer]), with the properties of the design document
    stated and settled over it.

    Python values are modelled as follows.
    - [str]: a list of Unicode code points ([pystr]); [lit] turns a Rocq
      string literal into one.
    - [int]: [Z].
    - [dict] used as a map: stdpp's [gmap]; a [dict] whose iteration order
      matters (the rule set): an association list.
    - exceptions: the [outcome] type; logging: a list of [log_event]s.
    - library code that is not part of the repository (the [re] module,
      [str.lower], [Path.match]) is the interface [PythonLib]. *)

From Stdlib Require Import ZArith NArith String Ascii DecimalString Sorted.
From Stdlib.Strings Require Import Byte.
From stdpp Require Import base option list sorting gmap fin_maps.

Local Open Scope Z_scope.

(** ** Python strings *)

Abbreviation pystr := (list N).

Definition lit (s : string) : pystr :=
  map N_of_ascii (list_ascii_of_string s).

Definition NL : N := 10%N.
Definition CR : N := 13%N.
Definition SLASH : N := 47%N.
Definition SPACE : N := 32%N.

Module PyStr.

(** [len(l)] *)
Definition len {A} (l : list A) : Z := Z.of_nat (length l).

(** [s.count(c)] for a one-character [c]. *)
Fixpoint count (c : N) (s : pystr) : Z :=
  match s with
  | [] => 0
  | x :: s' => (if N.eqb x c then 1 else 0) + count c s'
  end.

(** [s.split(c)] for a one-character separator [c]: never empty. *)
Fixpoint split (c : N) (s : pystr) : list pystr :=
  match s with
  | [] => [[]]
  | x :: s' =>
      if N.eqb x c then [] :: split c s'
      else match split c s' with
           | [] => [[x]]
           | l :: ls => (x :: l) :: ls
           end
  end.

(** [range(start, stop)] *)
Definition range (start stop : Z) : list Z :=
  (λ k : nat, start + Z.of_nat k) <$> seq 0 (Z.to_nat (stop - start)).

(** [l[start:stop]] with Python's treatment of negative and
    out-of-range bounds. *)
Definition slice_index {A} (l : list A) (i : Z) : Z :=
  if i <? 0 then Z.max 0 (i + len l) else Z.min i (len l).

Definition slice {A} (l : list A) (start stop : Z) : list A :=
  let s := slice_index l start in
  let e := slice_index l stop in
  take (Z.to_nat (e - s)) (drop (Z.to_nat s) l).

(** [l[i]] for an index already known to be in range; [None] stands
    for [IndexError]. *)
Definition index {A} (l : list A) (i : Z) : option A :=
  if i <? 0 then None else l !! Z.to_nat i.

Fixpoint starts_with (p s : pystr) : bool :=
  match p, s with
  | [], _ => true
  | _ :: _, [] => false
  | a :: p', b :: s' => N.eqb a b && starts_with p' s'
  end.

(** [needle in hay] *)
Fixpoint contains (needle hay : pystr) : bool :=
  starts_with needle hay ||
  match hay with
  | [] => false
  | _ :: hay' => contains needle hay'
  end.

(** [s.endswith(p)] *)
Definition ends_with (p s : pystr) : bool :=
  starts_with (rev p) (rev s).

(** [s.replace(old, new)] for a non-empty [old]: occurrences are
    replaced left to right, without overlap; [skip] counts the
    characters of the occurrence under replacement still to drop. *)
Fixpoint replace_from (old new : pystr) (skip : nat) (s : pystr) : pystr :=
  match s with
  | [] => []
  | x :: s' =>
      match skip with
      | S k => replace_from old new k s'
      | O =>
          if starts_with old s
          then new ++ replace_from old new (length old - 1)%nat s'
          else x :: replace_from old new O s'
      end
  end.

Definition replace (old new s : pystr) : pystr := replace_from old new O s.

(** [sep.join(parts)] *)
Fixpoint join (sep : pystr) (parts : list pystr) : pystr :=
  match parts with
  | [] => []
  | [p] => p
  | p :: ps => p ++ sep ++ join sep ps
  end.

(** The characters [str.rstrip()] removes: Python's [str.isspace]. *)
Definition isspace (c : N) : bool :=
  ((9 <=? c) && (c <=? 13) || (28 <=? c) && (c <=? 32)
   || (c =? 133) || (c =? 160) || (c =? 5760)
   || (8192 <=? c) && (c <=? 8202)
   || (c =? 8232) || (c =? 8233) || (c =? 8239) || (c =? 8287)
   || (c =? 12288))%N.

Fixpoint lstrip (s : pystr) : pystr :=
  match s with
  | [] => []
  | x :: s' => if isspace x then lstrip s' else s
  end.

(** [s.rstrip()] *)
Definition rstrip (s : pystr) : pystr := rev (lstrip (rev s)).

(** [f"{n:4d}"]-style formatting: decimal, right-aligned in [width]
    columns, never truncated. *)
Definition decimal (n : Z) : pystr :=
  match n with
  | Zneg p => lit "-" ++ lit (NilEmpty.string_of_uint (Pos.to_uint p))
  | _ => lit (NilEmpty.string_of_uint (N.to_uint (Z.to_N n)))
  end.

Definition format_d (width : nat) (n : Z) : pystr :=
  let d := decimal n in
  replicate (width - length d)%nat SPACE ++ d.

(** [f.readlines()] on text already newline-translated: every line
    keeps its terminating newline; there is no line after a final
    newline. *)
Fixpoint readlines (s : pystr) : list pystr :=
  match s with
  | [] => []
  | x :: s' =>
      if N.eqb x NL then [x] :: readlines s'
      else match readlines s' with
           | [] => [[x]]
           | l :: ls => (x :: l) :: ls
           end
  end.

End PyStr.

(** ** Exceptions and logging *)

Inductive exn :=
  | OSError (msg : pystr)
  | UnicodeDecodeError
  | ValueError (msg : pystr)
  | KeyError (key : pystr)
  | OverflowError (msg : pystr)
  | RecursionError (msg : pystr).

Inductive outcome (A : Type) :=
  | Returned (a : A)
  | Raised (e : exn).
Arguments Returned {A} a.
Arguments Raised {A} e.

(** [str(e)] as it appears in a log line. *)
Definition exn_str (e : exn) : pystr :=
  match e with
  | OSError msg => msg
  | UnicodeDecodeError => lit "'utf-8' codec can't decode"
  | ValueError msg => msg
  | KeyError key => lit "'" ++ key ++ lit "'"
  | OverflowError msg => msg
  | RecursionError msg => msg
  end.

Inductive log_event :=
  | LogDebug (msg : pystr)
  | LogInfo (msg : pystr)
  | LogWarning (msg : pystr)
  | LogError (msg : pystr).

#[global] Instance log_event_eq_dec : EqDecision log_event.
Proof. solve_decision. Defined.

(** ** Text files: the [utf-8] codec and universal newlines

    [open(path, 'r', encoding='utf-8', errors=...)] decodes the bytes of
    the file and translates line endings.  The decoder finds the
    malformed byte ranges the way CPython's does (an invalid start byte
    is one range; a truncated or ill-continued sequence is the range of
    its well-formed prefix; at the end of the data the range is the
    rest); what stands for a malformed range is the error handler's
    choice. *)

Module Codec.

Inductive errors := Strict | Ignore | Replace.

Definition is_cont (c : N) : bool := ((128 <=? c) && (c <=? 191))%N.

(** Second byte of a three-byte sequence: no overlong form, no
    surrogate. *)
Definition second_of_3 (c1 c2 : N) : bool :=
  (is_cont c2 && negb ((c1 =? 224) && (c2 <? 160))
              && negb ((c1 =? 237) && (160 <=? c2)))%N.

(** Second byte of a four-byte sequence: no overlong form, nothing
    above U+10FFFF. *)
Definition second_of_4 (c1 c2 : N) : bool :=
  (is_cont c2 && negb ((c1 =? 240) && (c2 <? 144))
              && negb ((c1 =? 244) && (144 <=? c2)))%N.

(** [Some c] is a decoded character, [None] a malformed range. *)
Fixpoint scan (bs : list byte) : list (option N) :=
  match bs with
  | [] => []
  | b1 :: t1 =>
      let c1 := Byte.to_N b1 in
      if (c1 <? 128)%N then Some c1 :: scan t1
      else if (c1 <? 194)%N then None :: scan t1
      else if (c1 <? 224)%N then
        match t1 with
        | [] => [None]
        | b2 :: t2 =>
            let c2 := Byte.to_N b2 in
            if is_cont c2
            then Some ((c1 - 192) * 64 + (c2 - 128))%N :: scan t2
            else None :: scan t1
        end
      else if (c1 <? 240)%N then
        match t1 with
        | [] => [None]
        | b2 :: t2 =>
            let c2 := Byte.to_N b2 in
            if second_of_3 c1 c2 then
              match t2 with
              | [] => [None]
              | b3 :: t3 =>
                  let c3 := Byte.to_N b3 in
                  if is_cont c3
                  then Some ((c1 - 224) * 4096 + (c2 - 128) * 64
                             + (c3 - 128))%N :: scan t3
                  else None :: scan t2
              end
            else None :: scan t1
        end
      else if (c1 <? 245)%N then
        match t1 with
        | [] => [None]
        | b2 :: t2 =>
            let c2 := Byte.to_N b2 in
            if second_of_4 c1 c2 then
              match t2 with
              | [] => [None]
              | b3 :: t3 =>
                  let c3 := Byte.to_N b3 in
                  if is_cont c3 then
                    match t3 with
                    | [] => [None]
                    | b4 :: t4 =>
                        let c4 := Byte.to_N b4 in
                        if is_cont c4
                        then Some ((c1 - 240) * 262144 + (c2 - 128) * 4096
                                   + (c3 - 128) * 64 + (c4 - 128))%N
                             :: scan t4
                        else None :: scan t3
                    end
                  else None :: scan t2
              end
            else None :: scan t1
        end
      else None :: scan t1
  end.

Definition REPLACEMENT_CHARACTER : N := 65533%N.

(** [bytes.decode('utf-8', errors)] *)
Definition decode (h : errors) (bs : list byte) : outcome pystr :=
  match h with
  | Strict =>
      match mapM id (scan bs) with
      | Some s => Returned s
      | None => Raised UnicodeDecodeError
      end
  | Ignore => Returned (omap id (scan bs))
  | Replace => Returned (map (default REPLACEMENT_CHARACTER) (scan bs))
  end.

(** Text mode with [newline=None]: ["\r\n"] and a lone ["\r"] are read
    as ["\n"]. *)
Fixpoint universal_newlines (s : pystr) : pystr :=
  match s with
  | [] => []
  | x :: s' =>
      if N.eqb x CR then
        NL :: match s' with
              | [] => []
              | y :: s'' =>
                  if N.eqb y NL then universal_newlines s''
                  else universal_newlines s'
              end
      else x :: universal_newlines s'
  end.

(** [f.read()] of a file opened in text mode. *)
Definition read_text (h : errors) (bs : list byte) : outcome pystr :=
  match decode h bs with
  | Returned s => Returned (universal_newlines s)
  | Raised e => Raised e
  end.

End Codec.

(** ** Paths and the file system *)

Module PurePath.

(** A [pathlib] path: whether it is anchored at the root, and its
    components (POSIX flavour; the two-slash root is left out). *)
Record t := mk { absolute : bool; parts : list pystr }.

#[global] Instance t_eq_dec : EqDecision t.
Proof. solve_decision. Defined.

(** [Path(s)]: empty and ["."] components vanish. *)
Definition of_str (s : pystr) : t :=
  {| absolute := PyStr.starts_with [SLASH] s;
     parts := filter (λ c, c ≠ [] ∧ c ≠ lit ".") (PyStr.split SLASH s) |}.

(** [str(p)] *)
Definition to_str (p : t) : pystr :=
  if absolute p then SLASH :: PyStr.join [SLASH] (parts p)
  else match parts p with
       | [] => lit "."
       | _ => PyStr.join [SLASH] (parts p)
       end.

(** [p.name] *)
Definition name (p : t) : pystr := default [] (last (parts p)).

(** [p.parent] *)
Definition parent (p : t) : t :=
  {| absolute := absolute p; parts := removelast (parts p) |}.

Fixpoint strip_prefix (pre l : list pystr) : option (list pystr) :=
  match pre, l with
  | [], _ => Some l
  | _ :: _, [] => None
  | a :: pre', b :: l' =>
      if decide (a = b) then strip_prefix pre' l' else None
  end.

(** [p.relative_to(other)] *)
Definition relative_to (p other : t) : outcome t :=
  if bool_decide (absolute p = absolute other) then
    match strip_prefix (parts other) (parts p) with
    | Some rest => Returned {| absolute := false; parts := rest |}
    | None =>
        Raised (ValueError (lit "'" ++ to_str p
                            ++ lit "' is not in the subpath of '"
                            ++ to_str other ++ lit "'"))
    end
  else
    Raised (ValueError (lit "'" ++ to_str p
                        ++ lit "' is not in the subpath of '"
                        ++ to_str other ++ lit "'")).

(** [p / s] *)
Definition join (p : t) (s : pystr) : t :=
  let q := of_str s in
  if absolute q then q
  else {| absolute := absolute p; parts := parts p ++ parts q |}.

End PurePath.

Module FS.

(** What a directory entry leads to. *)
Inductive node :=
  | Regular (bytes : list byte)
    (** a readable file *)
  | NoAccess (size : Z) (err : pystr)
    (** [stat] succeeds, [open] raises [OSError(err)] *)
  | Dangling (err : pystr).
    (** a link to nothing: [stat] and [open] raise, [exists] is false *)

(** The entries of the file system in the order a directory walk
    meets them. *)
Definition t := list (PurePath.t * node).

Fixpoint lookup (fs : t) (p : PurePath.t) : option node :=
  match fs with
  | [] => None
  | (q, n) :: fs' => if decide (q = p) then Some n else lookup fs' p
  end.

(** [p.exists()] *)
Definition exists_ (fs : t) (p : PurePath.t) : bool :=
  match lookup fs p with
  | Some (Regular _) | Some (NoAccess _ _) => true
  | Some (Dangling _) | None => false
  end.

(** [p.stat().st_size] *)
Definition st_size (fs : t) (p : PurePath.t) : outcome Z :=
  match lookup fs p with
  | Some (Regular bytes) => Returned (PyStr.len bytes)
  | Some (NoAccess size _) => Returned size
  | Some (Dangling err) => Raised (OSError err)
  | None => Raised (OSError (lit "No such file or directory"))
  end.

(** [open(p, 'r', encoding='utf-8', errors=h).read()] *)
Definition read (fs : t) (p : PurePath.t) (h : Codec.errors) : outcome pystr :=
  match lookup fs p with
  | Some (Regular bytes) => Codec.read_text h bytes
  | Some (NoAccess _ err) => Raised (OSError err)
  | Some (Dangling err) => Raised (OSError err)
  | None => Raised (OSError (lit "No such file or directory"))
  end.

(** [root.rglob("*.c")]: the entries strictly below [root] whose name
    ends in [.c], in walk order. *)
Definition under (root p : PurePath.t) : bool :=
  bool_decide (PurePath.absolute root = PurePath.absolute p) &&
  match PurePath.strip_prefix (PurePath.parts root) (PurePath.parts p) with
  | Some (_ :: _) => true
  | _ => false
  end.

Definition rglob_c (fs : t) (root : PurePath.t) : list PurePath.t :=
  filter (λ p, under root p = true
               ∧ PyStr.ends_with (lit ".c") (PurePath.name p) = true)
         (fs.*1).

End FS.

(** ** Library code outside the repository *)

Inductive re_flag := IGNORECASE | MULTILINE.

(** A match object: [m.start()] and [m.group(0)]. *)
Record Match := { m_start : Z; m_group0 : pystr }.

(** What [list(re.finditer(pattern, string, flags))] does: it returns
    the matches, raises [re.error(msg)] for a pattern that does not
    compile, or raises something else ([OverflowError] for a repetition
    count of 4294967295 or more, [RecursionError] for a pattern nested
    too deeply). *)
Inductive finditer_result :=
  | Matches (matches : list Match)
  | ReError (msg : pystr)
  | Raises (e : exn).

(** The [re] module, [str.lower] and [Path.match], with the one fact
    about [re.finditer] the properties below rely on: it yields matches
    from left to right (an empty match may be followed by a non-empty
    one at the same position, so the order is not strict). *)
Class PythonLib := {
  re_finditer : pystr → pystr → list re_flag → finditer_result;
  (** [re.search(pattern, string, flags)] is not [None], for a pattern
      that compiles. *)
  re_search : pystr → pystr → list re_flag → bool;
  str_lower : pystr → pystr;
  path_match : PurePath.t → pystr → bool;
  re_finditer_ascending : ∀ pattern string flags matches,
    re_finditer pattern string flags = Matches matches →
    StronglySorted Z.le (m_start <$> matches)
}.

(** ** The detector: [tools/detectors/detector.py] *)

Module Rule.
(** One entry of [detection_rules]; a key the configuration leaves out
    is [None]. *)
Record t := mk {
  enabled : option bool;
  severity : option pystr;
  directories : option (list pystr);
  patterns : option (list pystr)
}.
End Rule.

(** The keys of the configuration the detector reads:
    [analysis.kernel_repository], [analysis.exclude_patterns],
    [analysis.max_file_size], [performance.max_concurrent_analyzers] and
    [detection_rules], in the order of the document. *)
Record Config := {
  kernel_repository : pystr;
  exclude_patterns : list pystr;
  max_file_size : Z;
  max_concurrent_analyzers : Z;
  detection_rules : list (pystr * Rule.t)
}.

Module Finding.
Record t := mk {
  file : pystr;
  line : Z;
  pattern : pystr;
  rule : pystr;
  severity : pystr;
  match_ : pystr;
  context : list pystr
}.

#[global] Instance t_eq_dec : EqDecision t.
Proof. solve_decision. Defined.
End Finding.

Record Statistics := {
  total_files : Z;
  analyzed_files : Z;
  files_with_findings : Z;
  total_findings : Z;
  findings_by_severity : gmap pystr Z;
  findings_by_rule : gmap pystr Z
}.

Record Summary := {
  total_files_analyzed : Z;
  files_with_issues : Z;
  total_issues_found : Z;
  critical_issues : Z;
  high_priority_issues : Z;
  medium_priority_issues : Z;
  low_priority_issues : Z
}.

Record Results := {
  summary : Summary;
  findings : list Finding.t;
  statistics : Statistics
}.

(** A computation that logs: the events, then the value. *)
Definition logged (A : Type) : Type := list log_event * A.

Module AntiPatternDetector.
Section Detector.

Context `{PythonLib}.
Variable config : Config.
Variable fs : FS.t.

(** ** [get_c_files] *)

Fixpoint get_c_files_loop (log : list log_event) (c_files : list PurePath.t)
    (candidates : list PurePath.t) : logged (outcome (list PurePath.t)) :=
  match candidates with
  | [] => (log, Returned c_files)
  | file_path :: rest =>
      if existsb (λ pattern, path_match file_path pattern)
                 (exclude_patterns config)
      then get_c_files_loop log c_files rest
      else
        match FS.st_size fs file_path with
        | Raised e => (log, Raised e)
        | Returned st_size =>
            if st_size >? max_file_size config
            then get_c_files_loop
                   (log ++ [LogDebug (lit "Skipping large file: "
                                      ++ PurePath.to_str file_path)])
                   c_files rest
            else get_c_files_loop log (c_files ++ [file_path]) rest
        end
  end.

Definition get_c_files (kernel_path : pystr)
    : logged (outcome (list PurePath.t)) :=
  let kernel_dir := PurePath.of_str kernel_path in
  get_c_files_loop [] [] (FS.rglob_c fs kernel_dir).

(** ** [get_context_lines] *)

Definition get_context_lines (lines : list pystr) (line_num : Z)
    (context : Z) : list pystr :=
  let start := Z.max 0 (line_num - context) in
  let end_ := Z.min (PyStr.len lines) (line_num + context + 1) in
  PyStr.slice lines start end_.

(** ** [analyze_file] *)

(** [Path(kernel_repository.split('/')[-1].replace('.git', ''))] *)
Definition repository_dir : PurePath.t :=
  PurePath.of_str
    (PyStr.replace (lit ".git") (lit "")
       (default [] (last (PyStr.split SLASH (kernel_repository config))))).

Section File.
Variable file_path : PurePath.t.
Variable content : pystr.
Variable lines : list pystr.

(** The body of [for match in matches]. *)
Definition finding_of (rule_name : pystr) (rule_config : Rule.t)
    (pattern : pystr) (m : Match) : Finding.t :=
  let line_num := PyStr.count NL (PyStr.slice content 0 (m_start m)) + 1 in
  let context_lines := get_context_lines lines (line_num - 1) 3 in
  {| Finding.file := PurePath.to_str file_path;
     Finding.line := line_num;
     Finding.pattern := pattern;
     Finding.rule := rule_name;
     Finding.severity :=
       default (lit "medium") (Rule.severity rule_config);
     Finding.match_ := m_group0 m;
     Finding.context := context_lines |}.

Fixpoint for_matches (rule_name : pystr) (rule_config : Rule.t)
    (pattern : pystr) (findings : list Finding.t) (matches : list Match)
    : list Finding.t :=
  match matches with
  | [] => findings
  | m :: rest =>
      for_matches rule_name rule_config pattern
        (findings ++ [finding_of rule_name rule_config pattern m]) rest
  end.

(** The body of [for pattern in ...]: the [try] with its
    [except re.error], which lets every other exception of
    [re.finditer] through. *)
Definition try_pattern (rule_name : pystr) (rule_config : Rule.t)
    (st : logged (list Finding.t)) (pattern : pystr)
    : logged (outcome (list Finding.t)) :=
  match re_finditer pattern content [IGNORECASE; MULTILINE] with
  | Matches matches =>
      (st.1,
       Returned (for_matches rule_name rule_config pattern st.2 matches))
  | ReError e =>
      (st.1 ++ [LogWarning (lit "Invalid regex pattern '" ++ pattern
                            ++ lit "': " ++ e)],
       Returned st.2)
  | Raises e => (st.1, Raised e)
  end.

Fixpoint for_patterns (rule_name : pystr) (rule_config : Rule.t)
    (st : logged (list Finding.t)) (patterns : list pystr)
    : logged (outcome (list Finding.t)) :=
  match patterns with
  | [] => (st.1, Returned st.2)
  | pattern :: rest =>
      match try_pattern rule_name rule_config st pattern with
      | (log, Returned findings) =>
          for_patterns rule_name rule_config (log, findings) rest
      | (log, Raised e) => (log, Raised e)
      end
  end.

(** [for rule_name, rule_config in detection_rules.items()] *)
Fixpoint for_rules (st : logged (list Finding.t))
    (rules : list (pystr * Rule.t)) : logged (outcome (list Finding.t)) :=
  match rules with
  | [] => (st.1, Returned st.2)
  | (rule_name, rule_config) :: rest =>
      if negb (default true (Rule.enabled rule_config))
      then for_rules st rest
      else
        match PurePath.relative_to (PurePath.parent file_path)
                                   repository_dir with
        | Raised e => (st.1, Raised e)
        | Returned rel =>
            let file_dir := PurePath.to_str rel in
            if negb (existsb (λ target_dir,
                                PyStr.contains target_dir file_dir)
                             (default [] (Rule.directories rule_config)))
            then for_rules st rest
            else
              match for_patterns rule_name rule_config st
                      (default [] (Rule.patterns rule_config)) with
              | (log, Returned findings) => for_rules (log, findings) rest
              | (log, Raised e) => (log, Raised e)
              end
        end
  end.

End File.

Definition analyze_file (file_path : PurePath.t)
    : logged (outcome (list Finding.t)) :=
  match FS.read fs file_path Codec.Ignore with
  | Raised e =>
      ([LogWarning (lit "Could not read " ++ PurePath.to_str file_path
                    ++ lit ": " ++ exn_str e)],
       Returned [])
  | Returned content =>
      let lines := PyStr.split NL content in
      for_rules file_path content lines ([], []) (detection_rules config)
  end.

(** ** [analyze_kernel] *)

Definition initial_statistics (total : Z) : Statistics :=
  {| total_files := total;
     analyzed_files := 0;
     files_with_findings := 0;
     total_findings := 0;
     findings_by_severity :=
       <[lit "critical" := 0]> (<[lit "high" := 0]>
         (<[lit "medium" := 0]> (<[lit "low" := 0]> ∅)));
     findings_by_rule := ∅ |}.

(** [statistics["analyzed_files"] += 1] *)
Definition incr_analyzed_files (st : Statistics) : Statistics :=
  {| total_files := total_files st;
     analyzed_files := analyzed_files st + 1;
     files_with_findings := files_with_findings st;
     total_findings := total_findings st;
     findings_by_severity := findings_by_severity st;
     findings_by_rule := findings_by_rule st |}.

(** [statistics["files_with_findings"] += 1] and
    [statistics["total_findings"] += len(findings)] *)
Definition add_batch_totals (st : Statistics) (n : Z) : Statistics :=
  {| total_files := total_files st;
     analyzed_files := analyzed_files st;
     files_with_findings := files_with_findings st + 1;
     total_findings := total_findings st + n;
     findings_by_severity := findings_by_severity st;
     findings_by_rule := findings_by_rule st |}.

(** The body of [for finding in findings]: the subscript
    [findings_by_severity[severity]] raises [KeyError] on a key the
    dict does not have; [findings_by_rule] is read with [.get(rule, 0)]. *)
Definition count_finding (st : Statistics) (finding : Finding.t)
    : Statistics * option exn :=
  let severity := Finding.severity finding in
  match findings_by_severity st !! severity with
  | None => (st, Some (KeyError severity))
  | Some n =>
      let rule := Finding.rule finding in
      ({| total_files := total_files st;
          analyzed_files := analyzed_files st;
          files_with_findings := files_with_findings st;
          total_findings := total_findings st;
          findings_by_severity :=
            <[severity := n + 1]> (findings_by_severity st);
          findings_by_rule :=
            <[rule := default 0 (findings_by_rule st !! rule) + 1]>
              (findings_by_rule st) |},
       None)
  end.

Fixpoint count_findings (st : Statistics) (findings : list Finding.t)
    : Statistics * option exn :=
  match findings with
  | [] => (st, None)
  | finding :: rest =>
      match count_finding st finding with
      | (st', Some e) => (st', Some e)
      | (st', None) => count_findings st' rest
      end
  end.

(** What the main thread holds while it drains [as_completed]. *)
Record Progress := {
  log : list log_event;
  all_findings : list Finding.t;
  stats : Statistics
}.

Definition error_analyzing (file_path : PurePath.t) (e : exn) : log_event :=
  LogError (lit "Error analyzing " ++ PurePath.to_str file_path
            ++ lit ": " ++ exn_str e).

(** The body of [for future in as_completed(future_to_file)], with the
    result the worker computed for [file_path].  The statements of the
    [try] block run in order, so an exception leaves behind what was
    done before it. *)
Definition collect (acc : Progress) (file_path : PurePath.t)
    (result : logged (outcome (list Finding.t))) : Progress :=
  let log := log acc ++ result.1 in
  match result.2 with
  | Raised e =>
      {| log := log ++ [error_analyzing file_path e];
         all_findings := all_findings acc;
         stats := stats acc |}
  | Returned findings =>
      let all_findings := all_findings acc ++ findings in
      let statistics := incr_analyzed_files (stats acc) in
      match findings with
      | [] =>
          {| log := log; all_findings := all_findings; stats := statistics |}
      | _ :: _ =>
          let statistics :=
            add_batch_totals statistics (PyStr.len findings) in
          match count_findings statistics findings with
          | (statistics, Some e) =>
              {| log := log ++ [error_analyzing file_path e];
                 all_findings := all_findings;
                 stats := statistics |}
          | (statistics, None) =>
              {| log := log; all_findings := all_findings;
                 stats := statistics |}
          end
      end
  end.

Fixpoint drain (acc : Progress) (completed : list PurePath.t) : Progress :=
  match completed with
  | [] => acc
  | file_path :: rest =>
      drain (collect acc file_path (analyze_file file_path)) rest
  end.

Definition summary_of (statistics : Statistics) : Summary :=
  {| total_files_analyzed := analyzed_files statistics;
     files_with_issues := files_with_findings statistics;
     total_issues_found := total_findings statistics;
     critical_issues := findings_by_severity statistics !!! lit "critical";
     high_priority_issues := findings_by_severity statistics !!! lit "high";
     medium_priority_issues :=
       findings_by_severity statistics !!! lit "medium";
     low_priority_issues := findings_by_severity statistics !!! lit "low" |}.

(** The order in which [as_completed] hands back the futures of the
    submitted files. *)
Variable completion_order : list PurePath.t → list PurePath.t.

Definition analyze_kernel (kernel_path : pystr) : logged (outcome Results) :=
  let log0 := [LogInfo (lit "Starting kernel analysis of " ++ kernel_path)] in
  match get_c_files kernel_path with
  | (log1, Raised e) => (log0 ++ log1, Raised e)
  | (log1, Returned c_files) =>
      let log2 :=
        log0 ++ log1
        ++ [LogInfo (lit "Found " ++ PyStr.decimal (PyStr.len c_files)
                     ++ lit " C files to analyze")] in
      let max_workers := max_concurrent_analyzers config in
      if max_workers <=? 0
      then (log2, Raised (ValueError
                            (lit "max_workers must be greater than 0")))
      else
        let final :=
          drain {| log := log2; all_findings := [];
                   stats := initial_statistics (PyStr.len c_files) |}
                (completion_order c_files) in
        (log final,
         Returned {| summary := summary_of (stats final);
                     findings := all_findings final;
                     statistics := stats final |})
  end.

End Detector.
End AntiPatternDetector.

(** ** The classifier: [scripts/analysis/concurrency_analyzer.py] *)

Module Issue.
(** An entry of [classified_issues]; [code_snippet] is absent until
    [extract_code_snippets] sets it. *)
Record t := mk {
  file : pystr;
  line : Z;
  match_ : pystr;
  context : list pystr;
  pattern : pystr;
  description : pystr;
  code_snippet : option (list pystr)
}.
End Issue.

Module Category.
Record t := mk {
  key : pystr;
  patterns : list pystr;
  description : pystr
}.
End Category.

Module ConcurrencyAnalyzer.

(** The [concurrency_patterns] table, in the order it is written. *)
Definition concurrency_patterns : list Category.t :=
  [ Category.mk (lit "race_condition")
      [lit "race.*condition"; lit "race.*between"; lit "concurrent.*access";
       lit "parallel.*access"; lit "thread.*safety"; lit "atomic.*operation";
       lit "data.*race"]
      (lit "Race conditions between concurrent threads/processes");
    Category.mk (lit "deadlock")
      [lit "deadlock"; lit "lock.*order"; lit "circular.*dependency";
       lit "lock.*inversion"; lit "priority.*inversion"]
      (lit "Deadlock scenarios and lock ordering issues");
    Category.mk (lit "missing_lock")
      [lit "missing.*lock"; lit "no.*lock"; lit "unprotected.*access";
       lit "without.*lock"; lit "lock.*missing"]
      (lit "Missing locks for shared resource protection");
    Category.mk (lit "double_lock")
      [lit "double.*lock"; lit "reentrant.*lock"; lit "lock.*twice";
       lit "duplicate.*lock"]
      (lit "Double locking or reentrant lock issues");
    Category.mk (lit "spinlock_issue")
      [lit "spinlock"; lit "spin.*lock"; lit "busy.*wait"; lit "cpu.*spin"]
      (lit "Spinlock-related issues and CPU spinning");
    Category.mk (lit "mutex_issue")
      [lit "mutex"; lit "semaphore"; lit "rwlock"; lit "read.*write.*lock"]
      (lit "Mutex, semaphore, and read-write lock issues");
    Category.mk (lit "memory_barrier")
      [lit "memory.*barrier"; lit "barrier"; lit "fence";
       lit "ordering.*guarantee"]
      (lit "Memory ordering and barrier issues");
    Category.mk (lit "atomic_operation")
      [lit "atomic.*"; lit "cmpxchg"; lit "xchg"; lit "atomic.*read";
       lit "atomic.*write"]
      (lit "Atomic operation issues");
    Category.mk (lit "irq_lock")
      [lit "irq.*lock"; lit "interrupt.*lock"; lit "irq.*save";
       lit "irq.*restore"]
      (lit "Interrupt-related locking issues");
    Category.mk (lit "rcu_issue")
      [lit "rcu"; lit "read.*copy.*update"; lit "rcu.*lock";
       lit "rcu.*unlock"]
      (lit "Read-Copy Update (RCU) related issues") ].

Definition GENERAL : pystr := lit "general_concurrency".

Section Analyzer.

Context `{PythonLib}.

(** ** [load_results]: the findings of the rule [concurrency] *)
Definition load_results (data_findings : list Finding.t) : list Finding.t :=
  filter (λ issue, Finding.rule issue = lit "concurrency") data_findings.

(** ** [classify_concurrency_issues] *)

(** [for pattern in config['patterns']], left at the first match. *)
Fixpoint first_pattern (issue_text : pystr) (patterns : list pystr)
    : option pystr :=
  match patterns with
  | [] => None
  | pattern :: rest =>
      if re_search pattern issue_text [IGNORECASE] then Some pattern
      else first_pattern issue_text rest
  end.

(** [for category, config in concurrency_patterns.items()], left at
    the first category with a matching pattern. *)
Fixpoint first_category (issue_text : pystr) (categories : list Category.t)
    : option (Category.t * pystr) :=
  match categories with
  | [] => None
  | config :: rest =>
      match first_pattern issue_text (Category.patterns config) with
      | Some pattern => Some (config, pattern)
      | None => first_category issue_text rest
      end
  end.

(** [classified_issues[category].append(entry)] on a
    [defaultdict(list)]. *)
Definition append_to (classified : gmap pystr (list Issue.t))
    (category : pystr) (entry : Issue.t) : gmap pystr (list Issue.t) :=
  <[category := classified !!! category ++ [entry]]> classified.

(** The category an issue goes to, and the entry stored there. *)
Definition classify (categories : list Category.t) (issue : Finding.t)
    : pystr * Issue.t :=
  let issue_text := str_lower (Finding.match_ issue) in
  let file_path := Finding.file issue in
  match first_category issue_text categories with
  | Some (config, pattern) =>
      (Category.key config,
       {| Issue.file := file_path;
          Issue.line := Finding.line issue;
          Issue.match_ := Finding.match_ issue;
          Issue.context := Finding.context issue;
          Issue.pattern := pattern;
          Issue.description := Category.description config;
          Issue.code_snippet := None |})
  | None =>
      (GENERAL,
       {| Issue.file := file_path;
          Issue.line := Finding.line issue;
          Issue.match_ := Finding.match_ issue;
          Issue.context := Finding.context issue;
          Issue.pattern := Finding.pattern issue;
          Issue.description := lit "General concurrency issues";
          Issue.code_snippet := None |})
  end.

(** [for issue in self.concurrency_issues] over a given table. *)
Fixpoint classify_loop (categories : list Category.t)
    (classified : gmap pystr (list Issue.t))
    (concurrency_issues : list Finding.t) : gmap pystr (list Issue.t) :=
  match concurrency_issues with
  | [] => classified
  | issue :: rest =>
      let '(category, entry) := classify categories issue in
      classify_loop categories (append_to classified category entry) rest
  end.

Definition classify_concurrency_issues
    (classified : gmap pystr (list Issue.t))
    (concurrency_issues : list Finding.t) : gmap pystr (list Issue.t) :=
  classify_loop concurrency_patterns classified concurrency_issues.

(** ** [extract_code_snippets] *)

(** One line of the snippet: [f"{prefix}{i+1:4d}: {lines[i].rstrip()}"];
    [None] stands for the [IndexError] of [lines[i]]. *)
Definition snippet_line (lines : list pystr) (line_num i : Z)
    : option pystr :=
  let prefix := if bool_decide (i = line_num) then lit ">>> "
                else lit "    " in
  l ← PyStr.index lines i;
  Some (prefix ++ PyStr.format_d 4 (i + 1) ++ lit ": " ++ PyStr.rstrip l).

(** [f.readlines()] of a file opened like in [analyze_file]. *)
Definition read_lines (fs : FS.t) (p : PurePath.t) : outcome (list pystr) :=
  match FS.read fs p Codec.Ignore with
  | Returned content => Returned (PyStr.readlines content)
  | Raised e => Raised e
  end.

(** The [code_snippet] of one issue. *)
Definition code_snippet_of (fs : FS.t) (kernel_dir : PurePath.t)
    (issue : Issue.t) : list pystr :=
  let file_path := PurePath.join kernel_dir (Issue.file issue) in
  if FS.exists_ fs file_path then
    match read_lines fs file_path with
    | Raised e => [lit "Error reading file: " ++ exn_str e]
    | Returned lines =>
        let line_num := Issue.line issue - 1 in
        let start := Z.max 0 (line_num - 5) in
        let end_ := Z.min (PyStr.len lines) (line_num + 6) in
        match mapM (snippet_line lines line_num) (PyStr.range start end_) with
        | Some code_snippet => code_snippet
        | None => [lit "Error reading file: list index out of range"]
        end
    end
  else [lit "File not found: " ++ PurePath.to_str file_path].

Definition with_snippet (fs : FS.t) (kernel_dir : PurePath.t)
    (issue : Issue.t) : Issue.t :=
  {| Issue.file := Issue.file issue;
     Issue.line := Issue.line issue;
     Issue.match_ := Issue.match_ issue;
     Issue.context := Issue.context issue;
     Issue.pattern := Issue.pattern issue;
     Issue.description := Issue.description issue;
     Issue.code_snippet := Some (code_snippet_of fs kernel_dir issue) |}.

Definition extract_code_snippets (fs : FS.t) (kernel_path : pystr)
    (classified : gmap pystr (list Issue.t)) : gmap pystr (list Issue.t) :=
  let kernel_dir := PurePath.of_str kernel_path in
  fmap (M := gmap pystr) (fmap (M := list) (with_snippet fs kernel_dir))
       classified.

End Analyzer.
End ConcurrencyAnalyzer.

(** ** The detailed report: [save_detailed_report] and [run_analysis] *)

Module CategoryReport.
(** An entry of [report_data['categories']]. *)
Record t := mk {
  count : Z;
  description : pystr;
  issues : list Issue.t
}.
End CategoryReport.

(** [report_data]: its [summary] and its [categories]. *)
Record ReportData := {
  total_concurrency_issues : Z;
  categories_found : Z;
  analysis_date : pystr;
  categories : gmap pystr CategoryReport.t
}.

Module ConcurrencyReport.
Section Report.

Context `{PythonLib}.
Import ConcurrencyAnalyzer.

(** The document [save_detailed_report] hands to [json.dump]. *)
Definition save_detailed_report (concurrency_issues : list Finding.t)
    (classified_issues : gmap pystr (list Issue.t)) : ReportData :=
  {| total_concurrency_issues := PyStr.len concurrency_issues;
     categories_found := Z.of_nat (size classified_issues);
     analysis_date := lit "2025-06-29";
     categories :=
       (λ issues,
          {| CategoryReport.count := PyStr.len issues;
             CategoryReport.description :=
               match issues with
               | issue :: _ => Issue.description issue
               | [] => lit ""
               end;
             CategoryReport.issues := issues |})
         <$> classified_issues |}.

(** [run_analysis] on a fresh analyzer: [data] is the [findings] of the
    results document, or the exception met while loading it, after
    which [load_results] returns [False] and nothing is written.
    [generate_report] only prints. *)
Definition run_analysis (fs : FS.t) (data : outcome (list Finding.t))
    : option ReportData :=
  match data with
  | Raised _ => None
  | Returned data_findings =>
      let concurrency_issues := load_results data_findings in
      let classified_issues :=
        classify_concurrency_issues ∅ concurrency_issues in
      let classified_issues :=
        extract_code_snippets fs (lit "linux") classified_issues in
      Some (save_detailed_report concurrency_issues classified_issues)
  end.

End Report.
End ConcurrencyReport.

(** * The vocabulary of the properties *)

(** The configuration with another rule set. *)
Definition with_rules (config : Config) (rules : list (pystr * Rule.t))
    : Config :=
  {| kernel_repository := kernel_repository config;
     exclude_patterns := exclude_patterns config;
     max_file_size := max_file_size config;
     max_concurrent_analyzers := max_concurrent_analyzers config;
     detection_rules := rules |}.

(** The rule with another pattern list. *)
Definition with_patterns (rule_config : Rule.t) (patterns : list pystr)
    : Rule.t :=
  {| Rule.enabled := Rule.enabled rule_config;
     Rule.severity := Rule.severity rule_config;
     Rule.directories := Rule.directories rule_config;
     Rule.patterns := Some patterns |}.

(** The rule with [severity] set. *)
Definition with_severity (rule_config : Rule.t) (severity : pystr)
    : Rule.t :=
  {| Rule.enabled := Rule.enabled rule_config;
     Rule.severity := Some severity;
     Rule.directories := Rule.directories rule_config;
     Rule.patterns := Rule.patterns rule_config |}.

(** What a call hands back to its caller: the list it returns, nothing
    when it raises. *)
Definition emitted (r : logged (outcome (list Finding.t))) : list Finding.t :=
  match r.2 with
  | Returned l => l
  | Raised _ => []
  end.

Section Vocabulary.

Context `{PythonLib}.
Import AntiPatternDetector.
Import ConcurrencyAnalyzer.

Definition SCAN_FLAGS : list re_flag := [IGNORECASE; MULTILINE].

(** The rule is enabled and names a directory that occurs in
    [file_dir]. *)
Definition rule_selected (rule_config : Rule.t) (file_dir : pystr) : bool :=
  default true (Rule.enabled rule_config)
  && existsb (λ target_dir, PyStr.contains target_dir file_dir)
             (default [] (Rule.directories rule_config)).

(** All matches of a pattern in the text; none when [re.finditer]
    raises. *)
Definition all_matches (pattern content : pystr) : list Match :=
  match re_finditer pattern content SCAN_FLAGS with
  | Matches matches => matches
  | ReError _ | Raises _ => []
  end.

(** The exception other than [re.error] that [re.finditer] raises for
    the pattern on the text, if any. *)
Definition pattern_raise (pattern content : pystr) : option exn :=
  match re_finditer pattern content SCAN_FLAGS with
  | Raises e => Some e
  | Matches _ | ReError _ => None
  end.

(** The patterns tried on a file, in the order they are tried: those of
    the selected rules. *)
Definition scanned_patterns (file_dir : pystr)
    (rules : list (pystr * Rule.t)) : list pystr :=
  rule ← rules;
  if rule_selected rule.2 file_dir
  then default [] (Rule.patterns rule.2)
  else [].

(** The exception of the first pattern for which [re.finditer] raises
    something other than [re.error]. *)
Fixpoint first_raise (content : pystr) (patterns : list pystr)
    : option exn :=
  match patterns with
  | [] => None
  | pattern :: rest =>
      match pattern_raise pattern content with
      | Some e => Some e
      | None => first_raise content rest
      end
  end.

(** The patterns tried before that one; all of them when there is
    none. *)
Fixpoint tried_patterns (content : pystr) (patterns : list pystr)
    : list pystr :=
  match patterns with
  | [] => []
  | pattern :: rest =>
      match pattern_raise pattern content with
      | Some _ => []
      | None => pattern :: tried_patterns content rest
      end
  end.

(** The findings the design document asks for: one per match of each
    pattern of each selected rule. *)
Definition expected_findings (file_path : PurePath.t) (content : pystr)
    (file_dir : pystr) (rules : list (pystr * Rule.t)) : list Finding.t :=
  rule ← rules;
  if rule_selected rule.2 file_dir then
    pattern ← default [] (Rule.patterns rule.2);
    m ← all_matches pattern content;
    [finding_of file_path content (PyStr.split NL content)
       rule.1 rule.2 pattern m]
  else [].

(** The warning a pattern that does not compile leaves in the log. *)
Definition regex_warning (pattern content : pystr) : list log_event :=
  match re_finditer pattern content SCAN_FLAGS with
  | ReError e => [LogWarning (lit "Invalid regex pattern '" ++ pattern
                              ++ lit "': " ++ e)]
  | Matches _ | Raises _ => []
  end.

(** The warnings of the patterns tried on a file. *)
Definition expected_warnings (content : pystr) (file_dir : pystr)
    (rules : list (pystr * Rule.t)) : list log_event :=
  pattern ← tried_patterns content (scanned_patterns file_dir rules);
  regex_warning pattern content.

Definition invalid_regex_warning (pattern e : pystr) : log_event :=
  LogWarning (lit "Invalid regex pattern '" ++ pattern ++ lit "': " ++ e).

Section OfFile.

Variable config : Config.
Variable fs : FS.t.

(** The findings of a file, as the design document describes them:
    those of the text read from it, for the directory it has under the
    repository directory; none when [re.finditer] raises something
    other than [re.error] for one of the patterns tried. *)
Definition scan_result (file_path : PurePath.t) : list Finding.t :=
  match FS.read fs file_path Codec.Ignore,
        PurePath.relative_to (PurePath.parent file_path)
                             (repository_dir config) with
  | Returned content, Returned rel =>
      match first_raise content
              (scanned_patterns (PurePath.to_str rel)
                                (detection_rules config)) with
      | None =>
          expected_findings file_path content (PurePath.to_str rel)
                            (detection_rules config)
      | Some _ => []
      end
  | _, _ => []
  end.

(** The scan of a text already read: the part of [analyze_file] after
    the [try] that reads the file. *)
Definition scan_text (file_path : PurePath.t)
    (content : pystr) : logged (outcome (list Finding.t)) :=
  for_rules config file_path content (PyStr.split NL content) ([], [])
            (detection_rules config).

End OfFile.

(** The number of lines of a text: the length of [content.split('\n')]. *)
Definition number_of_lines (content : pystr) : Z :=
  PyStr.len (PyStr.split NL content).

(** The lines numbered [first] through [last], counting from one. *)
Definition lines_from_through (lines : list pystr) (first last : Z)
    : list pystr :=
  omap (λ i, PyStr.index lines (i - 1)) (PyStr.range first (last + 1)).

(** Where a finding comes from: the position of its rule in the rule
    set, the position of its pattern in the rule, the start of its
    match. *)
Definition origin : Type := nat * nat * Z.

(** Rule first, then pattern, then match position. *)
Definition origin_le (a b : origin) : Prop :=
  (a.1.1 < b.1.1)%nat
  ∨ (a.1.1 = b.1.1
     ∧ ((a.1.2 < b.1.2)%nat ∨ (a.1.2 = b.1.2 ∧ a.2 ≤ b.2))).

Section Traced.

Variable file_path : PurePath.t.
Variable content : pystr.

Definition traced_pattern (rule_name : pystr) (rule_config : Rule.t)
    (i j : nat) (pattern : pystr) : list (origin * Finding.t) :=
  (λ m, ((i, j, m_start m),
         finding_of file_path content (PyStr.split NL content)
           rule_name rule_config pattern m))
    <$> all_matches pattern content.

Fixpoint traced_patterns (rule_name : pystr) (rule_config : Rule.t)
    (i j : nat) (patterns : list pystr) : list (origin * Finding.t) :=
  match patterns with
  | [] => []
  | pattern :: rest =>
      traced_pattern rule_name rule_config i j pattern
      ++ traced_patterns rule_name rule_config i (S j) rest
  end.

Fixpoint traced_rules (file_dir : pystr) (i : nat)
    (rules : list (pystr * Rule.t)) : list (origin * Finding.t) :=
  match rules with
  | [] => []
  | rule :: rest =>
      (if rule_selected rule.2 file_dir
       then traced_patterns rule.1 rule.2 i O
              (default [] (Rule.patterns rule.2))
       else [])
      ++ traced_rules file_dir (S i) rest
  end.

End Traced.

(** The findings of a file, each with its origin. *)
Definition traced_result (config : Config) (fs : FS.t)
    (file_path : PurePath.t) : list (origin * Finding.t) :=
  match FS.read fs file_path Codec.Ignore,
        PurePath.relative_to (PurePath.parent file_path)
                             (repository_dir config) with
  | Returned content, Returned rel =>
      match first_raise content
              (scanned_patterns (PurePath.to_str rel)
                                (detection_rules config)) with
      | None =>
          traced_rules file_path content (PurePath.to_str rel) O
                       (detection_rules config)
      | Some _ => []
      end
  | _, _ => []
  end.

(** The file matches one of the exclude patterns. *)
Definition excluded (config : Config) (file_path : PurePath.t) : bool :=
  existsb (λ pattern, path_match file_path pattern) (exclude_patterns config).

(** The file can be [stat]-ed and is no larger than the cap. *)
Definition within_cap (config : Config) (fs : FS.t) (file_path : PurePath.t)
    : bool :=
  match FS.st_size fs file_path with
  | Returned n => bool_decide (n ≤ max_file_size config)
  | Raised _ => false
  end.

(** [sum(d.values())] *)
Definition sum_values (m : gmap pystr Z) : Z :=
  map_fold (λ _ v acc, v + acc) 0 m.

(** The severities the statistics start with. *)
Definition known_severity (severity : pystr) : Prop :=
  severity ∈ [lit "critical"; lit "high"; lit "medium"; lit "low"].

(** What the loop of [analyze_kernel] keeps true in any case. *)
Definition totals_agree (acc : Progress) : Prop :=
  total_findings (stats acc) = PyStr.len (all_findings acc).

(** What it keeps true as long as every severity is a known one. *)
Definition severities_agree (acc : Progress) : Prop :=
  sum_values (findings_by_severity (stats acc)) = total_findings (stats acc)
  ∧ ∀ k, known_severity k → is_Some (findings_by_severity (stats acc) !! k).

(** The number of entries of all categories together. *)
Definition total_issues (classified : gmap pystr (list Issue.t)) : Z :=
  map_fold (λ _ issues acc, PyStr.len issues + acc) 0 classified.

(** A pattern of the category is found in the text. *)
Definition category_matches (config : Category.t) (issue_text : pystr)
    : Prop :=
  ∃ pattern, pattern ∈ Category.patterns config
             ∧ re_search pattern issue_text [IGNORECASE] = true.

(** The text [classify_concurrency_issues] searches: the matched text
    of the finding, lowered. *)
Definition issue_text (issue : Finding.t) : pystr :=
  str_lower (Finding.match_ issue).

(** The category of the table, or the general one, with a given
    description. *)
Definition category_described (description : pystr) : pystr :=
  match filter (λ config, Category.description config = description)
               concurrency_patterns with
  | config :: _ => Category.key config
  | [] => GENERAL
  end.

(** A line of a snippet: the matched line marked, its number, its text
    without trailing white space. *)
Definition annotated (line number : Z) (text : pystr) : pystr :=
  (if bool_decide (number = line) then lit ">>> " else lit "    ")
  ++ PyStr.format_d 4 number ++ lit ": " ++ PyStr.rstrip text.

(** The lines [first] through [last] of the file, annotated. *)
Definition annotated_window (lines : list pystr) (line first last : Z)
    : list pystr :=
  omap (λ number, annotated line number <$> PyStr.index lines (number - 1))
       (PyStr.range first (last + 1)).

(** Whether a call returned rather than raised. *)
Definition returned {A} (r : logged (outcome A)) : bool :=
  match r.2 with
  | Returned _ => true
  | Raised _ => false
  end.

(** The number of findings of a severity, of a rule. *)
Definition count_severity (severity : pystr) (findings : list Finding.t)
    : Z :=
  PyStr.len (filter (λ f, Finding.severity f = severity) findings).

Definition count_rule (rule : pystr) (findings : list Finding.t) : Z :=
  PyStr.len (filter (λ f, Finding.rule f = rule) findings).

(** The per-severity and per-rule counters are those of a list of
    findings: a severity counter for each of the four severities and no
    other, a rule counter for each rule that occurs and no other. *)
Definition tallied (st : Statistics) (counted : list Finding.t) : Prop :=
  (∀ severity, known_severity severity →
     findings_by_severity st !! severity
     = Some (count_severity severity counted))
  ∧ (∀ severity, ¬ known_severity severity →
       findings_by_severity st !! severity = None)
  ∧ (∀ rule, count_rule rule counted ≠ 0 →
       findings_by_rule st !! rule = Some (count_rule rule counted))
  ∧ (∀ rule, count_rule rule counted = 0 →
       findings_by_rule st !! rule = None).

(** No rule configures a severity outside the four. *)
Definition severities_known (config : Config) : Prop :=
  ∀ rule_name rule_config severity,
    (rule_name, rule_config) ∈ detection_rules config →
    Rule.severity rule_config = Some severity → known_severity severity.

(** The file can be [stat]-ed and is larger than the cap. *)
Definition too_large (config : Config) (fs : FS.t) (file_path : PurePath.t)
    : bool :=
  match FS.st_size fs file_path with
  | Returned n => n >? max_file_size config
  | Raised _ => false
  end.

Definition skipping_large_file (file_path : PurePath.t) : log_event :=
  LogDebug (lit "Skipping large file: " ++ PurePath.to_str file_path).

Definition could_not_read (file_path : PurePath.t) (e : exn) : log_event :=
  LogWarning (lit "Could not read " ++ PurePath.to_str file_path
              ++ lit ": " ++ exn_str e).




End Vocabulary.

(** ** A small instance of the library interface

    Enough of [re] to run examples: literal characters, [.], [\s], each
    optionally followed by [*], [+] (greedy) or a repetition count
    [{n}], compared without regard to ASCII case.  A count of
    [MAXREPEAT] or more raises [OverflowError], as in [re]; any other
    use of a metacharacter is rejected the way [re] rejects a pattern
    that does not compile.  [str.lower] on ASCII letters; [Path.match]
    for a pattern that is a plain file name. *)

Module SimpleLib.

Inductive atom := Lit (c : N) | AnyChar | White.
Inductive quant := One | Star | Plus | Times (n : N).
Inductive sym := A (a : atom) | Q (q : quant).

(** [_sre.MAXREPEAT] *)
Definition MAXREPEAT : N := 4294967295.

Definition lower_char (c : N) : N :=
  if ((65 <=? c) && (c <=? 90))%N then (c + 32)%N else c.

Definition is_meta (c : N) : bool :=
  bool_decide (c ∈ lit "()[]{}|^$?\").

Definition is_digit (c : N) : bool := ((48 <=? c) && (c <=? 57))%N.

(** [count] is the number read so far between [{] and [}]. *)
Fixpoint lex (count : option N) (p : pystr) : option (list sym) :=
  match p with
  | [] =>
      match count with
      | None => Some []
      | Some _ => None
      end
  | c :: p1 =>
      match count with
      | Some n =>
          if is_digit c then lex (Some (10 * n + (c - 48))%N) p1
          else if (c =? 125)%N then (Q (Times n) ::.) <$> lex None p1
          else None
      | None =>
          if (c =? 92)%N then
            match p1 with
            | s :: p2 =>
                if (s =? 115)%N then (A White ::.) <$> lex None p2 else None
            | [] => None
            end
          else if (c =? 123)%N then
            match p1 with
            | d :: _ => if is_digit d then lex (Some 0%N) p1 else None
            | [] => None
            end
          else if (c =? 46)%N then (A AnyChar ::.) <$> lex None p1
          else if (c =? 42)%N then (Q Star ::.) <$> lex None p1
          else if (c =? 43)%N then (Q Plus ::.) <$> lex None p1
          else if is_meta c then None
          else (A (Lit c) ::.) <$> lex None p1
      end
  end.

Fixpoint group (l : list sym) : option (list (atom * quant)) :=
  match l with
  | [] => Some []
  | Q _ :: _ => None
  | A a :: l1 =>
      match l1 with
      | Q q :: l2 => ((a, q) ::.) <$> group l2
      | _ => ((a, One) ::.) <$> group l1
      end
  end.

Definition count_too_large (s : sym) : bool :=
  match s with
  | Q (Times n) => (MAXREPEAT <=? n)%N
  | _ => false
  end.

Inductive compiled :=
  | Compiled (toks : list (atom * quant))
  | Invalid
  | Overflow.

Definition compile (p : pystr) : compiled :=
  match lex None p with
  | None => Invalid
  | Some syms =>
      if existsb count_too_large syms then Overflow
      else match group syms with
           | Some toks => Compiled toks
           | None => Invalid
           end
  end.

Definition atom_matches (a : atom) (x : N) : bool :=
  match a with
  | Lit c => (lower_char x =? lower_char c)%N
  | AnyChar => negb (x =? NL)%N
  | White => ((9 <=? x) && (x <=? 13) || (x =? 32))%N
  end.

(** The length of the match of [toks] at the head of the text. *)
Fixpoint match_here (toks : list (atom * quant)) : pystr → option nat :=
  match toks with
  | [] => λ _, Some O
  | (a, q) :: ts =>
      let rest := match_here ts in
      let star :=
        fix star (s : pystr) : option nat :=
          match s with
          | x :: s' =>
              if atom_matches a x
              then match star s' with
                   | Some n => Some (S n)
                   | None => rest s
                   end
              else rest s
          | [] => rest s
          end in
      match q with
      | One => λ s,
          match s with
          | x :: s' => if atom_matches a x then S <$> rest s' else None
          | [] => None
          end
      | Star => star
      | Plus => λ s,
          match s with
          | x :: s' => if atom_matches a x then S <$> star s' else None
          | [] => None
          end
      | Times n =>
          let times :=
            fix times (s : pystr) (k : N) : option nat :=
              if (k =? 0)%N then rest s
              else
                match s with
                | x :: s' =>
                    if atom_matches a x
                    then S <$> times s' (N.pred k)
                    else None
                | [] => None
                end in
          λ s, times s n
      end
  end.

Fixpoint search_from (toks : list (atom * quant)) (s : pystr) : bool :=
  match match_here toks s with
  | Some _ => true
  | None =>
      match s with
      | [] => false
      | _ :: s' => search_from toks s'
      end
  end.

(** All matches from left to right without overlap; [skip] counts the
    characters of the last match still to pass. *)
Fixpoint scan (toks : list (atom * quant)) (pos : Z) (skip : nat)
    (s : pystr) : list Match :=
  match s with
  | [] =>
      match skip, match_here toks [] with
      | O, Some _ => [{| m_start := pos; m_group0 := [] |}]
      | _, _ => []
      end
  | _ :: s' =>
      match skip with
      | S k => scan toks (pos + 1) k s'
      | O =>
          match match_here toks s with
          | Some n =>
              {| m_start := pos; m_group0 := take n s |}
                :: scan toks (pos + 1) (n - 1)%nat s'
          | None => scan toks (pos + 1) O s'
          end
      end
  end.

Definition finditer (pattern string : pystr) (flags : list re_flag)
    : finditer_result :=
  match compile pattern with
  | Compiled toks => Matches (scan toks 0 O string)
  | Invalid => ReError (lit "pattern does not compile")
  | Overflow =>
      Raises (OverflowError (lit "the repetition number is too large"))
  end.

Definition search (pattern string : pystr) (flags : list re_flag) : bool :=
  match compile pattern with
  | Compiled toks => search_from toks string
  | Invalid | Overflow => false
  end.

Definition lower (s : pystr) : pystr := lower_char <$> s.

Definition name_match (p : PurePath.t) (pattern : pystr) : bool :=
  bool_decide (PurePath.name p = pattern).

End SimpleLib.

(** ** A small corpus for examples *)

Module Demo.

Definition config : Config :=
  {| kernel_repository := lit "https://github.com/torvalds/linux.git";
     exclude_patterns := [lit "skip.c"];
     max_file_size := 300;
     max_concurrent_analyzers := 4;
     detection_rules :=
       [(lit "concurrency",
         {| Rule.enabled := Some true;
            Rule.severity := Some (lit "high");
            Rule.directories := Some [lit "kernel"];
            Rule.patterns := Some [lit "race\s+condition"] |})] |}.

Definition foo_text : string :=
"#include <linux/kernel.h>
#include <linux/spinlock.h>

static int counter;

void bump(void)
{
    int tmp = counter;

    /* possible race condition here */
    counter = tmp + 1;
}
".

Definition foo_c : PurePath.t := PurePath.of_str (lit "linux/kernel/foo.c").

Definition fs : FS.t := [(foo_c, FS.Regular (list_byte_of_string foo_text))].

(** The finding the scan of [foo_c] gives. *)
Definition finding : Finding.t :=
  {| Finding.file := lit "linux/kernel/foo.c";
     Finding.line := 10;
     Finding.pattern := lit "race\s+condition";
     Finding.rule := lit "concurrency";
     Finding.severity := lit "high";
     Finding.match_ := lit "race condition";
     Finding.context :=
       [lit "{"; lit "    int tmp = counter;"; lit "";
        lit "    /* possible race condition here */";
        lit "    counter = tmp + 1;"; lit "}"; lit ""] |}.

(** A rule set with a pattern that does not compile. *)
Definition racy : Rule.t :=
  {| Rule.enabled := Some true;
     Rule.severity := Some (lit "high");
     Rule.directories := Some [lit "kernel"];
     Rule.patterns :=
       Some ([lit "race\s+condition"] ++ lit "(" :: [lit "counter"]) |}.

Definition config_bad : Config :=
  with_rules config ([] ++ (lit "concurrency", racy) :: []).

(** Files at and around the size cap, a name the configuration
    excludes. *)
Definition config_cap : Config :=
  {| kernel_repository := kernel_repository config;
     exclude_patterns := exclude_patterns config;
     max_file_size := 5;
     max_concurrent_analyzers := max_concurrent_analyzers config;
     detection_rules := detection_rules config |}.

Definition at_cap_c : PurePath.t := PurePath.of_str (lit "linux/mm/at_cap.c").
Definition over_cap_c : PurePath.t := PurePath.of_str (lit "linux/mm/over.c").
Definition skip_c : PurePath.t := PurePath.of_str (lit "linux/mm/skip.c").

Definition fs_cap : FS.t :=
  [(at_cap_c, FS.Regular (list_byte_of_string "12345"));
   (skip_c, FS.Dangling (lit "No such file or directory"));
   (over_cap_c, FS.Regular (list_byte_of_string "123456"))].

(** A rule whose severity is not one of the four the statistics start
    with. *)
Definition config_info : Config :=
  with_rules config
    [(lit "memory",
      {| Rule.enabled := Some true;
         Rule.severity := Some (lit "info");
         Rule.directories := Some [lit "kernel"];
         Rule.patterns := Some [lit "counter"] |})].

(** The same without exclude patterns. *)
Definition config_all : Config :=
  {| kernel_repository := kernel_repository config;
     exclude_patterns := [];
     max_file_size := 5;
     max_concurrent_analyzers := max_concurrent_analyzers config;
     detection_rules := detection_rules config |}.

(** The same file in a corpus that is not named after the
    repository. *)
Definition other_foo_c : PurePath.t :=
  PurePath.of_str (lit "other/kernel/foo.c").

Definition fs_other : FS.t :=
  [(other_foo_c, FS.Regular (list_byte_of_string foo_text))].

(** A rule set with a repetition count [re] refuses with
    [OverflowError]. *)
Definition overflowing : Rule.t :=
  {| Rule.enabled := Some true;
     Rule.severity := Some (lit "high");
     Rule.directories := Some [lit "kernel"];
     Rule.patterns :=
       Some [lit "race\s+condition"; lit "x{4294967296}"; lit "counter"] |}.

Definition config_overflow : Config :=
  with_rules config [(lit "concurrency", overflowing)].

(** The rule set without that pattern. *)
Definition config_counter : Config :=
  with_rules config
    [(lit "concurrency",
      with_patterns overflowing [lit "race\s+condition"; lit "counter"])].

(** A corpus of two files. *)
Definition bar_text : string :=
"/* race  condition on the list */
".

Definition bar_c : PurePath.t := PurePath.of_str (lit "linux/kernel/bar.c").

Definition fs_two : FS.t :=
  [(foo_c, FS.Regular (list_byte_of_string foo_text));
   (bar_c, FS.Regular (list_byte_of_string bar_text))].

(** The entry classification makes of [finding]. *)
Definition issue : Issue.t :=
  {| Issue.file := lit "linux/kernel/foo.c";
     Issue.line := 10;
     Issue.match_ := lit "race condition";
     Issue.context := Finding.context finding;
     Issue.pattern := lit "race.*condition";
     Issue.description :=
       lit "Race conditions between concurrent threads/processes";
     Issue.code_snippet := None |}.

End Demo.

(** * The small instance satisfies the interface *)

Module SimplePython.

Import SimpleLib.

Lemma scan_from toks s : ∀ pos skip,
  Forall (λ m, pos ≤ m_start m) (scan toks pos skip s).
Proof.
  induction s as [|x s IH]; intros pos skip; simpl.
  - destruct skip, (match_here toks []); repeat constructor; simpl; lia.
  - destruct skip as [|k].
    + destruct (match_here toks (x :: s)).
      * constructor; [simpl; lia|].
        eapply Forall_impl; [apply IH|]. simpl. intros; lia.
      * eapply Forall_impl; [apply IH|]. simpl. intros; lia.
    + eapply Forall_impl; [apply IH|]. simpl. intros; lia.
Qed.

Lemma scan_ascending toks s : ∀ pos skip,
  StronglySorted Z.le (m_start <$> scan toks pos skip s).
Proof.
  induction s as [|x s IH]; intros pos skip; simpl.
  - destruct skip, (match_here toks []); repeat constructor.
  - destruct skip as [|k]; [|apply IH].
    destruct (match_here toks (x :: s)); [|apply IH].
    simpl. constructor; [apply IH|].
    apply Forall_fmap.
    eapply Forall_impl; [apply scan_from|]. simpl. intros; lia.
Qed.

Lemma finditer_ascending pattern string flags matches :
  finditer pattern string flags = Matches matches →
  StronglySorted Z.le (m_start <$> matches).
Proof.
  unfold finditer. destruct (compile pattern); [|done..].
  intros [= <-]. apply scan_ascending.
Qed.

Definition lib : PythonLib :=
  {| re_finditer := finditer;
     re_search := search;
     str_lower := lower;
     path_match := name_match;
     re_finditer_ascending := finditer_ascending |}.

End SimplePython.

(** * Properties of [analyze_file] *)

Section AnalyzeFileLemmas.

Context `{PythonLib}.
Variable config : Config.
Variable fs : FS.t.

Import AntiPatternDetector.

Lemma for_matches_app file_path content lines rule_name rule_config pattern :
  ∀ matches findings,
    for_matches file_path content lines rule_name rule_config pattern
      findings matches
    = findings
      ++ (finding_of file_path content lines rule_name rule_config pattern
            <$> matches).
Proof.
  induction matches as [|m ms IH]; intros findings; simpl.
  - by rewrite app_nil_r.
  - by rewrite IH, <- app_assoc.
Qed.

Lemma regex_warning_raise pattern content e :
  pattern_raise pattern content = Some e →
  regex_warning pattern content = [].
Proof.
  unfold pattern_raise, regex_warning.
  by destruct (re_finditer pattern content SCAN_FLAGS).
Qed.

Lemma first_raise_app content a b :
  first_raise content (a ++ b)
  = match first_raise content a with
    | Some e => Some e
    | None => first_raise content b
    end.
Proof.
  induction a as [|p a IH]; simpl; [done|].
  by destruct (pattern_raise p content).
Qed.

Lemma tried_patterns_app content a b :
  tried_patterns content (a ++ b)
  = match first_raise content a with
    | Some _ => tried_patterns content a
    | None => a ++ tried_patterns content b
    end.
Proof.
  induction a as [|p a IH]; simpl; [done|].
  destruct (pattern_raise p content); [done|].
  rewrite IH. by destruct (first_raise content a).
Qed.

Lemma tried_patterns_all content patterns :
  first_raise content patterns = None →
  tried_patterns content patterns = patterns.
Proof.
  induction patterns as [|p ps IH]; simpl; [done|].
  destruct (pattern_raise p content); [done|].
  intros Hps. by rewrite IH.
Qed.

Lemma first_raise_None content patterns pattern :
  first_raise content patterns = None →
  pattern ∈ patterns →
  pattern_raise pattern content = None.
Proof.
  induction patterns as [|p ps IH]; simpl; [by intros _ ?%elem_of_nil|].
  destruct (pattern_raise p content) eqn:Hp; [done|].
  intros Hps [->|Hin]%elem_of_cons; auto.
Qed.

Lemma scanned_patterns_cons file_dir rule rules :
  scanned_patterns file_dir (rule :: rules)
  = (if rule_selected rule.2 file_dir
     then default [] (Rule.patterns rule.2) else [])
    ++ scanned_patterns file_dir rules.
Proof. reflexivity. Qed.

Lemma scanned_patterns_app file_dir rules1 rules2 :
  scanned_patterns file_dir (rules1 ++ rules2)
  = scanned_patterns file_dir rules1 ++ scanned_patterns file_dir rules2.
Proof. unfold scanned_patterns. by rewrite bind_app. Qed.

Lemma try_pattern_spec file_path content rule_name rule_config st pattern :
  try_pattern file_path content (PyStr.split NL content)
    rule_name rule_config st pattern
  = (st.1 ++ regex_warning pattern content,
     match pattern_raise pattern content with
     | Some e => Raised e
     | None =>
         Returned
           (st.2 ++ (m ← all_matches pattern content;
                     [finding_of file_path content (PyStr.split NL content)
                        rule_name rule_config pattern m]))
     end).
Proof.
  unfold try_pattern, regex_warning, all_matches, pattern_raise, SCAN_FLAGS.
  destruct (re_finditer pattern content [IGNORECASE; MULTILINE])
    as [matches|e|e]; simpl.
  - rewrite for_matches_app, app_nil_r. reflexivity.
  - by rewrite app_nil_r.
  - by rewrite app_nil_r.
Qed.

Lemma for_patterns_spec file_path content rule_name rule_config :
  ∀ patterns st,
    for_patterns file_path content (PyStr.split NL content)
      rule_name rule_config st patterns
    = (st.1 ++ (pattern ← tried_patterns content patterns;
                regex_warning pattern content),
       match first_raise content patterns with
       | Some e => Raised e
       | None =>
           Returned
             (st.2 ++ (pattern ← patterns;
                       m ← all_matches pattern content;
                       [finding_of file_path content (PyStr.split NL content)
                          rule_name rule_config pattern m]))
       end).
Proof.
  induction patterns as [|p ps IH]; intros [log findings]; simpl.
  - by rewrite !app_nil_r.
  - rewrite try_pattern_spec. simpl.
    destruct (pattern_raise p content) as [e|] eqn:Hp; simpl.
    + by rewrite (regex_warning_raise _ _ _ Hp).
    + rewrite IH. simpl. rewrite <- app_assoc.
      destruct (first_raise content ps); [done|].
      by rewrite <- app_assoc.
Qed.

Lemma for_rules_cons file_path content lines rel rule_name rule_config
    rules st :
  PurePath.relative_to (PurePath.parent file_path) (repository_dir config)
    = Returned rel →
  for_rules config file_path content lines st
    ((rule_name, rule_config) :: rules)
  = if rule_selected rule_config (PurePath.to_str rel)
    then
      match for_patterns file_path content lines rule_name rule_config st
              (default [] (Rule.patterns rule_config)) with
      | (log, Returned findings) =>
          for_rules config file_path content lines (log, findings) rules
      | (log, Raised e) => (log, Raised e)
      end
    else for_rules config file_path content lines st rules.
Proof.
  intros Hrel. unfold rule_selected. simpl.
  destruct (default true (Rule.enabled rule_config)); simpl; [|done].
  rewrite Hrel. by destruct (existsb _ _).
Qed.

Lemma expected_findings_cons file_path content file_dir rule rules :
  expected_findings file_path content file_dir (rule :: rules)
  = (if rule_selected rule.2 file_dir then
       pattern ← default [] (Rule.patterns rule.2);
       m ← all_matches pattern content;
       [finding_of file_path content (PyStr.split NL content)
          rule.1 rule.2 pattern m]
     else [])
    ++ expected_findings file_path content file_dir rules.
Proof. reflexivity. Qed.

(** The loop over the rules, when the directory of the file lies under
    the repository directory. *)
Lemma for_rules_spec file_path content rel :
  PurePath.relative_to (PurePath.parent file_path) (repository_dir config)
    = Returned rel →
  ∀ rules st,
    for_rules config file_path content (PyStr.split NL content) st rules
    = (st.1 ++ expected_warnings content (PurePath.to_str rel) rules,
       match first_raise content
               (scanned_patterns (PurePath.to_str rel) rules) with
       | Some e => Raised e
       | None =>
           Returned (st.2 ++ expected_findings file_path content
                               (PurePath.to_str rel) rules)
       end).
Proof.
  intros Hrel. unfold expected_warnings.
  induction rules as [|[rule_name rule_config] rules IH];
    intros [log findings].
  - simpl. by rewrite !app_nil_r.
  - rewrite (for_rules_cons _ _ _ _ _ _ _ _ Hrel), scanned_patterns_cons,
      first_raise_app, tried_patterns_app, expected_findings_cons.
    cbn [fst snd].
    destruct (rule_selected rule_config (PurePath.to_str rel)) eqn:Hsel.
    + rewrite for_patterns_spec. cbn [fst snd].
      destruct (first_raise content
                  (default [] (Rule.patterns rule_config))) eqn:Hps; [done|].
      rewrite IH. cbn [fst snd].
      rewrite (tried_patterns_all _ _ Hps), bind_app, <- !app_assoc.
      by destruct (first_raise content _).
    + rewrite IH. cbn [fst snd first_raise tried_patterns app].
      by destruct (first_raise content _).
Qed.

(** The loop over the rules, when it is not: the first enabled rule
    raises; with no enabled rule nothing is found. *)
Lemma for_rules_outside file_path content lines e :
  PurePath.relative_to (PurePath.parent file_path) (repository_dir config)
    = Raised e →
  ∀ rules st,
    for_rules config file_path content lines st rules
    = (st.1,
       if forallb (λ rule, negb (default true (Rule.enabled rule.2))) rules
       then Returned st.2 else Raised e).
Proof.
  intros Hrel. induction rules as [|[rule_name rule_config] rules IH];
    intros st; simpl; [done|].
  destruct (default true (Rule.enabled rule_config)); simpl.
  - by rewrite Hrel.
  - apply IH.
Qed.

Lemma starts_with_spec p : ∀ s,
  PyStr.starts_with p s = true ↔ ∃ post, s = p ++ post.
Proof.
  induction p as [|a p IH]; intros s; simpl.
  - split; [eauto|done].
  - destruct s as [|b s].
    + split; [done|]. by intros [post ?].
    + rewrite andb_true_iff, N.eqb_eq, IH. split.
      * intros [-> [post ->]]. by exists post.
      * intros [post [= -> ->]]. eauto.
Qed.

(** [needle in hay] is the substring test. *)
Lemma contains_spec needle : ∀ hay,
  PyStr.contains needle hay = true ↔ ∃ pre post, hay = pre ++ needle ++ post.
Proof.
  induction hay as [|x hay IH].
  - simpl. rewrite orb_false_r, starts_with_spec. split.
    + intros [post ->]. by exists [], post.
    + intros [pre [post Heq]]. symmetry in Heq.
      apply app_eq_nil in Heq as [-> Heq]. eauto.
  - cbn [PyStr.contains]. rewrite orb_true_iff, starts_with_spec, IH. split.
    + intros [[post ->]|[pre [post ->]]].
      * by exists [], post.
      * by exists (x :: pre), post.
    + intros [[|y pre] [post Heq]]; simpl in Heq.
      * left. eauto.
      * right. injection Heq as -> ->. eauto.
Qed.

Lemma rule_selected_spec rule_config file_dir :
  rule_selected rule_config file_dir = true ↔
  Rule.enabled rule_config ≠ Some false
  ∧ ∃ target_dir pre post,
      target_dir ∈ default [] (Rule.directories rule_config)
      ∧ file_dir = pre ++ target_dir ++ post.
Proof.
  unfold rule_selected. rewrite andb_true_iff, existsb_exists. split.
  - intros [Hen [target_dir [Hin Hsub]]]. split.
    + by destruct (Rule.enabled rule_config) as [[]|].
    + apply contains_spec in Hsub as [pre [post ->]].
      exists target_dir, pre, post. by rewrite list_elem_of_In.
  - intros [Hen [target_dir [pre [post [Hin ->]]]]]. split.
    + by destruct (Rule.enabled rule_config) as [[]|].
    + exists target_dir. rewrite <- list_elem_of_In. split; [done|].
      apply contains_spec. eauto.
Qed.

Lemma all_matches_spec pattern content m :
  m ∈ all_matches pattern content ↔
  ∃ matches, re_finditer pattern content SCAN_FLAGS = Matches matches
             ∧ m ∈ matches.
Proof.
  unfold all_matches.
  destruct (re_finditer pattern content SCAN_FLAGS) as [matches|e|e].
  - split; [eauto|]. by intros [? [[= <-] ?]].
  - split; [by intros ?%elem_of_nil|]. by intros [? [? _]].
  - split; [by intros ?%elem_of_nil|]. by intros [? [? _]].
Qed.

Lemma expected_findings_spec file_path content file_dir rules f :
  f ∈ expected_findings file_path content file_dir rules ↔
  ∃ rule_name rule_config pattern m,
    (rule_name, rule_config) ∈ rules
    ∧ rule_selected rule_config file_dir = true
    ∧ pattern ∈ default [] (Rule.patterns rule_config)
    ∧ m ∈ all_matches pattern content
    ∧ f = finding_of file_path content (PyStr.split NL content)
            rule_name rule_config pattern m.
Proof.
  unfold expected_findings. rewrite list_elem_of_bind. split.
  - intros [[rule_name rule_config] [Hf Hrule]]. simpl in Hf.
    destruct (rule_selected rule_config file_dir) eqn:Hsel;
      [|by apply elem_of_nil in Hf].
    apply list_elem_of_bind in Hf as [pattern [Hf Hp]].
    apply list_elem_of_bind in Hf as [m [Hf Hm]].
    apply list_elem_of_singleton in Hf.
    by exists rule_name, rule_config, pattern, m.
  - intros (rule_name & rule_config & pattern & m & Hr & Hsel & Hp & Hm & ->).
    exists (rule_name, rule_config). split; [|done]. simpl. rewrite Hsel.
    apply list_elem_of_bind. exists pattern. split; [|done].
    apply list_elem_of_bind. exists m. split; [|done].
    by apply list_elem_of_singleton.
Qed.

Lemma analyze_file_scan_result file_path :
  emitted (analyze_file config fs file_path) = scan_result config fs file_path.
Proof.
  unfold analyze_file, scan_result.
  destruct (FS.read fs file_path Codec.Ignore) as [content|e]; [|done].
  destruct (PurePath.relative_to _ _) as [rel|e] eqn:Hrel.
  - rewrite (for_rules_spec _ _ _ Hrel). unfold emitted. simpl.
    by destruct (first_raise content _).
  - rewrite (for_rules_outside _ _ _ _ Hrel). unfold emitted. simpl.
    by destruct (forallb _ _).
Qed.

End AnalyzeFileLemmas.

Section AnalyzeFile.

Context `{PythonLib}.
Import AntiPatternDetector.

Lemma scan_result_rules config fs file_path rules :
  scan_result (with_rules config rules) fs file_path
  = match FS.read fs file_path Codec.Ignore,
          PurePath.relative_to (PurePath.parent file_path)
                               (repository_dir config) with
    | Returned content, Returned rel =>
        match first_raise content
                (scanned_patterns (PurePath.to_str rel) rules) with
        | None =>
            expected_findings file_path content (PurePath.to_str rel) rules
        | Some _ => []
        end
    | _, _ => []
    end.
Proof. reflexivity. Qed.

Lemma analyze_file_finding_iff config fs file_path f :
  f ∈ emitted (analyze_file config fs file_path) ↔
  ∃ content rel rule_name rule_config pattern matches m,
    FS.read fs file_path Codec.Ignore = Returned content
    ∧ PurePath.relative_to (PurePath.parent file_path)
                           (repository_dir config) = Returned rel
    ∧ first_raise content
        (scanned_patterns (PurePath.to_str rel) (detection_rules config))
      = None
    ∧ (rule_name, rule_config) ∈ detection_rules config
    ∧ Rule.enabled rule_config ≠ Some false
    ∧ (∃ target_dir pre post,
         target_dir ∈ default [] (Rule.directories rule_config)
         ∧ PurePath.to_str rel = pre ++ target_dir ++ post)
    ∧ pattern ∈ default [] (Rule.patterns rule_config)
    ∧ re_finditer pattern content [IGNORECASE; MULTILINE] = Matches matches
    ∧ m ∈ matches
    ∧ f = finding_of file_path content (PyStr.split NL content)
            rule_name rule_config pattern m.
Proof.
  rewrite analyze_file_scan_result. unfold scan_result. split.
  - destruct (FS.read fs file_path Codec.Ignore) as [content|e];
      [|by intros ?%elem_of_nil].
    destruct (PurePath.relative_to _ _) as [rel|e];
      [|by intros ?%elem_of_nil].
    destruct (first_raise content _) eqn:Hquiet;
      [by intros ?%elem_of_nil|].
    intros (rule_name & rule_config & pattern & m & Hr & Hsel & Hp & Hm
            & ->)%expected_findings_spec.
    apply rule_selected_spec in Hsel as [Hen Hdir].
    apply all_matches_spec in Hm as [matches [Hre Hm]].
    by exists content, rel, rule_name, rule_config, pattern, matches, m.
  - intros (content & rel & rule_name & rule_config & pattern & matches
            & m & -> & -> & -> & Hr & Hen & Hdir & Hp & Hre & Hm & ->).
    apply expected_findings_spec.
    exists rule_name, rule_config, pattern, m.
    split_and!; [done| |done| |done].
    + by apply rule_selected_spec.
    + apply all_matches_spec. eauto.
Qed.

(** X17. [analyze_file] returns exactly one finding for each match of
    each pattern of each selected rule, and nothing else, provided
    [re.finditer] raises nothing but [re.error] for the patterns tried:
    the list is then the comprehension over rules, patterns and all
    matches of [re.finditer]; a finding is in it if and only if its
    rule is enabled, one of the rule's directories is a substring of
    the directory of the file relative to the repository directory
    (the one named in the configuration, whatever the directory
    scanned), and the match is one of the pattern's matches in the
    whole text under [IGNORECASE | MULTILINE].  A rule with
    [enabled: false] gives no finding: the result is that of the rule
    set without it. *)
Theorem analyze_file_one_finding_per_match config fs file_path :
  emitted (analyze_file config fs file_path)
    = scan_result config fs file_path
  ∧ (∀ f,
      f ∈ emitted (analyze_file config fs file_path) ↔
      ∃ content rel rule_name rule_config pattern matches m,
        FS.read fs file_path Codec.Ignore = Returned content
        ∧ PurePath.relative_to (PurePath.parent file_path)
                               (repository_dir config) = Returned rel
        ∧ first_raise content
            (scanned_patterns (PurePath.to_str rel)
                              (detection_rules config))
          = None
        ∧ (rule_name, rule_config) ∈ detection_rules config
        ∧ Rule.enabled rule_config ≠ Some false
        ∧ (∃ target_dir pre post,
             target_dir ∈ default [] (Rule.directories rule_config)
             ∧ PurePath.to_str rel = pre ++ target_dir ++ post)
        ∧ pattern ∈ default [] (Rule.patterns rule_config)
        ∧ re_finditer pattern content [IGNORECASE; MULTILINE]
          = Matches matches
        ∧ m ∈ matches
        ∧ f = finding_of file_path content (PyStr.split NL content)
                rule_name rule_config pattern m)
  ∧ (∀ before rule_name rule_config after,
      detection_rules config = before ++ (rule_name, rule_config) :: after →
      Rule.enabled rule_config = Some false →
      emitted (analyze_file config fs file_path)
      = emitted (analyze_file (with_rules config (before ++ after))
                              fs file_path)).
Proof.
  split_and!.
  - apply analyze_file_scan_result.
  - intros f. apply analyze_file_finding_iff.
  - intros before rule_name rule_config after Hrules Hoff.
    rewrite !analyze_file_scan_result, scan_result_rules.
    unfold scan_result. rewrite Hrules.
    destruct (FS.read fs file_path Codec.Ignore) as [content|e]; [|done].
    destruct (PurePath.relative_to _ _) as [rel|e]; [|done].
    assert (Hoff' : ∀ file_dir, rule_selected rule_config file_dir = false).
    { intros file_dir. unfold rule_selected. by rewrite Hoff. }
    rewrite !scanned_patterns_app, scanned_patterns_cons. simpl.
    rewrite Hoff'. simpl.
    destruct (first_raise content _); [done|].
    unfold expected_findings. rewrite !bind_app. f_equal.
    rewrite bind_cons. simpl. by rewrite Hoff'.
Qed.

End AnalyzeFile.

(** C2 on a corpus that is not named after the repository.
    [analyze_kernel('other')] selects [other/kernel/foo.c]; relative to
    the corpus root its directory is [kernel], in which the rule's
    directory [kernel] occurs; the rule is enabled and its pattern
    matches the text of the file.  [analyze_file] takes the directory
    relative to [linux], the name at the end of [kernel_repository]:
    [relative_to] raises [ValueError], the run logs the file as an
    error, and the report has no finding and no analyzed file.  The
    same file below [linux] gives the finding. *)
Theorem corpus_root_is_not_used :
  AntiPatternDetector.get_c_files (H := SimplePython.lib)
    Demo.config Demo.fs_other (lit "other")
  = ([], Returned [Demo.other_foo_c])
  ∧ PurePath.relative_to (PurePath.parent Demo.other_foo_c)
                         (PurePath.of_str (lit "other"))
    = Returned (PurePath.of_str (lit "kernel"))
  ∧ (∃ rule_config,
       detection_rules Demo.config = [(lit "concurrency", rule_config)]
       ∧ Rule.enabled rule_config = Some true
       ∧ Rule.directories rule_config = Some [lit "kernel"]
       ∧ PyStr.contains (lit "kernel") (lit "kernel") = true
       ∧ Rule.patterns rule_config = Some [lit "race\s+condition"])
  ∧ (∃ content m,
       FS.read Demo.fs_other Demo.other_foo_c Codec.Ignore = Returned content
       ∧ re_finditer (PythonLib := SimplePython.lib)
           (lit "race\s+condition") content [IGNORECASE; MULTILINE]
         = Matches [m]
       ∧ m_group0 m = lit "race condition")
  ∧ AntiPatternDetector.repository_dir Demo.config
    = PurePath.of_str (lit "linux")
  ∧ AntiPatternDetector.analyze_file (H := SimplePython.lib)
      Demo.config Demo.fs_other Demo.other_foo_c
    = ([],
       Raised
         (ValueError (lit "'other/kernel' is not in the subpath of 'linux'")))
  ∧ (∃ log results,
       AntiPatternDetector.analyze_kernel (H := SimplePython.lib)
         Demo.config Demo.fs_other id (lit "other") = (log, Returned results)
       ∧ findings results = []
       ∧ total_files (statistics results) = 1
       ∧ analyzed_files (statistics results) = 0
       ∧ LogError (lit "Error analyzing other/kernel/foo.c: "
                   ++ lit "'other/kernel' is not in the subpath of 'linux'")
         ∈ log)
  ∧ AntiPatternDetector.analyze_file (H := SimplePython.lib)
      Demo.config Demo.fs Demo.foo_c
    = ([], Returned [Demo.finding]).
Proof.
  split_and!.
  - vm_compute. reflexivity.
  - vm_compute. reflexivity.
  - eexists. split_and!; reflexivity.
  - eexists _, _. split_and!; [reflexivity|vm_compute; reflexivity|].
    vm_compute. reflexivity.
  - vm_compute. reflexivity.
  - vm_compute. reflexivity.
  - eexists _, _. split; [reflexivity|].
    split_and!; [reflexivity|reflexivity|reflexivity|].
    apply (bool_decide_unpack _). vm_compute. exact I.
  - vm_compute. reflexivity.
Qed.

(** * Line numbers and context windows *)

Section Lines.

Lemma count_nonneg c s : 0 ≤ PyStr.count c s.
Proof. induction s as [|x s IH]; simpl; [done|]. destruct (x =? c)%N; lia. Qed.

Lemma split_length c s : PyStr.len (PyStr.split c s) = PyStr.count c s + 1.
Proof.
  unfold PyStr.len. induction s as [|x s IH]; simpl; [done|].
  pose proof (count_nonneg c s).
  destruct (x =? c)%N; simpl; [lia|].
  destruct (PyStr.split c s); simpl in *; lia.
Qed.

Lemma count_take_le c n : ∀ s, PyStr.count c (take n s) ≤ PyStr.count c s.
Proof.
  induction n as [|n IH]; intros [|x s]; simpl; try lia.
  - pose proof (count_nonneg c s). destruct (x =? c)%N; lia.
  - specialize (IH s). lia.
Qed.

(** [s[:k]] is a prefix of [s], whatever [k]. *)
Lemma slice_prefix {A} (l : list A) k :
  ∃ n, PyStr.slice l 0 k = take n l.
Proof.
  unfold PyStr.slice.
  assert (PyStr.slice_index l 0 = 0) as ->.
  { unfold PyStr.slice_index, PyStr.len. simpl. lia. }
  simpl. eauto.
Qed.

Lemma omap_fmap_compose {A B C} (f : B → option C) (g : A → B)
    (l : list A) :
  omap f (g <$> l) = omap (λ x, f (g x)) l.
Proof. induction l as [|x l IH]; [done|]. csimpl. by rewrite IH. Qed.

Lemma take_drop_lookups {A} (l : list A) n : ∀ m,
  (m + n ≤ length l)%nat →
  take n (drop m l) = omap (λ k, l !! (m + k)%nat) (seq 0 n).
Proof.
  induction n as [|n IH]; intros m Hlen; [done|].
  destruct (lookup_lt_is_Some_2 l m) as [x Hx]; [lia|].
  rewrite (drop_S _ _ _ Hx). simpl.
  rewrite Nat.add_0_r, Hx. f_equal.
  rewrite IH by lia. rewrite <- fmap_S_seq, omap_fmap_compose.
  apply list_omap_ext, Forall2_same_length_lookup_2; [done|].
  intros i k1 k2 H1 H2. simplify_eq. f_equal. lia.
Qed.

(** A slice within bounds is the run of lines it covers, counted from
    one. *)
Lemma slice_lines (lines : list pystr) a b :
  0 ≤ a → a ≤ b → b ≤ PyStr.len lines →
  PyStr.slice lines a b = lines_from_through lines (a + 1) b.
Proof.
  unfold PyStr.len. intros Ha Hab Hb.
  unfold PyStr.slice, lines_from_through, PyStr.range.
  assert (PyStr.slice_index lines a = a) as ->.
  { unfold PyStr.slice_index, PyStr.len.
    destruct (Z.ltb_spec a 0); lia. }
  assert (PyStr.slice_index lines b = b) as ->.
  { unfold PyStr.slice_index, PyStr.len.
    destruct (Z.ltb_spec b 0); lia. }
  rewrite take_drop_lookups by lia.
  replace (b + 1 - (a + 1)) with (b - a) by lia.
  rewrite omap_fmap_compose.
  apply list_omap_ext, Forall2_same_length_lookup_2; [done|].
  intros i k k' H1 H2. assert (k' = k) as -> by congruence.
  unfold PyStr.index.
  destruct (Z.ltb_spec (a + 1 + Z.of_nat k - 1) 0); [lia|].
  f_equal. lia.
Qed.

(** For a line number within the text, [get_context_lines] with the
    default width is the window of three lines around it, clipped. *)
Lemma get_context_lines_window (lines : list pystr) line :
  1 ≤ line ≤ PyStr.len lines →
  AntiPatternDetector.get_context_lines lines (line - 1) 3
  = lines_from_through lines (Z.max 1 (line - 3))
                       (Z.min (PyStr.len lines) (line + 3)).
Proof.
  intros Hline. unfold AntiPatternDetector.get_context_lines.
  rewrite slice_lines by lia. f_equal; lia.
Qed.

End Lines.

Section FindingPosition.

Context `{PythonLib}.
Import AntiPatternDetector.

(** C3. Every finding of [analyze_file] comes from a match of one of
    the patterns in the text of the file; its line is one plus the
    number of newlines before the start of the match, lies between 1
    and the number of lines of the text, and its context is the lines
    [max(1, line-3)] through [min(number_of_lines, line+3)]. *)
Theorem finding_line_and_context config fs file_path f :
  f ∈ emitted (analyze_file config fs file_path) →
  ∃ content pattern matches m,
    FS.read fs file_path Codec.Ignore = Returned content
    ∧ re_finditer pattern content [IGNORECASE; MULTILINE] = Matches matches
    ∧ m ∈ matches
    ∧ Finding.match_ f = m_group0 m
    ∧ Finding.line f
      = 1 + PyStr.count NL (PyStr.slice content 0 (m_start m))
    ∧ 1 ≤ Finding.line f ≤ number_of_lines content
    ∧ Finding.context f
      = lines_from_through (PyStr.split NL content)
          (Z.max 1 (Finding.line f - 3))
          (Z.min (number_of_lines content) (Finding.line f + 3)).
Proof.
  intros Hf.
  apply analyze_file_finding_iff in Hf
    as (content & rel & rule_name & rule_config & pattern & matches & m
        & Hread & _ & _ & _ & _ & _ & _ & Hre & Hm & ->).
  exists content, pattern, matches, m.
  assert (Hline : 1 ≤ PyStr.count NL (PyStr.slice content 0 (m_start m)) + 1
                  ≤ number_of_lines content).
  { unfold number_of_lines. rewrite split_length.
    destruct (slice_prefix content (m_start m)) as [n ->].
    pose proof (count_nonneg NL (take n content)).
    pose proof (count_take_le NL n content). lia. }
  split_and!; try done; simpl; try lia.
  by apply get_context_lines_window.
Qed.

End FindingPosition.

Example analyze_file_example :
  AntiPatternDetector.analyze_file (H := SimplePython.lib)
    Demo.config Demo.fs Demo.foo_c
  = ([], Returned [Demo.finding]).
Proof. vm_compute. reflexivity. Qed.

Lemma finding_line_and_context_witness :
  Demo.finding
    ∈ emitted (AntiPatternDetector.analyze_file (H := SimplePython.lib)
                 Demo.config Demo.fs Demo.foo_c)
  ∧ ∃ content pattern matches m,
      FS.read Demo.fs Demo.foo_c Codec.Ignore = Returned content
      ∧ re_finditer (PythonLib := SimplePython.lib) pattern content
          [IGNORECASE; MULTILINE] = Matches matches
      ∧ m ∈ matches
      ∧ Finding.match_ Demo.finding = m_group0 m
      ∧ Finding.line Demo.finding
        = 1 + PyStr.count NL (PyStr.slice content 0 (m_start m))
      ∧ 1 ≤ Finding.line Demo.finding ≤ number_of_lines content
      ∧ Finding.context Demo.finding
        = lines_from_through (PyStr.split NL content)
            (Z.max 1 (Finding.line Demo.finding - 3))
            (Z.min (number_of_lines content)
                   (Finding.line Demo.finding + 3)).
Proof.
  assert (Hin : Demo.finding
    ∈ emitted (AntiPatternDetector.analyze_file (H := SimplePython.lib)
                 Demo.config Demo.fs Demo.foo_c)).
  { apply (bool_decide_unpack _). vm_compute. exact I. }
  split; [exact Hin|].
  exact (finding_line_and_context (H := SimplePython.lib)
           Demo.config Demo.fs Demo.foo_c Demo.finding Hin).
Defined.

(** * The order of the findings of one file *)

Section Order.

Context `{PythonLib}.
Import AntiPatternDetector.

Variable file_path : PurePath.t.
Variable content : pystr.

Lemma traced_patterns_findings rule_name rule_config i patterns : ∀ j,
  (traced_patterns file_path content rule_name rule_config i j patterns).*2
  = (pattern ← patterns;
     m ← all_matches pattern content;
     [finding_of file_path content (PyStr.split NL content)
        rule_name rule_config pattern m]).
Proof.
  induction patterns as [|p ps IH]; intros j; [done|].
  simpl. rewrite fmap_app, IH. f_equal.
  unfold traced_pattern. rewrite <- list_fmap_compose.
  induction (all_matches p content) as [|m ms IHm]; [done|].
  csimpl. by f_equal.
Qed.

Lemma traced_rules_findings file_dir rules : ∀ i,
  (traced_rules file_path content file_dir i rules).*2
  = expected_findings file_path content file_dir rules.
Proof.
  induction rules as [|[rule_name rule_config] rules IH]; intros i; [done|].
  cbn [traced_rules]. rewrite fmap_app, IH. unfold expected_findings.
  rewrite bind_cons. f_equal. simpl.
  destruct (rule_selected rule_config file_dir); [|done].
  apply traced_patterns_findings.
Qed.

Lemma all_matches_ascending pattern :
  StronglySorted Z.le (m_start <$> all_matches pattern content).
Proof.
  unfold all_matches.
  destruct (re_finditer pattern content SCAN_FLAGS)
    as [matches|e|e] eqn:Hre.
  - by eapply re_finditer_ascending.
  - constructor.
  - constructor.
Qed.

Lemma traced_pattern_origin rule_name rule_config i j pattern o f :
  (o, f) ∈ traced_pattern file_path content rule_name rule_config i j pattern →
  o.1 = (i, j)
  ∧ ∃ m, m ∈ all_matches pattern content ∧ o.2 = m_start m
         ∧ f = finding_of file_path content (PyStr.split NL content)
                 rule_name rule_config pattern m.
Proof.
  unfold traced_pattern. intros [m [[= -> ->] Hm]]%list_elem_of_fmap.
  split; [done|]. by exists m.
Qed.

Lemma traced_pattern_sorted rule_name rule_config i j pattern :
  StronglySorted origin_le
    (traced_pattern file_path content rule_name rule_config i j pattern).*1.
Proof.
  unfold traced_pattern. rewrite <- list_fmap_compose.
  pose proof (all_matches_ascending pattern) as Hs.
  induction (all_matches pattern content) as [|m ms IH]; [constructor|].
  csimpl in *. apply StronglySorted_cons in Hs as [Hm Hs].
  constructor; [by apply IH|].
  rewrite Forall_fmap in Hm. rewrite Forall_fmap.
  eapply Forall_impl; [exact Hm|].
  intros m' Hle. right. split; [done|]. right. done.
Qed.

Lemma traced_patterns_origin rule_name rule_config i patterns : ∀ j o f,
  (o, f) ∈ traced_patterns file_path content rule_name rule_config i j patterns →
  o.1.1 = i ∧ (j ≤ o.1.2)%nat
  ∧ ∃ pattern m,
      patterns !! (o.1.2 - j)%nat = Some pattern
      ∧ m ∈ all_matches pattern content ∧ o.2 = m_start m
      ∧ f = finding_of file_path content (PyStr.split NL content)
              rule_name rule_config pattern m.
Proof.
  induction patterns as [|p ps IH]; intros j o f Hin;
    [by apply elem_of_nil in Hin|].
  simpl in Hin. apply elem_of_app in Hin as [Hin|Hin].
  - apply traced_pattern_origin in Hin as [Ho [m Hm]].
    rewrite Ho. simpl. split_and!; [done|lia|].
    exists p, m. by rewrite Nat.sub_diag.
  - apply IH in Hin as (Hi & Hj & pattern & m & Hp & Hm).
    split_and!; [done|lia|]. exists pattern, m. split; [|done].
    by replace (o.1.2 - j)%nat with (S (o.1.2 - S j)) by lia.
Qed.

Lemma traced_patterns_sorted rule_name rule_config i patterns : ∀ j,
  StronglySorted origin_le
    (traced_patterns file_path content rule_name rule_config i j patterns).*1.
Proof.
  induction patterns as [|p ps IH]; intros j; [constructor|].
  simpl. rewrite fmap_app. apply StronglySorted_app_2;
    [|apply traced_pattern_sorted|apply IH].
  intros o1 o2 [[? f1] [-> H1]]%list_elem_of_fmap
               [[? f2] [-> H2]]%list_elem_of_fmap.
  apply traced_pattern_origin in H1 as [H1 _].
  apply traced_patterns_origin in H2 as (H2i & H2j & _).
  simpl in *. right. rewrite H1. simpl. split; [done|]. left. lia.
Qed.

Lemma traced_rules_origin file_dir rules : ∀ i o f,
  (o, f) ∈ traced_rules file_path content file_dir i rules →
  (i ≤ o.1.1)%nat
  ∧ ∃ rule_name rule_config pattern m,
      rules !! (o.1.1 - i)%nat = Some (rule_name, rule_config)
      ∧ default [] (Rule.patterns rule_config) !! o.1.2 = Some pattern
      ∧ m ∈ all_matches pattern content ∧ o.2 = m_start m
      ∧ f = finding_of file_path content (PyStr.split NL content)
              rule_name rule_config pattern m.
Proof.
  induction rules as [|[rule_name rule_config] rules IH]; intros i o f Hin;
    [by apply elem_of_nil in Hin|].
  simpl in Hin. apply elem_of_app in Hin as [Hin|Hin].
  - destruct (rule_selected rule_config file_dir);
      [|by apply elem_of_nil in Hin].
    apply traced_patterns_origin in Hin as (Hi & _ & pattern & m & Hp & Hm).
    split; [lia|]. exists rule_name, rule_config, pattern, m.
    rewrite Hi, Nat.sub_diag. split; [done|].
    by rewrite Nat.sub_0_r in Hp.
  - apply IH in Hin as (Hi & rn & rc & pattern & m & Hr & Hm).
    split; [lia|]. exists rn, rc, pattern, m. split; [|done].
    by replace (o.1.1 - i)%nat with (S (o.1.1 - S i)) by lia.
Qed.

Lemma traced_rules_sorted file_dir rules : ∀ i,
  StronglySorted origin_le (traced_rules file_path content file_dir i rules).*1.
Proof.
  induction rules as [|[rule_name rule_config] rules IH]; intros i;
    [constructor|].
  simpl. rewrite fmap_app. apply StronglySorted_app_2; [| |apply IH].
  - intros o1 o2 [[? f1] [-> H1]]%list_elem_of_fmap
                 [[? f2] [-> H2]]%list_elem_of_fmap.
    destruct (rule_selected rule_config file_dir);
      [|by apply elem_of_nil in H1].
    apply traced_patterns_origin in H1 as (H1 & _).
    apply traced_rules_origin in H2 as (H2 & _).
    simpl in *. left. lia.
  - destruct (rule_selected rule_config file_dir); [|constructor].
    apply traced_patterns_sorted.
Qed.

End Order.

Section FindingOrder.

Context `{PythonLib}.
Import AntiPatternDetector.

(** C9. The findings [analyze_file] returns for a file are in the order
    of the rule set, then of the rule's patterns, then of the position
    of the match in the text: listed with the index of the rule, the
    index of the pattern and the start of the match each one comes
    from, they are sorted lexicographically, ascending. *)
Theorem analyze_file_order config fs file_path :
  emitted (analyze_file config fs file_path)
    = (traced_result config fs file_path).*2
  ∧ StronglySorted origin_le (traced_result config fs file_path).*1
  ∧ ∀ i j pos f,
      ((i, j, pos), f) ∈ traced_result config fs file_path →
      ∃ content rule_name rule_config pattern matches m,
        FS.read fs file_path Codec.Ignore = Returned content
        ∧ detection_rules config !! i = Some (rule_name, rule_config)
        ∧ default [] (Rule.patterns rule_config) !! j = Some pattern
        ∧ re_finditer pattern content [IGNORECASE; MULTILINE]
          = Matches matches
        ∧ m ∈ matches
        ∧ m_start m = pos
        ∧ f = finding_of file_path content (PyStr.split NL content)
                rule_name rule_config pattern m.
Proof.
  rewrite analyze_file_scan_result. unfold scan_result, traced_result.
  destruct (FS.read fs file_path Codec.Ignore) as [content|e].
  2: { split_and!; [done|constructor|]. by intros ???? ?%elem_of_nil. }
  destruct (PurePath.relative_to _ _) as [rel|e].
  2: { split_and!; [done|constructor|]. by intros ???? ?%elem_of_nil. }
  destruct (first_raise content _).
  1: { split_and!; [done|constructor|]. by intros ???? ?%elem_of_nil. }
  split_and!.
  - symmetry. apply traced_rules_findings.
  - apply traced_rules_sorted.
  - intros i j pos f Hin.
    apply traced_rules_origin in Hin
      as (_ & rule_name & rule_config & pattern & m & Hr & Hp & Hm & Hpos
          & ->).
    simpl in *. rewrite Nat.sub_0_r in Hr.
    apply all_matches_spec in Hm as [matches [Hre Hm]].
    by exists content, rule_name, rule_config, pattern, matches, m.
Qed.

End FindingOrder.

(** * Patterns that do not compile, rules without severity *)

Section InvalidPattern.

Context `{PythonLib}.
Import AntiPatternDetector.

Lemma analyze_file_unfold config fs file_path :
  analyze_file config fs file_path
  = match FS.read fs file_path Codec.Ignore with
    | Raised e =>
        ([LogWarning (lit "Could not read " ++ PurePath.to_str file_path
                      ++ lit ": " ++ exn_str e)],
         Returned [])
    | Returned content =>
        match PurePath.relative_to (PurePath.parent file_path)
                                   (repository_dir config) with
        | Returned rel =>
            (expected_warnings content (PurePath.to_str rel)
               (detection_rules config),
             match first_raise content
                     (scanned_patterns (PurePath.to_str rel)
                                       (detection_rules config)) with
             | Some e => Raised e
             | None =>
                 Returned (expected_findings file_path content
                             (PurePath.to_str rel) (detection_rules config))
             end)
        | Raised e =>
            ([],
             if forallb (λ rule, negb (default true (Rule.enabled rule.2)))
                        (detection_rules config)
             then Returned [] else Raised e)
        end
    end.
Proof.
  unfold analyze_file.
  destruct (FS.read fs file_path Codec.Ignore) as [content|e]; [|done].
  destruct (PurePath.relative_to _ _) as [rel|e] eqn:Hrel.
  - by rewrite (for_rules_spec _ _ _ _ Hrel).
  - by rewrite (for_rules_outside _ _ _ _ _ Hrel).
Qed.

Lemma first_raise_skip content a bad b :
  pattern_raise bad content = None →
  first_raise content (a ++ bad :: b) = first_raise content (a ++ b).
Proof. intros Hbad. rewrite !first_raise_app. simpl. by rewrite Hbad. Qed.

Lemma tried_patterns_skip content a bad b pattern :
  pattern_raise bad content = None →
  pattern ∈ tried_patterns content (a ++ b) →
  pattern ∈ tried_patterns content (a ++ bad :: b).
Proof.
  intros Hbad. rewrite !tried_patterns_app. simpl. rewrite Hbad.
  destruct (first_raise content a); [done|].
  rewrite !elem_of_app, elem_of_cons. tauto.
Qed.

(** X16. A pattern for which [re.finditer] raises [re.error] is caught
    and logged, and changes nothing else: [analyze_file] ends the way
    it does for the rule set without that pattern (same findings, or
    the same exception), every other event of the log is kept, and the
    warning for the pattern is in the log whenever its rule is applied
    to the file and [analyze_file] returns. *)
Theorem invalid_pattern_skipped config fs file_path
    before rule_name rule_config after ps1 bad ps2 e :
  detection_rules config = before ++ (rule_name, rule_config) :: after →
  Rule.patterns rule_config = Some (ps1 ++ bad :: ps2) →
  (∀ content, re_finditer bad content [IGNORECASE; MULTILINE] = ReError e) →
  let config' :=
    with_rules config
      (before ++ (rule_name, with_patterns rule_config (ps1 ++ ps2))
              :: after) in
  (analyze_file config fs file_path).2 = (analyze_file config' fs file_path).2
  ∧ (∀ ev, ev ∈ (analyze_file config' fs file_path).1 →
           ev ∈ (analyze_file config fs file_path).1)
  ∧ (∀ content rel findings,
       FS.read fs file_path Codec.Ignore = Returned content →
       PurePath.relative_to (PurePath.parent file_path)
                            (repository_dir config) = Returned rel →
       rule_selected rule_config (PurePath.to_str rel) = true →
       (analyze_file config fs file_path).2 = Returned findings →
       invalid_regex_warning bad e ∈ (analyze_file config fs file_path).1).
Proof.
  intros Hrules Hpatterns Hbad config'.
  rewrite !analyze_file_unfold. subst config'. simpl.
  change (repository_dir (with_rules config ?r)) with (repository_dir config).
  rewrite Hrules.
  assert (Hmatches : ∀ content, all_matches bad content = []).
  { intros content. unfold all_matches, SCAN_FLAGS. by rewrite Hbad. }
  assert (Hwarning : ∀ content,
            regex_warning bad content = [invalid_regex_warning bad e]).
  { intros content. unfold regex_warning, SCAN_FLAGS. by rewrite Hbad. }
  assert (Hquiet : ∀ content, pattern_raise bad content = None).
  { intros content. unfold pattern_raise, SCAN_FLAGS. by rewrite Hbad. }
  assert (Hsel : ∀ file_dir,
            rule_selected (with_patterns rule_config (ps1 ++ ps2)) file_dir
            = rule_selected rule_config file_dir) by done.
  assert (Hscanned : ∀ file_dir,
            ∃ a b,
              scanned_patterns file_dir
                (before ++ (rule_name, rule_config) :: after)
              = a ++ (if rule_selected rule_config file_dir
                      then [bad] else []) ++ b
              ∧ scanned_patterns file_dir
                  (before
                   ++ (rule_name, with_patterns rule_config (ps1 ++ ps2))
                   :: after)
                = a ++ b).
  { intros file_dir.
    exists (scanned_patterns file_dir before
            ++ if rule_selected rule_config file_dir then ps1 else []),
           ((if rule_selected rule_config file_dir then ps2 else [])
            ++ scanned_patterns file_dir after).
    rewrite !scanned_patterns_app, !scanned_patterns_cons. simpl.
    rewrite Hsel, Hpatterns. simpl.
    destruct (rule_selected rule_config file_dir); simpl.
    - by rewrite <- !app_assoc.
    - by rewrite !app_nil_r. }
  assert (Hraise : ∀ content file_dir,
            first_raise content
              (scanned_patterns file_dir
                 (before ++ (rule_name, rule_config) :: after))
            = first_raise content
                (scanned_patterns file_dir
                   (before
                    ++ (rule_name, with_patterns rule_config (ps1 ++ ps2))
                    :: after))).
  { intros content file_dir.
    destruct (Hscanned file_dir) as (a & b & -> & ->).
    destruct (rule_selected rule_config file_dir); [|done].
    by apply first_raise_skip. }
  split_and!.
  - destruct (FS.read fs file_path Codec.Ignore) as [content|?]; [|done].
    destruct (PurePath.relative_to _ _) as [rel|?]; simpl.
    + rewrite <- Hraise. destruct (first_raise content _); [done|].
      f_equal. unfold expected_findings.
      rewrite !bind_app, !bind_cons. simpl. rewrite Hsel, Hpatterns. simpl.
      destruct (rule_selected rule_config (PurePath.to_str rel)); [|done].
      do 2 f_equal. rewrite !bind_app, bind_cons, Hmatches. done.
    + rewrite !forallb_app. simpl. done.
  - intros ev.
    destruct (FS.read fs file_path Codec.Ignore) as [content|?]; [|done].
    destruct (PurePath.relative_to _ _) as [rel|?]; simpl; [|done].
    unfold expected_warnings.
    destruct (Hscanned (PurePath.to_str rel)) as (a & b & -> & ->).
    intros [pattern [Hev Hp]]%list_elem_of_bind.
    apply list_elem_of_bind. exists pattern. split; [done|].
    destruct (rule_selected rule_config (PurePath.to_str rel)); [|done].
    by apply tried_patterns_skip.
  - intros content rel findings -> -> Hselected. simpl.
    destruct (first_raise content _) eqn:Hnone; [done|]. intros _.
    unfold expected_warnings. rewrite (tried_patterns_all _ _ Hnone).
    destruct (Hscanned (PurePath.to_str rel)) as (a & b & -> & _).
    rewrite Hselected.
    rewrite !bind_app, bind_cons, Hwarning, !elem_of_app, elem_of_cons.
    tauto.
Qed.

Lemma finding_of_with_severity file_path content lines rule_name rule_config
    pattern m :
  Rule.severity rule_config = None →
  finding_of file_path content lines rule_name
    (with_severity rule_config (lit "medium")) pattern m
  = finding_of file_path content lines rule_name rule_config pattern m.
Proof. intros Hsev. unfold finding_of. simpl. by rewrite Hsev. Qed.

(** C10. A finding carries the severity its rule configures, and
    [medium] when the rule configures none; a rule without severity is
    scanned like any other: each of its matches gives a finding of
    severity [medium] (when [re.finditer] raises nothing but [re.error]
    for the patterns tried, so that findings are returned at all), and
    [analyze_file] does exactly what it does when the rule says
    [severity: medium]. *)
Theorem severity_defaults_to_medium config fs file_path :
  (∀ f, f ∈ emitted (analyze_file config fs file_path) →
     ∃ rule_config,
       (Finding.rule f, rule_config) ∈ detection_rules config
       ∧ Finding.severity f
         = match Rule.severity rule_config with
           | Some severity => severity
           | None => lit "medium"
           end)
  ∧ (∀ content rel rule_name rule_config pattern matches m,
       FS.read fs file_path Codec.Ignore = Returned content →
       PurePath.relative_to (PurePath.parent file_path)
                            (repository_dir config) = Returned rel →
       first_raise content
         (scanned_patterns (PurePath.to_str rel) (detection_rules config))
       = None →
       (rule_name, rule_config) ∈ detection_rules config →
       rule_selected rule_config (PurePath.to_str rel) = true →
       Rule.severity rule_config = None →
       pattern ∈ default [] (Rule.patterns rule_config) →
       re_finditer pattern content [IGNORECASE; MULTILINE] = Matches matches →
       m ∈ matches →
       ∃ findings f,
         (analyze_file config fs file_path).2 = Returned findings
         ∧ f ∈ findings
         ∧ Finding.rule f = rule_name
         ∧ Finding.pattern f = pattern
         ∧ Finding.match_ f = m_group0 m
         ∧ Finding.severity f = lit "medium")
  ∧ (∀ before rule_name rule_config after,
       detection_rules config = before ++ (rule_name, rule_config) :: after →
       Rule.severity rule_config = None →
       analyze_file config fs file_path
       = analyze_file
           (with_rules config
              (before
               ++ (rule_name, with_severity rule_config (lit "medium"))
               :: after))
           fs file_path).
Proof.
  split_and!.
  - intros f (content & rel & rule_name & rule_config & pattern & matches & m
              & _ & _ & _ & Hr & _ & _ & _ & _ & _
              & ->)%analyze_file_finding_iff.
    exists rule_config. split; [done|]. simpl.
    by destruct (Rule.severity rule_config).
  - intros content rel rule_name rule_config pattern matches m
           Hread Hrel Hquiet Hr Hsel Hsev Hp Hre Hm.
    rewrite analyze_file_unfold, Hread, Hrel, Hquiet. simpl.
    eexists _, (finding_of file_path content (PyStr.split NL content)
                  rule_name rule_config pattern m).
    split_and!; [done| |done|done|done|by simpl; rewrite Hsev].
    apply expected_findings_spec.
    exists rule_name, rule_config, pattern, m. split_and!; try done.
    apply all_matches_spec. eauto.
  - intros before rule_name rule_config after Hrules Hsev.
    rewrite !analyze_file_unfold. simpl.
    change (repository_dir (with_rules config ?r))
      with (repository_dir config).
    rewrite Hrules.
    destruct (FS.read fs file_path Codec.Ignore) as [content|?]; [|done].
    destruct (PurePath.relative_to _ _) as [rel|?].
    + assert (Hscanned :
        scanned_patterns (PurePath.to_str rel)
          (before ++ (rule_name, with_severity rule_config (lit "medium"))
                  :: after)
        = scanned_patterns (PurePath.to_str rel)
            (before ++ (rule_name, rule_config) :: after)).
      { by rewrite !scanned_patterns_app, !scanned_patterns_cons. }
      unfold expected_warnings. rewrite Hscanned. do 2 f_equal.
      destruct (first_raise content _); [done|]. f_equal.
      unfold expected_findings. rewrite !bind_app, !bind_cons. simpl.
      do 2 f_equal.
      change (rule_selected (with_severity rule_config (lit "medium"))
                (PurePath.to_str rel))
        with (rule_selected rule_config (PurePath.to_str rel)).
      destruct (rule_selected rule_config (PurePath.to_str rel)); [|done].
      apply list_bind_ext; [|done]. intros pattern.
      apply list_bind_ext; [|done]. intros m.
      by rewrite finding_of_with_severity.
    + f_equal. by rewrite !forallb_app.
Qed.

End InvalidPattern.

Lemma invalid_pattern_skipped_witness :
  let config' :=
    with_rules Demo.config_bad
      ([] ++ (lit "concurrency",
              with_patterns Demo.racy
                ([lit "race\s+condition"] ++ [lit "counter"])) :: []) in
  (AntiPatternDetector.analyze_file (H := SimplePython.lib)
     Demo.config_bad Demo.fs Demo.foo_c).2
  = (AntiPatternDetector.analyze_file (H := SimplePython.lib)
       config' Demo.fs Demo.foo_c).2
  ∧ (∀ ev,
       ev ∈ (AntiPatternDetector.analyze_file (H := SimplePython.lib)
               config' Demo.fs Demo.foo_c).1 →
       ev ∈ (AntiPatternDetector.analyze_file (H := SimplePython.lib)
               Demo.config_bad Demo.fs Demo.foo_c).1)
  ∧ (∀ content rel findings,
       FS.read Demo.fs Demo.foo_c Codec.Ignore = Returned content →
       PurePath.relative_to (PurePath.parent Demo.foo_c)
         (AntiPatternDetector.repository_dir Demo.config_bad) = Returned rel →
       rule_selected Demo.racy (PurePath.to_str rel) = true →
       (AntiPatternDetector.analyze_file (H := SimplePython.lib)
          Demo.config_bad Demo.fs Demo.foo_c).2 = Returned findings →
       invalid_regex_warning (lit "(") (lit "pattern does not compile")
         ∈ (AntiPatternDetector.analyze_file (H := SimplePython.lib)
              Demo.config_bad Demo.fs Demo.foo_c).1).
Proof.
  exact (invalid_pattern_skipped (H := SimplePython.lib)
           Demo.config_bad Demo.fs Demo.foo_c
           [] (lit "concurrency") Demo.racy []
           [lit "race\s+condition"] (lit "(") [lit "counter"]
           (lit "pattern does not compile")
           eq_refl eq_refl (λ content, eq_refl)).
Defined.

Example invalid_pattern_example :
  AntiPatternDetector.analyze_file (H := SimplePython.lib)
    Demo.config_bad Demo.fs Demo.foo_c
  = ([invalid_regex_warning (lit "(") (lit "pattern does not compile")],
     Returned
       [Demo.finding;
        Finding.mk (lit "linux/kernel/foo.c") 4 (lit "counter")
          (lit "concurrency") (lit "high") (lit "counter")
          [lit "#include <linux/kernel.h>"; lit "#include <linux/spinlock.h>";
           lit ""; lit "static int counter;"; lit ""; lit "void bump(void)";
           lit "{"];
        Finding.mk (lit "linux/kernel/foo.c") 8 (lit "counter")
          (lit "concurrency") (lit "high") (lit "counter")
          [lit ""; lit "void bump(void)"; lit "{";
           lit "    int tmp = counter;"; lit "";
           lit "    /* possible race condition here */";
           lit "    counter = tmp + 1;"];
        Finding.mk (lit "linux/kernel/foo.c") 11 (lit "counter")
          (lit "concurrency") (lit "high") (lit "counter")
          [lit "    int tmp = counter;"; lit "";
           lit "    /* possible race condition here */";
           lit "    counter = tmp + 1;"; lit "}"; lit ""]]).
Proof. vm_compute. reflexivity. Qed.

(** C5 at a repetition count of 2^32.  [re.finditer] raises
    [OverflowError], which is no [re.error]: the [except] of the
    pattern does not catch it, [analyze_file] raises and logs no
    warning.  The finding of the pattern before it and the three of the
    pattern after it, which the rule set without the pattern returns,
    are lost; the run logs the file as an error and does not count it
    as analyzed. *)
Theorem overflow_pattern_aborts_file :
  (∀ content,
     re_finditer (PythonLib := SimplePython.lib)
       (lit "x{4294967296}") content [IGNORECASE; MULTILINE]
     = Raises (OverflowError (lit "the repetition number is too large")))
  ∧ Rule.patterns Demo.overflowing
    = Some [lit "race\s+condition"; lit "x{4294967296}"; lit "counter"]
  ∧ AntiPatternDetector.analyze_file (H := SimplePython.lib)
      Demo.config_overflow Demo.fs Demo.foo_c
    = ([], Raised (OverflowError (lit "the repetition number is too large")))
  ∧ (∃ findings,
       AntiPatternDetector.analyze_file (H := SimplePython.lib)
         Demo.config_counter Demo.fs Demo.foo_c
       = ([], Returned findings)
       ∧ Finding.pattern <$> findings
         = [lit "race\s+condition"; lit "counter"; lit "counter";
            lit "counter"])
  ∧ (∃ log results,
       AntiPatternDetector.analyze_kernel (H := SimplePython.lib)
         Demo.config_overflow Demo.fs id (lit "linux")
       = (log, Returned results)
       ∧ findings results = []
       ∧ total_files (statistics results) = 1
       ∧ analyzed_files (statistics results) = 0
       ∧ LogError (lit "Error analyzing linux/kernel/foo.c: "
                   ++ lit "the repetition number is too large")
         ∈ log).
Proof.
  split_and!.
  - intros content. reflexivity.
  - reflexivity.
  - vm_compute. reflexivity.
  - eexists. split; [reflexivity|]. vm_compute. reflexivity.
  - eexists _, _. split; [reflexivity|].
    split_and!; [reflexivity|reflexivity|reflexivity|].
    apply (bool_decide_unpack _). vm_compute. exact I.
Qed.

(** * File selection *)

Section FileSelection.

Context `{PythonLib}.
Import AntiPatternDetector.

Lemma within_cap_spec config fs p :
  within_cap config fs p = true ↔
  ∃ n, FS.st_size fs p = Returned n ∧ n ≤ max_file_size config.
Proof.
  unfold within_cap. destruct (FS.st_size fs p) as [n|e].
  - rewrite bool_decide_eq_true. split; [eauto|]. by intros [? [[= <-] ?]].
  - split; [done|]. by intros [? [? _]].
Qed.

Lemma get_c_files_loop_spec config fs candidates :
  (∀ p, p ∈ candidates → excluded config p = false →
        ∃ n, FS.st_size fs p = Returned n) →
  ∀ log c_files, ∃ log',
    get_c_files_loop config fs log c_files candidates
    = (log',
       Returned
         (c_files
          ++ filter (λ p, excluded config p = false
                          ∧ within_cap config fs p = true)
                    candidates)).
Proof.
  induction candidates as [|p ps IH]; intros Hstat log c_files.
  - exists log. simpl. by rewrite app_nil_r.
  - assert (Hps : ∀ q, q ∈ ps → excluded config q = false →
                       ∃ n, FS.st_size fs q = Returned n).
    { intros q Hq. apply Hstat. by right. }
    cbn [get_c_files_loop]. fold (excluded config p).
    destruct (excluded config p) eqn:Hex.
    + destruct (IH Hps log c_files) as [log' ->]. exists log'.
      rewrite filter_cons_False; [done|]. intros [? _]. congruence.
    + destruct (Hstat p) as [n Hn]; [by left|done|]. rewrite Hn.
      destruct (Z.gtb_spec n (max_file_size config)).
      * destruct (IH Hps (log ++ [LogDebug (lit "Skipping large file: "
                                           ++ PurePath.to_str p)]) c_files)
          as [log' ->].
        exists log'. rewrite filter_cons_False; [done|].
        intros [_ [n' [Hn' ?]]%within_cap_spec].
        rewrite Hn in Hn'. simplify_eq. lia.
      * destruct (IH Hps log (c_files ++ [p])) as [log' ->]. exists log'.
        rewrite filter_cons_True; [by rewrite <- app_assoc|].
        split; [done|]. apply within_cap_spec. eauto.
Qed.

(** C8, as the code has it. When every candidate that is not excluded
    can be [stat]-ed, [get_c_files] returns the candidates that are not
    excluded and whose size is at most [max_file_size]: a file of
    exactly [max_file_size] bytes is among them, a file of
    [max_file_size + 1] bytes is not. *)
Theorem size_cap_is_inclusive config fs kernel_path :
  let candidates := FS.rglob_c fs (PurePath.of_str kernel_path) in
  (∀ p, p ∈ candidates → excluded config p = false →
        ∃ n, FS.st_size fs p = Returned n) →
  ∃ log c_files,
    get_c_files config fs kernel_path = (log, Returned c_files)
    ∧ (∀ p, p ∈ c_files ↔
            p ∈ candidates ∧ excluded config p = false
            ∧ ∃ n, FS.st_size fs p = Returned n ∧ n ≤ max_file_size config)
    ∧ (∀ p, p ∈ candidates → excluded config p = false →
            (FS.st_size fs p = Returned (max_file_size config) → p ∈ c_files)
            ∧ (FS.st_size fs p = Returned (max_file_size config + 1) →
               p ∉ c_files)).
Proof.
  intros candidates Hstat. unfold get_c_files. fold candidates.
  destruct (get_c_files_loop_spec config fs candidates Hstat [] [])
    as [log Hloop].
  eexists log, _. split; [exact Hloop|]. simpl.
  assert (Hiff : ∀ p,
    p ∈ filter (λ p, excluded config p = false
                     ∧ within_cap config fs p = true) candidates ↔
    p ∈ candidates ∧ excluded config p = false
    ∧ ∃ n, FS.st_size fs p = Returned n ∧ n ≤ max_file_size config).
  { intros p. rewrite list_elem_of_filter, within_cap_spec. tauto. }
  split; [exact Hiff|].
  intros p Hp Hex. split.
  - intros Hsize. apply Hiff. split_and!; [done|done|].
    exists (max_file_size config). split; [done|lia].
  - intros Hsize [_ [_ [n [Hn Hle]]]]%Hiff.
    rewrite Hsize in Hn. simplify_eq. lia.
Qed.

End FileSelection.

Example get_c_files_example :
  AntiPatternDetector.get_c_files (H := SimplePython.lib)
    Demo.config_cap Demo.fs_cap (lit "linux")
  = ([LogDebug (lit "Skipping large file: linux/mm/over.c")],
     Returned [Demo.at_cap_c]).
Proof. vm_compute. reflexivity. Qed.

Lemma size_cap_is_inclusive_witness :
  ∃ log c_files,
    AntiPatternDetector.get_c_files (H := SimplePython.lib)
      Demo.config_cap Demo.fs_cap (lit "linux") = (log, Returned c_files)
    ∧ (∀ p, p ∈ c_files ↔
            p ∈ FS.rglob_c Demo.fs_cap (PurePath.of_str (lit "linux"))
            ∧ excluded (H := SimplePython.lib) Demo.config_cap p = false
            ∧ ∃ n, FS.st_size Demo.fs_cap p = Returned n
                   ∧ n ≤ max_file_size Demo.config_cap)
    ∧ (∀ p, p ∈ FS.rglob_c Demo.fs_cap (PurePath.of_str (lit "linux")) →
            excluded (H := SimplePython.lib) Demo.config_cap p = false →
            (FS.st_size Demo.fs_cap p
               = Returned (max_file_size Demo.config_cap) → p ∈ c_files)
            ∧ (FS.st_size Demo.fs_cap p
                 = Returned (max_file_size Demo.config_cap + 1) →
               p ∉ c_files)).
Proof.
  apply (size_cap_is_inclusive (H := SimplePython.lib)
           Demo.config_cap Demo.fs_cap (lit "linux")).
  intros p Hp Hex. apply list_elem_of_In in Hp. vm_compute in Hp.
  destruct Hp as [<-|[<-|[<-|[]]]].
  - exists 5. reflexivity.
  - vm_compute in Hex. discriminate Hex.
  - exists 6. reflexivity.
Defined.

(** C8, as stated, fails: [linux/mm/at_cap.c] matches no exclude
    pattern and has exactly [max_file_size] bytes, but another
    candidate, [linux/mm/skip.c], is a link whose target is gone; its
    [stat()] raises, [get_c_files] raises with it, and no set of files
    to scan is returned for [at_cap.c] to be in. *)
Lemma size_cap_needs_stat :
  Demo.at_cap_c ∈ FS.rglob_c Demo.fs_cap (PurePath.of_str (lit "linux"))
  ∧ excluded (H := SimplePython.lib) Demo.config_all Demo.at_cap_c = false
  ∧ FS.st_size Demo.fs_cap Demo.at_cap_c
    = Returned (max_file_size Demo.config_all)
  ∧ AntiPatternDetector.get_c_files (H := SimplePython.lib)
      Demo.config_all Demo.fs_cap (lit "linux")
    = ([], Raised (OSError (lit "No such file or directory")))
  ∧ ¬ ∃ log c_files,
        AntiPatternDetector.get_c_files (H := SimplePython.lib)
          Demo.config_all Demo.fs_cap (lit "linux")
        = (log, Returned c_files)
        ∧ Demo.at_cap_c ∈ c_files.
Proof.
  split_and!.
  - apply (bool_decide_unpack _). vm_compute. exact I.
  - vm_compute. reflexivity.
  - vm_compute. reflexivity.
  - vm_compute. reflexivity.
  - intros (log & c_files & Hrun & _). vm_compute in Hrun. discriminate Hrun.
Qed.

(** * Undecodable bytes *)

Section Decoding.

Context `{PythonLib}.
Import AntiPatternDetector.

Lemma mapM_id_omap {A} (l : list (option A)) s :
  mapM id l = Some s → omap id l = s.
Proof.
  revert s. induction l as [|[x|] l IH]; intros s Hs; simplify_option_eq.
  - done.
  - f_equal. by apply IH.
Qed.

Lemma expected_warnings_spec content file_dir rules ev :
  ev ∈ expected_warnings content file_dir rules →
  ∃ pattern e, ev = invalid_regex_warning pattern e.
Proof.
  unfold expected_warnings.
  intros [pattern [Hev _]]%list_elem_of_bind.
  unfold regex_warning in Hev.
  destruct (re_finditer pattern content SCAN_FLAGS) as [?|e|?];
    [by apply elem_of_nil in Hev| |by apply elem_of_nil in Hev].
  apply list_elem_of_singleton in Hev. by exists pattern, e.
Qed.

(** C6, as the code has it. Whatever the bytes of a file, reading it
    for the scan does not raise: the text is the decoded characters,
    with every malformed byte range left out (dropped, nothing put in
    its place), and it is the strict decoding when the bytes are valid;
    the file is scanned on that text, and the log holds no event for
    the decoding: only warnings for patterns that do not compile. *)
Theorem undecodable_bytes_are_dropped config fs file_path bytes :
  FS.lookup fs file_path = Some (FS.Regular bytes) →
  let content := Codec.universal_newlines (omap id (Codec.scan bytes)) in
  FS.read fs file_path Codec.Ignore = Returned content
  ∧ analyze_file config fs file_path = scan_text config file_path content
  ∧ (∀ ev, ev ∈ (analyze_file config fs file_path).1 →
           ∃ pattern e, ev = invalid_regex_warning pattern e)
  ∧ (∀ s, Codec.decode Codec.Strict bytes = Returned s →
          content = Codec.universal_newlines s).
Proof.
  intros Hfile content.
  assert (Hread : FS.read fs file_path Codec.Ignore = Returned content).
  { unfold FS.read. by rewrite Hfile. }
  split_and!.
  - done.
  - unfold analyze_file, scan_text. by rewrite Hread.
  - intros ev. rewrite analyze_file_unfold, Hread.
    destruct (PurePath.relative_to _ _) as [rel|?]; simpl.
    + apply expected_warnings_spec.
    + by intros ?%elem_of_nil.
  - intros s. unfold Codec.decode.
    destruct (mapM id (Codec.scan bytes)) as [s'|] eqn:Hs; [|done].
    intros [= <-]. subst content. by rewrite (mapM_id_omap _ _ Hs).
Qed.

End Decoding.

(** C6, as stated, fails: an invalid byte is not replaced by a
    substitute.  For the bytes of [ra<FF>ce condition] substitution
    gives a text with U+FFFD in it, on which the scan finds nothing;
    [analyze_file] scans [race condition] and returns a finding. *)
Lemma invalid_bytes_not_substituted :
  let bytes := list_byte_of_string "ra" ++ [xff]
               ++ list_byte_of_string "ce condition" in
  let fs := [(Demo.foo_c, FS.Regular bytes)] in
  ∃ substituted,
    Codec.read_text Codec.Replace bytes = Returned substituted
    ∧ substituted
      = lit "ra" ++ [Codec.REPLACEMENT_CHARACTER] ++ lit "ce condition"
    ∧ AntiPatternDetector.analyze_file (H := SimplePython.lib)
        Demo.config fs Demo.foo_c
      ≠ scan_text (H := SimplePython.lib) Demo.config Demo.foo_c substituted
    ∧ AntiPatternDetector.analyze_file (H := SimplePython.lib)
        Demo.config fs Demo.foo_c
      = scan_text (H := SimplePython.lib) Demo.config Demo.foo_c
          (lit "race condition").
Proof.
  eexists. split_and!; [reflexivity|reflexivity| |].
  - vm_compute. discriminate.
  - vm_compute. reflexivity.
Qed.

Lemma undecodable_bytes_are_dropped_witness :
  let bytes := list_byte_of_string "ra" ++ [xff]
               ++ list_byte_of_string "ce condition" in
  let fs := [(Demo.foo_c, FS.Regular bytes)] in
  let content := Codec.universal_newlines (omap id (Codec.scan bytes)) in
  FS.read fs Demo.foo_c Codec.Ignore = Returned content
  ∧ AntiPatternDetector.analyze_file (H := SimplePython.lib)
      Demo.config fs Demo.foo_c
    = scan_text (H := SimplePython.lib) Demo.config Demo.foo_c content
  ∧ (∀ ev,
       ev ∈ (AntiPatternDetector.analyze_file (H := SimplePython.lib)
               Demo.config fs Demo.foo_c).1 →
       ∃ pattern e, ev = invalid_regex_warning pattern e)
  ∧ (∀ s, Codec.decode Codec.Strict bytes = Returned s →
          content = Codec.universal_newlines s).
Proof.
  exact (undecodable_bytes_are_dropped (H := SimplePython.lib) Demo.config
           [(Demo.foo_c,
             FS.Regular (list_byte_of_string "ra" ++ [xff]
                         ++ list_byte_of_string "ce condition"))]
           Demo.foo_c _ eq_refl).
Defined.

(** * The statistics of a run *)

Section Statistics.

Context `{PythonLib}.
Import AntiPatternDetector.

Lemma sum_values_incr (m : gmap pystr Z) k n :
  m !! k = Some n → sum_values (<[k := n + 1]> m) = sum_values m + 1.
Proof.
  intros Hk. unfold sum_values.
  rewrite (map_fold_delete_L _ _ k n m); [|intros; lia|done].
  rewrite <- (insert_delete_eq m k (n + 1)).
  rewrite map_fold_insert_L; [lia|intros; lia|apply lookup_delete_eq].
Qed.

Lemma count_finding_ok st finding n :
  findings_by_severity st !! Finding.severity finding = Some n →
  ∃ st', count_finding st finding = (st', None)
         ∧ total_findings st' = total_findings st
         ∧ sum_values (findings_by_severity st')
           = sum_values (findings_by_severity st) + 1
         ∧ ∀ k, is_Some (findings_by_severity st !! k) →
                is_Some (findings_by_severity st' !! k).
Proof.
  intros Hn. unfold count_finding. rewrite Hn. eexists. split; [done|].
  simpl. split_and!; [done|by apply sum_values_incr|].
  intros k Hk. destruct (decide (Finding.severity finding = k)) as [->|].
  - rewrite lookup_insert_eq. eauto.
  - by rewrite lookup_insert_ne.
Qed.

Lemma count_findings_total findings : ∀ st,
  total_findings (count_findings st findings).1 = total_findings st.
Proof.
  induction findings as [|f fs IH]; intros st; [done|].
  cbn [count_findings]. unfold count_finding at 1.
  destruct (findings_by_severity st !! Finding.severity f); [|done].
  by rewrite IH.
Qed.

Lemma count_findings_ok findings : ∀ st,
  (∀ f, f ∈ findings → is_Some (findings_by_severity st !! Finding.severity f)) →
  ∃ st', count_findings st findings = (st', None)
         ∧ total_findings st' = total_findings st
         ∧ sum_values (findings_by_severity st')
           = sum_values (findings_by_severity st) + PyStr.len findings
         ∧ ∀ k, is_Some (findings_by_severity st !! k) →
                is_Some (findings_by_severity st' !! k).
Proof.
  unfold PyStr.len.
  induction findings as [|f fs IH]; intros st Hkeys.
  - exists st. split_and!; [done|done|simpl; lia|done].
  - destruct (Hkeys f) as [n Hn]; [by left|].
    destruct (count_finding_ok st f n Hn) as (st1 & Heq & Htot & Hsum & Hdom).
    destruct (IH st1) as (st2 & Heq2 & Htot2 & Hsum2 & Hdom2).
    { intros g Hg. apply Hdom, Hkeys. by right. }
    exists st2. cbn [count_findings]. rewrite Heq, Heq2.
    split_and!; [done|congruence| |by eauto].
    rewrite Hsum2, Hsum. simpl. lia.
Qed.

Lemma collect_totals acc file_path result :
  totals_agree acc → totals_agree (collect acc file_path result).
Proof.
  unfold totals_agree, collect, PyStr.len. intros Hacc.
  destruct result as [wlog [[|f fs]|e]]; cbn [fst snd];
    [simpl; by rewrite app_nil_r| |done].
  destruct (count_findings _ (f :: fs)) as [st [e|]] eqn:Hc;
    cbn [stats all_findings];
    apply (f_equal (λ r, total_findings r.1)) in Hc;
    rewrite count_findings_total in Hc; simpl in Hc;
    rewrite <- Hc, Hacc, length_app; simpl; lia.
Qed.

Lemma collect_severities acc file_path result :
  (∀ f, f ∈ emitted result → known_severity (Finding.severity f)) →
  totals_agree acc → severities_agree acc →
  severities_agree (collect acc file_path result).
Proof.
  unfold severities_agree, collect. intros Hknown Htot [Hsum Hdom].
  destruct result as [wlog [[|f fs]|e]]; cbn [fst snd]; [done| |done].
  destruct (count_findings_ok (f :: fs)
              (add_batch_totals (incr_analyzed_files (stats acc))
                 (PyStr.len (f :: fs))))
    as (st' & -> & Htot' & Hsum' & Hdom').
  { intros g Hg. apply Hdom, Hknown. done. }
  simpl in *. split; [lia|]. intros k Hk. by apply Hdom', Hdom.
Qed.

Lemma drain_totals config fs completed : ∀ acc,
  totals_agree acc → totals_agree (drain config fs acc completed).
Proof.
  induction completed as [|p ps IH]; intros acc Hacc; [done|].
  simpl. by apply IH, collect_totals.
Qed.

Lemma drain_severities config fs completed : ∀ acc,
  (∀ p f, f ∈ emitted (analyze_file config fs p) →
          known_severity (Finding.severity f)) →
  totals_agree acc → severities_agree acc →
  severities_agree (drain config fs acc completed).
Proof.
  induction completed as [|p ps IH]; intros acc Hknown Htot Hsev; [done|].
  simpl. apply IH; [done|by apply collect_totals|].
  apply collect_severities; [apply Hknown|done|done].
Qed.

Lemma initial_sum total :
  sum_values (findings_by_severity (initial_statistics total)) = 0.
Proof. vm_compute. reflexivity. Qed.

(** X1. [total_findings] is the length of the findings list, in every
    run that returns a report, whatever failed on the way. *)
Lemma total_findings_is_length config fs order kernel_path log results :
  analyze_kernel config fs order kernel_path = (log, Returned results) →
  total_findings (statistics results) = PyStr.len (findings results).
Proof.
  unfold analyze_kernel.
  destruct (get_c_files config fs kernel_path) as [log1 [c_files|e]]; [|done].
  destruct (max_concurrent_analyzers config <=? 0); [done|].
  intros [= _ <-]. simpl. by apply drain_totals.
Qed.

(** X2. The severities sum to [total_findings] when no rule configures
    a severity outside the four the statistics start with. *)
Lemma severities_sum_to_total config fs order kernel_path log results :
  (∀ rule_name rule_config severity,
     (rule_name, rule_config) ∈ detection_rules config →
     Rule.severity rule_config = Some severity → known_severity severity) →
  analyze_kernel config fs order kernel_path = (log, Returned results) →
  sum_values (findings_by_severity (statistics results))
  = total_findings (statistics results).
Proof.
  intros Hrules. unfold analyze_kernel.
  destruct (get_c_files config fs kernel_path) as [log1 [c_files|e]]; [|done].
  destruct (max_concurrent_analyzers config <=? 0); [done|].
  intros [= _ <-]. simpl. apply drain_severities.
  - intros p f (content & rel & rule_name & rule_config & pattern & matches
                & m & _ & _ & _ & Hr & _ & _ & _ & _ & _ & ->)
               %analyze_file_finding_iff.
    simpl. destruct (Rule.severity rule_config) as [severity|] eqn:Hsev.
    + by eapply Hrules.
    + simpl. unfold known_severity. set_solver.
  - done.
  - split; [apply initial_sum|]. intros k Hk. unfold known_severity in Hk.
    simpl.
    repeat (apply elem_of_cons in Hk as [->|Hk]; [by vm_compute; eauto|]).
    by apply elem_of_nil in Hk.
Qed.

End Statistics.

(** C1 at a rule of severity [info]: the three findings of the file are
    in the report and in [total_findings]; the first of them raises
    [KeyError] on [findings_by_severity], the [except] of the loop logs
    it as an error of the file, and no severity is counted: the
    severities sum to 0, not to 3. *)
Theorem unknown_severity_breaks_sum :
  ∃ log results,
    AntiPatternDetector.analyze_kernel (H := SimplePython.lib)
      Demo.config_info Demo.fs id (lit "linux") = (log, Returned results)
    ∧ PyStr.len (findings results) = 3
    ∧ total_findings (statistics results) = 3
    ∧ sum_values (findings_by_severity (statistics results)) = 0
    ∧ findings_by_rule (statistics results) = ∅
    ∧ LogError (lit "Error analyzing linux/kernel/foo.c: 'info'") ∈ log.
Proof.
  eexists _, _. split; [reflexivity|].
  split_and!; [reflexivity|reflexivity|vm_compute; reflexivity|reflexivity|].
  apply (bool_decide_unpack _). vm_compute. exact I.
Qed.

(** * Classification *)

Section Classification.

Context `{PythonLib}.
Import ConcurrencyAnalyzer.

Lemma first_pattern_Some text patterns pattern :
  first_pattern text patterns = Some pattern →
  ∃ k, patterns !! k = Some pattern
       ∧ re_search pattern text [IGNORECASE] = true
       ∧ ∀ k' earlier, (k' < k)%nat → patterns !! k' = Some earlier →
                       re_search earlier text [IGNORECASE] = false.
Proof.
  induction patterns as [|p ps IH]; [done|]. simpl.
  destruct (re_search p text [IGNORECASE]) eqn:Hp.
  - intros [= <-]. exists O. split_and!; [done|done|]. intros; lia.
  - intros [k (Hk & Hm & Hbefore)]%IH. exists (S k). split_and!; [done|done|].
    intros [|k'] earlier Hlt Hl; simpl in Hl; [by simplify_eq|].
    apply (Hbefore k'); [lia|done].
Qed.

Lemma first_pattern_None text patterns :
  first_pattern text patterns = None ↔
  ∀ pattern, pattern ∈ patterns → re_search pattern text [IGNORECASE] = false.
Proof.
  induction patterns as [|p ps IH]; simpl.
  - split; [|done]. by intros _ ? ?%elem_of_nil.
  - destruct (re_search p text [IGNORECASE]) eqn:Hp.
    + split; [done|]. intros Hall. rewrite Hall in Hp; [done|by left].
    + rewrite IH. split.
      * intros Hall pattern [->|?]%elem_of_cons; [done|by apply Hall].
      * intros Hall pattern ?. apply Hall. by right.
Qed.

Lemma first_pattern_matches text config :
  is_Some (first_pattern text (Category.patterns config)) ↔
  category_matches config text.
Proof.
  split.
  - intros [pattern (k & Hk & Hm & _)%first_pattern_Some].
    exists pattern. split; [|done]. by eapply list_elem_of_lookup_2.
  - intros [pattern [Hin Hm]].
    destruct (first_pattern text (Category.patterns config)) eqn:Hf; [eauto|].
    rewrite first_pattern_None in Hf. rewrite Hf in Hm; done.
Qed.

Lemma first_category_Some text categories config pattern :
  first_category text categories = Some (config, pattern) →
  ∃ k, categories !! k = Some config
       ∧ first_pattern text (Category.patterns config) = Some pattern
       ∧ ∀ k' earlier, (k' < k)%nat → categories !! k' = Some earlier →
                       ¬ category_matches earlier text.
Proof.
  induction categories as [|c cs IH]; [done|]. simpl.
  destruct (first_pattern text (Category.patterns c)) as [p|] eqn:Hp.
  - intros [= <- <-]. exists O. split_and!; [done|done|]. intros; lia.
  - intros [k (Hk & Hm & Hbefore)]%IH. exists (S k). split_and!; [done|done|].
    intros [|k'] earlier Hlt Hl; simpl in Hl.
    + simplify_eq. rewrite <- first_pattern_matches, Hp. by intros [? ?].
    + apply (Hbefore k'); [lia|done].
Qed.

Lemma first_category_None text categories :
  first_category text categories = None →
  ∀ config, config ∈ categories → ¬ category_matches config text.
Proof.
  induction categories as [|c cs IH]; simpl.
  - by intros _ ? ?%elem_of_nil.
  - destruct (first_pattern text (Category.patterns c)) as [p|] eqn:Hp;
      [done|].
    intros Hcs config [->|Hin]%elem_of_cons.
    + rewrite <- first_pattern_matches, Hp. by intros [? ?].
    + by apply IH.
Qed.

(** Each category holds the entries of the issues assigned to it, in
    the order of the issues, after what it held before. *)
Lemma classify_loop_buckets categories issues : ∀ classified category,
  classify_loop categories classified issues !!! category
  = classified !!! category
    ++ ((λ issue, (classify categories issue).2)
          <$> filter (λ issue, (classify categories issue).1 = category)
                     issues).
Proof.
  induction issues as [|issue issues IH]; intros classified category.
  - simpl. by rewrite app_nil_r.
  - cbn [classify_loop].
    destruct (classify categories issue) as [c entry] eqn:Hc.
    rewrite IH. unfold append_to.
    destruct (decide (c = category)) as [->|Hne].
    + rewrite lookup_total_insert_eq, filter_cons_True by (by rewrite Hc).
      rewrite fmap_cons, Hc. simpl. by rewrite <- app_assoc.
    + rewrite lookup_total_insert_ne by done.
      by rewrite filter_cons_False by (by rewrite Hc).
Qed.

Lemma append_to_total classified category entry :
  total_issues (append_to classified category entry)
  = total_issues classified + 1.
Proof.
  unfold total_issues, append_to, PyStr.len.
  rewrite lookup_total_alt.
  destruct (classified !! category) as [l|] eqn:Hl; simpl.
  - rewrite (map_fold_delete_L _ _ category l classified);
      [|intros; lia|done].
    rewrite <- (insert_delete_eq classified).
    rewrite map_fold_insert_L; [|intros; lia|apply lookup_delete_eq].
    rewrite length_app. simpl. lia.
  - rewrite map_fold_insert_L; [|intros; lia|done]. simpl. lia.
Qed.

Lemma classify_loop_total categories issues : ∀ classified,
  total_issues (classify_loop categories classified issues)
  = total_issues classified + PyStr.len issues.
Proof.
  unfold PyStr.len.
  induction issues as [|issue issues IH]; intros classified.
  - simpl. lia.
  - cbn [classify_loop]. destruct (classify categories issue) as [c entry].
    rewrite IH, append_to_total. simpl. lia.
Qed.

(** The category an issue is assigned to: the first with a matching
    pattern, the general one when there is none. *)
Lemma classify_first_match categories issue :
  (∃ k config,
     categories !! k = Some config
     ∧ (classify categories issue).1 = Category.key config
     ∧ Issue.description (classify categories issue).2
       = Category.description config
     ∧ category_matches config (issue_text issue)
     ∧ ∀ k' earlier, (k' < k)%nat → categories !! k' = Some earlier →
                     ¬ category_matches earlier (issue_text issue))
  ∨ ((classify categories issue).1 = GENERAL
     ∧ Issue.description (classify categories issue).2
       = lit "General concurrency issues"
     ∧ ∀ config, config ∈ categories →
                 ¬ category_matches config (issue_text issue)).
Proof.
  unfold classify. fold (issue_text issue).
  destruct (first_category (issue_text issue) categories)
    as [[config pattern]|] eqn:Hfirst.
  - left. apply first_category_Some in Hfirst as (k & Hk & Hp & Hbefore).
    exists k, config. split_and!; try done.
    apply first_pattern_matches. by rewrite Hp.
  - right. split_and!; [done|done|]. by apply first_category_None.
Qed.

Lemma classify_described issue :
  (classify concurrency_patterns issue).1
  = category_described
      (Issue.description (classify concurrency_patterns issue).2).
Proof.
  destruct (classify_first_match concurrency_patterns issue)
    as [(k & config & Hk & -> & -> & _)|(-> & -> & _)]; [|done].
  apply list_elem_of_lookup_2 in Hk. revert config Hk.
  apply Forall_forall. unfold concurrency_patterns.
  repeat (constructor; [vm_compute; reflexivity|]). constructor.
Qed.

(** C4. Classification from an empty report puts each issue in exactly
    one category: every category holds the entries of exactly the issues
    assigned to it, once each and in order; the entries of all
    categories together are as many as the issues; the entry of an issue
    is in no other category.  The category assigned is the first of the
    table, in the order it is written, with a pattern found in the
    (lowered) matched text of the issue, and [general_concurrency] when
    no category has one; so an issue matched by two categories goes to
    the earlier one. *)
Theorem classification_first_match_wins issues :
  let classified := classify_concurrency_issues ∅ issues in
  let category_of issue := (classify concurrency_patterns issue).1 in
  let entry_of issue := (classify concurrency_patterns issue).2 in
  (∀ category,
     classified !!! category
     = entry_of <$> filter (λ issue, category_of issue = category) issues)
  ∧ total_issues classified = PyStr.len issues
  ∧ (∀ issue category,
       issue ∈ issues →
       entry_of issue ∈ classified !!! category ↔ category = category_of issue)
  ∧ (∀ issue,
       (∃ k config,
          concurrency_patterns !! k = Some config
          ∧ category_of issue = Category.key config
          ∧ category_matches config (issue_text issue)
          ∧ ∀ k' earlier, (k' < k)%nat →
                          concurrency_patterns !! k' = Some earlier →
                          ¬ category_matches earlier (issue_text issue))
       ∨ (category_of issue = GENERAL
          ∧ ∀ config, config ∈ concurrency_patterns →
                      ¬ category_matches config (issue_text issue)))
  ∧ (∀ issue k1 k2 config1 config2,
       (k1 < k2)%nat →
       concurrency_patterns !! k1 = Some config1 →
       concurrency_patterns !! k2 = Some config2 →
       category_matches config1 (issue_text issue) →
       category_matches config2 (issue_text issue) →
       category_of issue ≠ Category.key config2
       ∧ ((∀ k' earlier, (k' < k1)%nat →
                         concurrency_patterns !! k' = Some earlier →
                         ¬ category_matches earlier (issue_text issue)) →
          category_of issue = Category.key config1)).
Proof.
  intros classified category_of entry_of.
  assert (Hbuckets : ∀ category,
    classified !!! category
    = entry_of <$> filter (λ issue, category_of issue = category) issues).
  { intros category. subst classified. unfold classify_concurrency_issues.
    rewrite classify_loop_buckets, lookup_total_empty. done. }
  assert (Hnodup : NoDup (Category.key <$> concurrency_patterns)).
  { apply (bool_decide_unpack _). vm_compute. exact I. }
  assert (Hfirst : ∀ issue k config,
    concurrency_patterns !! k = Some config →
    category_matches config (issue_text issue) →
    (∀ k' earlier, (k' < k)%nat →
                   concurrency_patterns !! k' = Some earlier →
                   ¬ category_matches earlier (issue_text issue)) →
    category_of issue = Category.key config).
  { intros issue k config Hk Hm Hbefore.
    destruct (classify_first_match concurrency_patterns issue)
      as [(k0 & config0 & Hk0 & Hcat & _ & Hm0 & Hbefore0)|(_ & _ & Hnone)].
    - destruct (Nat.lt_total k k0) as [Hlt|[->|Hlt]].
      + by destruct (Hbefore0 k config Hlt Hk).
      + subst category_of. simpl. rewrite Hcat. congruence.
      + by destruct (Hbefore k0 config0 Hlt Hk0).
    - destruct (Hnone config); [by eapply list_elem_of_lookup_2|done]. }
  split_and!.
  - exact Hbuckets.
  - subst classified. unfold classify_concurrency_issues.
    rewrite classify_loop_total. unfold total_issues.
    rewrite map_fold_empty. lia.
  - intros issue category Hin. rewrite Hbuckets, list_elem_of_fmap. split.
    + intros [issue' [Heq [Hcat _]%list_elem_of_filter]].
      subst category_of entry_of. simpl in *.
      rewrite <- Hcat, !classify_described. by rewrite Heq.
    + intros ->. exists issue. split; [done|].
      by apply list_elem_of_filter.
  - intros issue.
    destruct (classify_first_match concurrency_patterns issue)
      as [(k & config & Hk & Hcat & _ & Hm & Hbefore)|(Hcat & _ & Hnone)].
    + left. by exists k, config.
    + by right.
  - intros issue k1 k2 config1 config2 Hlt Hk1 Hk2 Hm1 Hm2. split.
    + destruct (classify_first_match concurrency_patterns issue)
        as [(k & config & Hk & Hcat & _ & Hm & Hbefore)|(_ & _ & Hnone)].
      * subst category_of. simpl. rewrite Hcat. intros Heq.
        assert (k = k2) as ->.
        { eapply NoDup_lookup; [exact Hnodup| |].
          - by rewrite list_lookup_fmap, Hk.
          - by rewrite list_lookup_fmap, Hk2, Heq. }
        by destruct (Hbefore k1 config1 Hlt Hk1).
      * destruct (Hnone config1); [by eapply list_elem_of_lookup_2|done].
    + intros Hbefore. by eapply Hfirst.
Qed.

End Classification.

Example classify_examples :
  let finding text :=
    Finding.mk (lit "linux/kernel/foo.c") 1 (lit "lock") (lit "concurrency")
               (lit "high") (lit text) [] in
  (ConcurrencyAnalyzer.classify (H := SimplePython.lib)
     ConcurrencyAnalyzer.concurrency_patterns
     (finding "Spinlock DEADLOCK"%string)).1 = lit "deadlock"
  ∧ (ConcurrencyAnalyzer.classify (H := SimplePython.lib)
       ConcurrencyAnalyzer.concurrency_patterns
       (finding "atomic operation"%string)).1 = lit "race_condition"
  ∧ (ConcurrencyAnalyzer.classify (H := SimplePython.lib)
       ConcurrencyAnalyzer.concurrency_patterns
       (finding "atomic_inc"%string)).1 = lit "atomic_operation"
  ∧ (ConcurrencyAnalyzer.classify (H := SimplePython.lib)
       ConcurrencyAnalyzer.concurrency_patterns
       (finding "volatile"%string)).1 = lit "general_concurrency"
  ∧ (ConcurrencyAnalyzer.classify (H := SimplePython.lib)
       ConcurrencyAnalyzer.concurrency_patterns
       Demo.finding).1 = lit "race_condition".
Proof. vm_compute. repeat split. Qed.

(** * Code snippets *)

Section Snippets.

Context `{PythonLib}.
Import ConcurrencyAnalyzer.

Lemma mapM_omap {A B} (f : A → option B) (l : list A) :
  Forall (λ x, is_Some (f x)) l → mapM f l = Some (omap f l).
Proof.
  intros Hl. apply mapM_Some_2.
  induction Hl as [|x l [y Hy] _ IH]; csimpl; [constructor|].
  rewrite Hy. by constructor.
Qed.

(** The loop of [extract_code_snippets] over the lines read: it never
    leaves the list, and gives the window of five lines around the
    line of the issue, clipped to the file. *)
Lemma snippet_lines_window (lines : list pystr) line :
  let line_num := line - 1 in
  mapM (snippet_line lines line_num)
       (PyStr.range (Z.max 0 (line_num - 5))
                    (Z.min (PyStr.len lines) (line_num + 6)))
  = Some (annotated_window lines line (Z.max 1 (line - 5))
            (Z.min (PyStr.len lines) (line + 5))).
Proof.
  intros line_num. subst line_num. unfold PyStr.len.
  set (n := Z.of_nat (length lines)).
  rewrite mapM_omap.
  - f_equal. unfold annotated_window, PyStr.range.
    replace (Z.min n (line + 5) + 1 - Z.max 1 (line - 5))
      with (Z.min n (line - 1 + 6) - Z.max 0 (line - 1 - 5)) by lia.
    rewrite !omap_fmap_compose.
    apply list_omap_ext, Forall2_same_length_lookup_2; [done|].
    intros i k k' H1 H2. assert (k' = k) as -> by congruence.
    unfold snippet_line, annotated.
    replace (Z.max 1 (line - 5) + Z.of_nat k - 1)
      with (Z.max 0 (line - 1 - 5) + Z.of_nat k) by lia.
    destruct (PyStr.index lines _); simpl; [|done].
    replace (Z.max 0 (line - 1 - 5) + Z.of_nat k + 1)
      with (Z.max 1 (line - 5) + Z.of_nat k) by lia.
    do 2 f_equal.
    destruct (decide (Z.max 0 (line - 1 - 5) + Z.of_nat k = line - 1)).
    + rewrite !bool_decide_eq_true_2 by lia. done.
    + rewrite !bool_decide_eq_false_2 by lia. done.
  - apply Forall_forall. intros i [k [-> Hk]]%list_elem_of_fmap.
    apply elem_of_seq in Hk. unfold snippet_line, PyStr.index.
    destruct (Z.ltb_spec (Z.max 0 (line - 1 - 5) + Z.of_nat k) 0); [lia|].
    destruct (lookup_lt_is_Some_2 lines
                (Z.to_nat (Z.max 0 (line - 1 - 5) + Z.of_nat k)))
      as [l ->]; [lia|]. simpl. eauto.
Qed.

(** What [extract_code_snippets] attaches when the path it builds,
    [kernel_dir / issue.file], is a readable file: the window of the
    lines [max(1, line-5)] through [min(number of lines, line+5)],
    annotated. *)
Lemma code_snippet_of_readable fs kernel_dir issue bytes content :
  FS.lookup fs (PurePath.join kernel_dir (Issue.file issue))
    = Some (FS.Regular bytes) →
  Codec.read_text Codec.Ignore bytes = Returned content →
  code_snippet_of fs kernel_dir issue
  = annotated_window (PyStr.readlines content) (Issue.line issue)
      (Z.max 1 (Issue.line issue - 5))
      (Z.min (PyStr.len (PyStr.readlines content)) (Issue.line issue + 5)).
Proof.
  intros Hfile Hread. unfold code_snippet_of, FS.exists_, read_lines, FS.read.
  rewrite Hfile, Hread. by rewrite snippet_lines_window.
Qed.

(** What it attaches when that path does not exist. *)
Lemma code_snippet_of_missing fs kernel_dir issue :
  FS.lookup fs (PurePath.join kernel_dir (Issue.file issue)) = None →
  code_snippet_of fs kernel_dir issue
  = [lit "File not found: "
     ++ PurePath.to_str (PurePath.join kernel_dir (Issue.file issue))].
Proof.
  intros Hfile. unfold code_snippet_of, FS.exists_. by rewrite Hfile.
Qed.

End Snippets.

(** C7 on the report of a scan.  The scan of [linux] records the file
    of a finding as [linux/kernel/foo.c], the path it opened;
    [extract_code_snippets] looks for [kernel_dir / file], that is
    [linux/linux/kernel/foo.c], and attaches the placeholder although
    the file of the finding exists and can be read. *)
Theorem snippet_lookup_doubles_the_root :
  ∃ log results entry,
    AntiPatternDetector.analyze_kernel (H := SimplePython.lib)
      Demo.config Demo.fs id (lit "linux") = (log, Returned results)
    ∧ ConcurrencyAnalyzer.load_results (findings results) = [Demo.finding]
    ∧ FS.exists_ Demo.fs (PurePath.of_str (Finding.file Demo.finding)) = true
    ∧ (∃ content,
         FS.read Demo.fs (PurePath.of_str (Finding.file Demo.finding))
                 Codec.Ignore = Returned content)
    ∧ ConcurrencyAnalyzer.extract_code_snippets Demo.fs (lit "linux")
        (ConcurrencyAnalyzer.classify_concurrency_issues (H := SimplePython.lib)
           ∅ (ConcurrencyAnalyzer.load_results (findings results)))
      !!! lit "race_condition" = [entry]
    ∧ Issue.file entry = lit "linux/kernel/foo.c"
    ∧ Issue.line entry = 10
    ∧ Issue.code_snippet entry
      = Some [lit "File not found: linux/linux/kernel/foo.c"].
Proof.
  eexists _, _, _. split; [reflexivity|].
  split_and!; try (vm_compute; reflexivity).
  eexists. vm_compute. reflexivity.
Qed.

(** The snippet the same entry gets when the root is not prefixed a
    second time. *)
Example snippet_of_scanned_file :
  ConcurrencyAnalyzer.code_snippet_of Demo.fs (PurePath.of_str (lit "."))
    (Issue.mk (lit "linux/kernel/foo.c") 10 (lit "race condition") []
       (lit "race.*condition") (lit "") None)
  = [lit "       5: ";
     lit "       6: void bump(void)";
     lit "       7: {";
     lit "       8:     int tmp = counter;";
     lit "       9: ";
     lit ">>>   10:     /* possible race condition here */";
     lit "      11:     counter = tmp + 1;";
     lit "      12: }"].
Proof. vm_compute. reflexivity. Qed.

(** * The report of a run *)

Section RunShape.

Context `{PythonLib}.
Import AntiPatternDetector.

Lemma count_finding_frame st f :
  total_files (count_finding st f).1 = total_files st
  ∧ analyzed_files (count_finding st f).1 = analyzed_files st
  ∧ files_with_findings (count_finding st f).1 = files_with_findings st.
Proof.
  unfold count_finding.
  by destruct (findings_by_severity st !! Finding.severity f).
Qed.

Lemma count_findings_frame findings : ∀ st,
  total_files (count_findings st findings).1 = total_files st
  ∧ analyzed_files (count_findings st findings).1 = analyzed_files st
  ∧ files_with_findings (count_findings st findings).1
    = files_with_findings st.
Proof.
  induction findings as [|f fs IH]; intros st; [done|].
  cbn [count_findings]. pose proof (count_finding_frame st f) as Hf.
  destruct (count_finding st f) as [st' [e|]]; [done|].
  destruct (IH st') as (H1 & H2 & H3). simpl in Hf.
  rewrite H1, H2, H3. done.
Qed.

Lemma collect_shape config fs acc file_path :
  let result := analyze_file config fs file_path in
  let acc' := collect acc file_path result in
  all_findings acc' = all_findings acc ++ emitted result
  ∧ total_files (stats acc') = total_files (stats acc)
  ∧ analyzed_files (stats acc')
    = analyzed_files (stats acc) + (if returned result then 1 else 0)
  ∧ files_with_findings (stats acc')
    = files_with_findings (stats acc)
      + (if bool_decide (emitted result = []) then 0 else 1).
Proof.
  intros result acc'. subst acc'. unfold collect, emitted, returned.
  destruct result as [wlog [[|f findings]|e]]; cbn [fst snd].
  - simpl. rewrite app_nil_r. split_and!; [done|done|done|lia].
  - pose proof (count_findings_frame (f :: findings)
                  (add_batch_totals (incr_analyzed_files (stats acc))
                     (PyStr.len (f :: findings)))) as (H1 & H2 & H3).
    destruct (count_findings _ (f :: findings)) as [st [e|]];
      cbn [stats all_findings fst] in *; rewrite H1, H2, H3; simpl;
      by split_and!.
  - simpl. rewrite app_nil_r. split_and!; [done|done|lia|lia].
Qed.

Lemma drain_shape config fs completed : ∀ acc,
  let final := drain config fs acc completed in
  all_findings final
    = all_findings acc
      ++ (completed ≫= λ p, emitted (analyze_file config fs p))
  ∧ total_files (stats final) = total_files (stats acc)
  ∧ analyzed_files (stats final)
    = analyzed_files (stats acc)
      + PyStr.len (filter (λ p, returned (analyze_file config fs p) = true)
                          completed)
  ∧ files_with_findings (stats final)
    = files_with_findings (stats acc)
      + PyStr.len (filter (λ p, emitted (analyze_file config fs p) ≠ [])
                          completed).
Proof.
  unfold PyStr.len.
  induction completed as [|p ps IH]; intros acc.
  - simpl. rewrite app_nil_r. split_and!; [done|done|lia|lia].
  - cbn [drain].
    destruct (IH (collect acc p (analyze_file config fs p)))
      as (H1 & H2 & H3 & H4).
    destruct (collect_shape config fs acc p) as (C1 & C2 & C3 & C4).
    cbn zeta in *. rewrite H1, H2, H3, H4, C1, C2, C3, C4.
    rewrite bind_cons, <- app_assoc. split_and!; [done|done| |].
    + destruct (returned (analyze_file config fs p)) eqn:Hr.
      * rewrite filter_cons_True by done. simpl. lia.
      * rewrite filter_cons_False by (by rewrite Hr). lia.
    + case_bool_decide as He.
      * rewrite filter_cons_False by (by intros ?). lia.
      * rewrite filter_cons_True by done. simpl. lia.
Qed.

(** What a run that returns went through. *)
Lemma analyze_kernel_returned config fs order kernel_path log results :
  analyze_kernel config fs order kernel_path = (log, Returned results) →
  ∃ log1 c_files log2,
    get_c_files config fs kernel_path = (log1, Returned c_files)
    ∧ 0 < max_concurrent_analyzers config
    ∧ let final :=
        drain config fs
          {| log := log2; all_findings := [];
             stats := initial_statistics (PyStr.len c_files) |}
          (order c_files) in
      findings results = all_findings final
      ∧ statistics results = stats final
      ∧ summary results = summary_of (stats final).
Proof.
  unfold analyze_kernel.
  destruct (get_c_files config fs kernel_path) as [log1 [c_files|e]]; [|done].
  destruct (Z.leb_spec (max_concurrent_analyzers config) 0); [done|].
  intros [= _ <-]. eexists log1, c_files, _. by split_and!.
Qed.

Lemma filter_length_mono {A} (P Q : A → Prop)
    `{∀ x, Decision (P x)} `{∀ x, Decision (Q x)} (l : list A) :
  (∀ x, P x → Q x) → (length (filter P l) ≤ length (filter Q l))%nat.
Proof.
  intros HPQ. induction l as [|x l IH]; [done|].
  destruct (decide (P x)) as [HP|HP].
  - rewrite !filter_cons_True by auto. simpl. lia.
  - rewrite (filter_cons_False P) by done.
    destruct (decide (Q x)).
    + rewrite filter_cons_True by done. simpl. lia.
    + by rewrite filter_cons_False by done.
Qed.

(** X4. The report of a run holds, in completion order, the findings
    of every file whose analysis returned; [analyzed_files] counts the
    files whose analysis returned, [files_with_findings] those with a
    non-empty result, [total_files] the files selected; so
    [files_with_findings <= analyzed_files <=] the number of completed
    files. *)
Theorem report_shape config fs order kernel_path log results :
  analyze_kernel config fs order kernel_path = (log, Returned results) →
  ∃ log1 c_files,
    get_c_files config fs kernel_path = (log1, Returned c_files)
    ∧ findings results
      = (order c_files ≫= λ p, emitted (analyze_file config fs p))
    ∧ total_files (statistics results) = PyStr.len c_files
    ∧ analyzed_files (statistics results)
      = PyStr.len (filter (λ p, returned (analyze_file config fs p) = true)
                          (order c_files))
    ∧ files_with_findings (statistics results)
      = PyStr.len (filter (λ p, emitted (analyze_file config fs p) ≠ [])
                          (order c_files))
    ∧ 0 ≤ files_with_findings (statistics results)
        ≤ analyzed_files (statistics results)
    ∧ analyzed_files (statistics results) ≤ PyStr.len (order c_files).
Proof.
  intros (log1 & c_files & log2 & Hfiles & _ & Hf & Hs & _)
         %analyze_kernel_returned.
  exists log1, c_files. split; [done|].
  destruct (drain_shape config fs (order c_files)
              {| log := log2; all_findings := [];
                 stats := initial_statistics (PyStr.len c_files) |})
    as (H1 & H2 & H3 & H4).
  cbn zeta in *. rewrite Hf, Hs, H1, H2, H3, H4. simpl.
  split_and!; try done.
  - unfold PyStr.len. lia.
  - unfold PyStr.len. apply inj_le, filter_length_mono.
    intros p Hp. unfold emitted, returned in *.
    by destruct ((analyze_file config fs p).2).
  - unfold PyStr.len. apply inj_le, length_filter.
Qed.

End RunShape.

Section Tally.

Context `{PythonLib}.
Import AntiPatternDetector.

Lemma known_severity_dec severity :
  known_severity severity ∨ ¬ known_severity severity.
Proof.
  unfold known_severity.
  destruct (decide (severity
                    ∈ [lit "critical"; lit "high"; lit "medium"; lit "low"]));
    auto.
Qed.

Lemma count_severity_snoc severity counted f :
  count_severity severity (counted ++ [f])
  = count_severity severity counted
    + (if decide (Finding.severity f = severity) then 1 else 0).
Proof.
  unfold count_severity, PyStr.len. rewrite filter_app, length_app.
  destruct (decide (Finding.severity f = severity)).
  - rewrite filter_cons_True by done. simpl. lia.
  - rewrite filter_cons_False by done. simpl. lia.
Qed.

Lemma count_rule_snoc rule counted f :
  count_rule rule (counted ++ [f])
  = count_rule rule counted
    + (if decide (Finding.rule f = rule) then 1 else 0).
Proof.
  unfold count_rule, PyStr.len. rewrite filter_app, length_app.
  destruct (decide (Finding.rule f = rule)).
  - rewrite filter_cons_True by done. simpl. lia.
  - rewrite filter_cons_False by done. simpl. lia.
Qed.

Lemma count_rule_nonneg rule counted : 0 ≤ count_rule rule counted.
Proof. unfold count_rule, PyStr.len. lia. Qed.

Lemma count_finding_tally st counted f :
  tallied st counted → known_severity (Finding.severity f) →
  ∃ st', count_finding st f = (st', None) ∧ tallied st' (counted ++ [f]).
Proof.
  intros (Hknown & Hunknown & Hrule & Hnorule) Hf.
  unfold count_finding. rewrite (Hknown _ Hf). eexists. split; [done|].
  unfold tallied. simpl. split_and!.
  - intros severity Hs. rewrite count_severity_snoc.
    destruct (decide (Finding.severity f = severity)) as [<-|Hne].
    + by rewrite lookup_insert_eq.
    + rewrite lookup_insert_ne by done. rewrite Hknown by done.
      f_equal. lia.
  - intros severity Hs. rewrite lookup_insert_ne; [by apply Hunknown|].
    by intros <-.
  - intros rule. rewrite count_rule_snoc.
    destruct (decide (Finding.rule f = rule)) as [<-|Hne]; intros Hcount.
    + rewrite lookup_insert_eq. f_equal.
      destruct (decide (count_rule (Finding.rule f) counted = 0)) as [H0|H0].
      * rewrite Hnorule by done. simpl. lia.
      * by rewrite Hrule by done.
    + rewrite lookup_insert_ne by done.
      replace (count_rule rule counted + 0) with (count_rule rule counted)
        in * by lia.
      by apply Hrule.
  - intros rule. rewrite count_rule_snoc.
    pose proof (count_rule_nonneg rule counted).
    destruct (decide (Finding.rule f = rule)) as [<-|Hne]; intros Hcount;
      [lia|].
    rewrite lookup_insert_ne by done. apply Hnorule. lia.
Qed.

Lemma count_findings_tally findings : ∀ st counted,
  tallied st counted →
  (∀ f, f ∈ findings → known_severity (Finding.severity f)) →
  ∃ st', count_findings st findings = (st', None)
         ∧ tallied st' (counted ++ findings).
Proof.
  induction findings as [|f fs IH]; intros st counted Ht Hknown.
  - exists st. by rewrite app_nil_r.
  - destruct (count_finding_tally st counted f Ht) as (st1 & Heq & Ht1);
      [apply Hknown; by left|].
    destruct (IH st1 (counted ++ [f]) Ht1) as (st2 & Heq2 & Ht2).
    { intros g Hg. apply Hknown. by right. }
    exists st2. cbn [count_findings]. rewrite Heq, Heq2.
    split; [done|]. by rewrite <- app_assoc in Ht2.
Qed.

Lemma collect_tally acc file_path result :
  (∀ f, f ∈ emitted result → known_severity (Finding.severity f)) →
  tallied (stats acc) (all_findings acc) →
  tallied (stats (collect acc file_path result))
          (all_findings (collect acc file_path result)).
Proof.
  unfold collect. intros Hknown Ht.
  destruct result as [wlog [[|f fs]|e]]; cbn [fst snd];
    [simpl; by rewrite app_nil_r| |done].
  destruct (count_findings_tally (f :: fs)
              (add_batch_totals (incr_analyzed_files (stats acc))
                 (PyStr.len (f :: fs)))
              (all_findings acc)) as (st' & -> & Ht'); [done|done|].
  done.
Qed.

Lemma drain_tally config fs completed : ∀ acc,
  (∀ p f, f ∈ emitted (analyze_file config fs p) →
          known_severity (Finding.severity f)) →
  tallied (stats acc) (all_findings acc) →
  tallied (stats (drain config fs acc completed))
          (all_findings (drain config fs acc completed)).
Proof.
  induction completed as [|p ps IH]; intros acc Hknown Ht; [done|].
  simpl. apply IH; [done|]. apply collect_tally; [apply Hknown|done].
Qed.

Lemma initial_tally total : tallied (initial_statistics total) [].
Proof.
  unfold tallied, known_severity. simpl. split_and!.
  - intros severity Hs.
    repeat (apply elem_of_cons in Hs as [->|Hs]; [by vm_compute|]).
    by apply elem_of_nil in Hs.
  - intros severity Hs. rewrite !lookup_insert_ne, lookup_empty; [done|..];
      intros <-; apply Hs; set_solver.
  - done.
  - intros rule _. apply lookup_empty.
Qed.

Lemma emitted_severity_known config fs file_path f :
  severities_known config →
  f ∈ emitted (analyze_file config fs file_path) →
  known_severity (Finding.severity f).
Proof.
  intros Hrules (content & rel & rule_name & rule_config & pattern & matches
                 & m & _ & _ & _ & Hr & _ & _ & _ & _ & _ & ->)
                %analyze_file_finding_iff.
  simpl. destruct (Rule.severity rule_config) as [severity|] eqn:Hsev.
  - by eapply Hrules.
  - simpl. unfold known_severity. set_solver.
Qed.

(** X3. When no rule configures a severity outside the four, the
    counters of the report are those of its findings list:
    [findings_by_severity] has exactly the four severities, each with
    the number of findings of that severity, and [findings_by_rule] has
    exactly the rules that have findings, each with their number. *)
Theorem statistics_are_recount config fs order kernel_path log results :
  severities_known config →
  analyze_kernel config fs order kernel_path = (log, Returned results) →
  (∀ severity, known_severity severity →
     findings_by_severity (statistics results) !! severity
     = Some (count_severity severity (findings results)))
  ∧ (∀ severity, ¬ known_severity severity →
       findings_by_severity (statistics results) !! severity = None)
  ∧ (∀ rule, count_rule rule (findings results) ≠ 0 →
       findings_by_rule (statistics results) !! rule
       = Some (count_rule rule (findings results)))
  ∧ (∀ rule, count_rule rule (findings results) = 0 →
       findings_by_rule (statistics results) !! rule = None).
Proof.
  intros Hknown (log1 & c_files & log2 & _ & _ & Hf & Hs & _)
                %analyze_kernel_returned.
  cbn zeta in *. rewrite Hf, Hs. apply drain_tally.
  - intros p f. by apply emitted_severity_known.
  - apply initial_tally.
Qed.

Lemma count_severity_perm severity l1 l2 :
  l1 ≡ₚ l2 → count_severity severity l1 = count_severity severity l2.
Proof. unfold count_severity, PyStr.len. by intros ->. Qed.

Lemma count_rule_perm rule l1 l2 :
  l1 ≡ₚ l2 → count_rule rule l1 = count_rule rule l2.
Proof. unfold count_rule, PyStr.len. by intros ->. Qed.

Lemma tallied_perm st1 st2 l1 l2 :
  tallied st1 l1 → tallied st2 l2 → l1 ≡ₚ l2 →
  findings_by_severity st1 = findings_by_severity st2
  ∧ findings_by_rule st1 = findings_by_rule st2.
Proof.
  intros (K1 & U1 & R1 & N1) (K2 & U2 & R2 & N2) Hperm. split.
  - apply map_eq. intros severity.
    destruct (known_severity_dec severity).
    + by rewrite K1, K2, (count_severity_perm _ _ _ Hperm).
    + by rewrite U1, U2.
  - apply map_eq. intros rule.
    destruct (decide (count_rule rule l1 = 0)) as [H0|H0].
    + rewrite N1 by done. rewrite N2; [done|].
      by rewrite <- (count_rule_perm _ _ _ Hperm).
    + rewrite R1 by done. rewrite R2.
      * by rewrite (count_rule_perm _ _ _ Hperm).
      * by rewrite <- (count_rule_perm _ _ _ Hperm).
Qed.

(** X5. The order in which the files complete does not matter to the
    report, when no rule configures a severity outside the four: two
    runs whose completion orders are permutations of each other return
    the same statistics and summary, and findings lists that are
    permutations of each other. *)
Theorem completion_order_irrelevant config fs order1 order2 kernel_path
    log1 results1 log2 results2 :
  severities_known config →
  (∀ c_files, order1 c_files ≡ₚ order2 c_files) →
  analyze_kernel config fs order1 kernel_path = (log1, Returned results1) →
  analyze_kernel config fs order2 kernel_path = (log2, Returned results2) →
  findings results1 ≡ₚ findings results2
  ∧ statistics results1 = statistics results2
  ∧ summary results1 = summary results2.
Proof.
  intros Hknown Hperm
    (l1 & c_files & l1' & Hfiles1 & _ & Hf1 & Hs1 & Hsum1)
      %analyze_kernel_returned
    (l2 & c_files' & l2' & Hfiles2 & _ & Hf2 & Hs2 & Hsum2)
      %analyze_kernel_returned.
  rewrite Hfiles1 in Hfiles2. injection Hfiles2 as _ <-.
  cbn zeta in *.
  set (init1 := {| log := l1'; all_findings := [];
                   stats := initial_statistics (PyStr.len c_files) |}) in *.
  set (init2 := {| log := l2'; all_findings := [];
                   stats := initial_statistics (PyStr.len c_files) |}) in *.
  destruct (drain_shape config fs (order1 c_files) init1)
    as (A1 & B1 & C1 & D1).
  destruct (drain_shape config fs (order2 c_files) init2)
    as (A2 & B2 & C2 & D2).
  cbn zeta in *.
  assert (Hfind : all_findings (drain config fs init1 (order1 c_files))
                  ≡ₚ all_findings (drain config fs init2 (order2 c_files))).
  { rewrite A1, A2. simpl. by rewrite (Hperm c_files). }
  assert (Ht1 : tallied (stats (drain config fs init1 (order1 c_files)))
                  (all_findings (drain config fs init1 (order1 c_files)))).
  { apply drain_tally; [|apply initial_tally].
    intros p f. by apply emitted_severity_known. }
  assert (Ht2 : tallied (stats (drain config fs init2 (order2 c_files)))
                  (all_findings (drain config fs init2 (order2 c_files)))).
  { apply drain_tally; [|apply initial_tally].
    intros p f. by apply emitted_severity_known. }
  destruct (tallied_perm _ _ _ _ Ht1 Ht2 Hfind) as [Hsev Hrule].
  assert (Htot1 : totals_agree (drain config fs init1 (order1 c_files)))
    by (by apply drain_totals).
  assert (Htot2 : totals_agree (drain config fs init2 (order2 c_files)))
    by (by apply drain_totals).
  unfold totals_agree, PyStr.len in *.
  assert (Hstats : stats (drain config fs init1 (order1 c_files))
                   = stats (drain config fs init2 (order2 c_files))).
  { destruct (stats (drain config fs init1 (order1 c_files))),
             (stats (drain config fs init2 (order2 c_files))).
    simpl in *. f_equal; try congruence.
    - rewrite C1, C2. by rewrite (Hperm c_files).
    - rewrite D1, D2. by rewrite (Hperm c_files).
    - rewrite Htot1, Htot2. by rewrite Hfind. }
  rewrite Hf1, Hf2, Hs1, Hs2, Hsum1, Hsum2. split_and!; [done|done|].
  by rewrite Hstats.
Qed.

End Tally.

(** * File selection: order, log and failure *)

Section Selection.

Context `{PythonLib}.
Import AntiPatternDetector.

Lemma get_c_files_loop_exact config fs candidates :
  (∀ p, p ∈ candidates → excluded config p = false →
        ∃ n, FS.st_size fs p = Returned n) →
  ∀ log c_files,
    get_c_files_loop config fs log c_files candidates
    = (log
       ++ (skipping_large_file
             <$> filter (λ p, excluded config p = false
                              ∧ too_large config fs p = true) candidates),
       Returned
         (c_files
          ++ filter (λ p, excluded config p = false
                          ∧ within_cap config fs p = true) candidates)).
Proof.
  induction candidates as [|p ps IH]; intros Hstat log c_files.
  - simpl. by rewrite !app_nil_r.
  - assert (Hps : ∀ q, q ∈ ps → excluded config q = false →
                       ∃ n, FS.st_size fs q = Returned n).
    { intros q Hq. apply Hstat. by right. }
    cbn [get_c_files_loop]. fold (excluded config p).
    destruct (excluded config p) eqn:Hex.
    + rewrite (IH Hps).
      rewrite !filter_cons_False; [done|..]; intros [? _]; congruence.
    + destruct (Hstat p) as [n Hn]; [by left|done|]. rewrite Hn.
      destruct (Z.gtb_spec n (max_file_size config)) as [Hgt|Hle].
      * rewrite (IH Hps).
        rewrite filter_cons_True.
        2: { split; [done|]. unfold too_large. rewrite Hn. lia. }
        rewrite filter_cons_False.
        2: { intros [_ (n' & Hn' & ?)%within_cap_spec].
             rewrite Hn in Hn'. simplify_eq. lia. }
        rewrite fmap_cons, <- app_assoc. done.
      * rewrite (IH Hps).
        rewrite filter_cons_False.
        2: { intros [_ Hbig]. unfold too_large in Hbig.
             rewrite Hn in Hbig. lia. }
        rewrite filter_cons_True.
        2: { split; [done|]. apply within_cap_spec. eauto. }
        by rewrite <- app_assoc.
Qed.

(** X6. When every candidate that is not excluded can be [stat]-ed,
    [get_c_files] returns the candidates it keeps in the order the walk
    met them, and logs one [Skipping large file] line for each
    candidate over the cap, in that order; an excluded file is neither
    [stat]-ed nor logged. *)
Theorem get_c_files_walk_order config fs kernel_path :
  let candidates := FS.rglob_c fs (PurePath.of_str kernel_path) in
  (∀ p, p ∈ candidates → excluded config p = false →
        ∃ n, FS.st_size fs p = Returned n) →
  get_c_files config fs kernel_path
  = (skipping_large_file
       <$> filter (λ p, excluded config p = false
                        ∧ too_large config fs p = true) candidates,
     Returned (filter (λ p, excluded config p = false
                            ∧ within_cap config fs p = true) candidates)).
Proof.
  intros candidates Hstat. unfold get_c_files. fold candidates.
  by rewrite (get_c_files_loop_exact config fs candidates Hstat).
Qed.

Lemma get_c_files_loop_failure config fs before p after e :
  (∀ q, q ∈ before → excluded config q = false →
        ∃ n, FS.st_size fs q = Returned n) →
  excluded config p = false →
  FS.st_size fs p = Raised e →
  ∀ log c_files, ∃ log',
    get_c_files_loop config fs log c_files (before ++ p :: after)
    = (log', Raised e).
Proof.
  intros Hbefore Hex Hp.
  induction before as [|q qs IH]; intros log c_files.
  - exists log. simpl. fold (excluded config p). by rewrite Hex, Hp.
  - assert (Hqs : ∀ r, r ∈ qs → excluded config r = false →
                       ∃ n, FS.st_size fs r = Returned n).
    { intros r Hr. apply Hbefore. by right. }
    simpl. fold (excluded config q).
    destruct (excluded config q) eqn:Hq; [by apply IH|].
    destruct (Hbefore q) as [n ->]; [by left|done|].
    destruct (n >? max_file_size config); by apply IH.
Qed.

(** X7. A candidate that is not excluded and cannot be [stat]-ed ends
    the selection and the run: [get_c_files] raises the error of
    [stat], whatever files come before or after, and [analyze_kernel]
    raises it too, without a report. *)
Theorem stat_failure_aborts_run config fs kernel_path before p after e :
  FS.rglob_c fs (PurePath.of_str kernel_path) = before ++ p :: after →
  (∀ q, q ∈ before → excluded config q = false →
        ∃ n, FS.st_size fs q = Returned n) →
  excluded config p = false →
  FS.st_size fs p = Raised e →
  (get_c_files config fs kernel_path).2 = Raised e
  ∧ ∀ order, (analyze_kernel config fs order kernel_path).2 = Raised e.
Proof.
  intros Hcandidates Hbefore Hex Hp.
  destruct (get_c_files_loop_failure config fs before p after e
              Hbefore Hex Hp [] []) as [log Hloop].
  assert (Hget : get_c_files config fs kernel_path = (log, Raised e)).
  { unfold get_c_files. by rewrite Hcandidates. }
  split; [by rewrite Hget|].
  intros order. unfold analyze_kernel. by rewrite Hget.
Qed.

End Selection.

(** * Files that cannot be read, files outside the repository directory *)

Section FileFailures.

Context `{PythonLib}.
Import AntiPatternDetector.

(** X8. A file that cannot be opened is not a failure of the run:
    [analyze_file] logs one warning and returns no finding, whatever the
    rules, and the run counts the file as analyzed, with no error
    logged and nothing else changed. *)
Theorem unreadable_file_counts_as_analyzed config fs file_path e acc :
  FS.read fs file_path Codec.Ignore = Raised e →
  analyze_file config fs file_path
    = ([could_not_read file_path e], Returned [])
  ∧ collect acc file_path (analyze_file config fs file_path)
    = {| log := log acc ++ [could_not_read file_path e];
         all_findings := all_findings acc;
         stats := incr_analyzed_files (stats acc) |}.
Proof.
  intros Hread.
  assert (Hfile : analyze_file config fs file_path
                  = ([could_not_read file_path e], Returned [])).
  { unfold analyze_file. by rewrite Hread. }
  split; [done|]. rewrite Hfile. unfold collect. simpl.
  by rewrite app_nil_r.
Qed.

Lemma some_rule_enabled (rules : list (pystr * Rule.t)) :
  forallb (λ rule, negb (default true (Rule.enabled rule.2))) rules = false ↔
  ∃ rule_name rule_config,
    (rule_name, rule_config) ∈ rules
    ∧ Rule.enabled rule_config ≠ Some false.
Proof.
  induction rules as [|[rule_name rule_config] rules IH]; simpl.
  - split; [done|]. by intros (? & ? & ?%elem_of_nil & _).
  - rewrite andb_false_iff, IH. split.
    + intros [Hen|(name & rule & Hin & Hen)].
      * exists rule_name, rule_config. split; [left|].
        by destruct (Rule.enabled rule_config) as [[]|].
      * exists name, rule. split; [by right|done].
    + intros (name & rule & [[= -> ->]|Hin]%elem_of_cons & Hen).
      * left. by destruct (Rule.enabled rule_config) as [[]|].
      * right. eauto.
Qed.

Lemma first_raise_None_iff content patterns :
  first_raise content patterns = None ↔
  ∀ pattern, pattern ∈ patterns → pattern_raise pattern content = None.
Proof.
  split; [intros Hnone pattern; by apply first_raise_None|].
  induction patterns as [|p ps IH]; simpl; [done|]. intros Hall.
  rewrite (Hall p) by left. apply IH. intros q Hq. apply Hall. by right.
Qed.

Lemma first_raise_Some_iff content patterns e :
  first_raise content patterns = Some e ↔
  ∃ before pattern after,
    patterns = before ++ pattern :: after
    ∧ (∀ q, q ∈ before → pattern_raise q content = None)
    ∧ pattern_raise pattern content = Some e.
Proof.
  split.
  - induction patterns as [|p ps IH]; simpl; [done|].
    destruct (pattern_raise p content) as [e'|] eqn:Hp.
    + intros [= ->]. exists [], p, ps. split_and!; [done| |done].
      by intros q ?%elem_of_nil.
    + intros (before & pattern & after & -> & Hbefore & Hraise)%IH.
      exists (p :: before), pattern, after. split_and!; [done| |done].
      intros q [->|Hq]%elem_of_cons; auto.
  - intros (before & pattern & after & -> & Hbefore & Hraise).
    rewrite first_raise_app.
    apply first_raise_None_iff in Hbefore as ->. simpl. by rewrite Hraise.
Qed.

Lemma pattern_raise_spec pattern content e :
  pattern_raise pattern content = Some e ↔
  re_finditer pattern content [IGNORECASE; MULTILINE] = Raises e.
Proof.
  unfold pattern_raise, SCAN_FLAGS.
  destruct (re_finditer pattern content [IGNORECASE; MULTILINE]);
    split; congruence.
Qed.

(** X9. With rule entries whose fields are absent or of the expected
    type, [analyze_file] raises in two cases only, both for a file that
    can be read.  Its directory is not below the repository directory
    and some rule is enabled: the exception is the [ValueError] of
    [relative_to].  Or its directory is below it and [re.finditer]
    raises something other than [re.error] for a pattern of a selected
    rule: the exception is that of the first such pattern, in the order
    of the rules and of their patterns. *)
Theorem analyze_file_raises_iff config fs file_path e :
  (analyze_file config fs file_path).2 = Raised e ↔
  ∃ content,
    FS.read fs file_path Codec.Ignore = Returned content
    ∧ ((PurePath.relative_to (PurePath.parent file_path)
                             (repository_dir config) = Raised e
        ∧ ∃ rule_name rule_config,
            (rule_name, rule_config) ∈ detection_rules config
            ∧ Rule.enabled rule_config ≠ Some false)
       ∨ (∃ rel before pattern after,
            PurePath.relative_to (PurePath.parent file_path)
                                 (repository_dir config) = Returned rel
            ∧ scanned_patterns (PurePath.to_str rel) (detection_rules config)
              = before ++ pattern :: after
            ∧ (∀ q, q ∈ before → pattern_raise q content = None)
            ∧ re_finditer pattern content [IGNORECASE; MULTILINE]
              = Raises e)).
Proof.
  rewrite analyze_file_unfold.
  destruct (FS.read fs file_path Codec.Ignore) as [content|e'] eqn:Hread.
  2: { simpl. split; [done|]. by intros [? [? _]]. }
  destruct (PurePath.relative_to _ _) as [rel|e'] eqn:Hrel; simpl.
  - split.
    + destruct (first_raise content _) as [e'|] eqn:Hraise; [|done].
      intros [= ->].
      apply first_raise_Some_iff in Hraise
        as (before & pattern & after & Hscanned & Hbefore
            & Hraise%pattern_raise_spec).
      exists content. split; [done|]. right.
      by exists rel, before, pattern, after.
    + intros (content' & [= <-]
              & [[? _]|(rel' & before & pattern & after & [= <-] & Hscanned
                        & Hbefore & Hraise%pattern_raise_spec)]); [done|].
      assert (first_raise content
                (scanned_patterns (PurePath.to_str rel)
                   (detection_rules config)) = Some e) as ->; [|done].
      apply first_raise_Some_iff. by exists before, pattern, after.
  - destruct (forallb _ (detection_rules config)) eqn:Hall.
    + split; [done|].
      intros (content' & _ & [[[= ->] Hen%some_rule_enabled]
                             |(? & ? & ? & ? & ? & _)]); [|done].
      congruence.
    + apply some_rule_enabled in Hall. split.
      * intros [= ->]. exists content. split; [done|]. by left.
      * intros (content' & _ & [[[= ->] _]|(? & ? & ? & ? & ? & _)]); done.
Qed.

End FileFailures.

(** * The context of a finding *)

Section FindingContext.

Context `{PythonLib}.
Import AntiPatternDetector.

Lemma slice_within {A} (l : list A) a b :
  0 ≤ a → a ≤ b → b ≤ PyStr.len l →
  PyStr.slice l a b = take (Z.to_nat (b - a)) (drop (Z.to_nat a) l).
Proof.
  unfold PyStr.slice, PyStr.slice_index, PyStr.len. intros Ha Hab Hb.
  destruct (Z.ltb_spec a 0); [lia|]. destruct (Z.ltb_spec b 0); [lia|].
  by rewrite !Z.min_l by lia.
Qed.

(** The window of [get_context_lines] around a line of the list holds
    that line, after the [context] lines before it (fewer at the start
    of the list), and is no longer than [2 * context + 1]. *)
Lemma get_context_lines_holds_line (lines : list pystr) line_num context :
  0 ≤ context → 0 ≤ line_num < PyStr.len lines →
  PyStr.index (get_context_lines lines line_num context)
              (Z.min line_num context)
    = PyStr.index lines line_num
  ∧ 1 ≤ PyStr.len (get_context_lines lines line_num context)
      ≤ 2 * context + 1.
Proof.
  intros Hc Hl. unfold get_context_lines. rewrite slice_within by lia.
  unfold PyStr.index, PyStr.len in *.
  destruct (Z.ltb_spec (Z.min line_num context) 0); [lia|].
  destruct (Z.ltb_spec line_num 0); [lia|]. split.
  - rewrite lookup_take_lt by lia. rewrite lookup_drop. f_equal. lia.
  - rewrite length_take, length_drop. lia.
Qed.

Lemma line_of_match_bounds content start :
  1 ≤ PyStr.count NL (PyStr.slice content 0 start) + 1
    ≤ PyStr.len (PyStr.split NL content).
Proof.
  rewrite split_length.
  destruct (slice_prefix content start) as [n ->].
  pose proof (count_nonneg NL (take n content)).
  pose proof (count_take_le NL n content). lia.
Qed.

(** X10. The context of every finding holds the line the match starts
    on: it is the entry at index [min(line - 1, 3)], the lines before it
    being the up to three lines above; the context has between one and
    seven lines. *)
Theorem finding_context_contains_line config fs file_path f :
  f ∈ emitted (analyze_file config fs file_path) →
  ∃ content text,
    FS.read fs file_path Codec.Ignore = Returned content
    ∧ PyStr.index (PyStr.split NL content) (Finding.line f - 1) = Some text
    ∧ PyStr.index (Finding.context f) (Z.min (Finding.line f - 1) 3)
      = Some text
    ∧ 1 ≤ PyStr.len (Finding.context f) ≤ 7.
Proof.
  intros (content & rel & rule_name & rule_config & pattern & matches & m
          & Hread & _ & _ & _ & _ & _ & _ & _ & _
          & ->)%analyze_file_finding_iff.
  pose proof (line_of_match_bounds content (m_start m)) as Hline.
  simpl.
  set (line := PyStr.count NL (PyStr.slice content 0 (m_start m)) + 1) in *.
  destruct (get_context_lines_holds_line (PyStr.split NL content)
              (line - 1) 3) as [Hat Hlen]; [lia|lia|].
  destruct (PyStr.index (PyStr.split NL content) (line - 1)) as [text|]
    eqn:Htext.
  - exists content, text. split_and!; [done|done|done|lia|lia].
  - exfalso. unfold PyStr.index, PyStr.len in *.
    destruct (Z.ltb_spec (line - 1) 0); [lia|].
    apply lookup_ge_None in Htext. lia.
Qed.

End FindingContext.

(** * Classified entries and the detailed report *)

Section Entries.

Context `{PythonLib}.
Import ConcurrencyAnalyzer.
Import ConcurrencyReport.

(** X11. The entry classification stores keeps the file, line, matched
    text and context of the finding and has no snippet yet.  Its
    pattern is not the detector's: it is the first pattern of the
    assigned category found in the text; only an entry of the general
    category keeps the pattern of the finding. *)
Theorem classified_entry_fields categories issue :
  let category := (classify categories issue).1 in
  let entry := (classify categories issue).2 in
  Issue.file entry = Finding.file issue
  ∧ Issue.line entry = Finding.line issue
  ∧ Issue.match_ entry = Finding.match_ issue
  ∧ Issue.context entry = Finding.context issue
  ∧ Issue.code_snippet entry = None
  ∧ ((∃ config k,
        config ∈ categories
        ∧ category = Category.key config
        ∧ Issue.description entry = Category.description config
        ∧ Category.patterns config !! k = Some (Issue.pattern entry)
        ∧ re_search (Issue.pattern entry) (issue_text issue) [IGNORECASE]
          = true
        ∧ ∀ k' earlier, (k' < k)%nat →
            Category.patterns config !! k' = Some earlier →
            re_search earlier (issue_text issue) [IGNORECASE] = false)
     ∨ (category = GENERAL
        ∧ Issue.pattern entry = Finding.pattern issue
        ∧ Issue.description entry = lit "General concurrency issues")).
Proof.
  unfold classify. fold (issue_text issue).
  destruct (first_category (issue_text issue) categories)
    as [[config pattern]|] eqn:Hfirst; simpl.
  - split_and!; try done. left.
    apply first_category_Some in Hfirst as (k & Hk & Hp & _).
    apply first_pattern_Some in Hp as (j & Hj & Hm & Hbefore).
    exists config, j. split_and!; try done.
    by eapply list_elem_of_lookup_2.
  - split_and!; try done. by right.
Qed.

Lemma classify_loop_app categories issues1 : ∀ classified issues2,
  classify_loop categories classified (issues1 ++ issues2)
  = classify_loop categories (classify_loop categories classified issues1)
                  issues2.
Proof.
  induction issues1 as [|issue issues1 IH]; intros classified issues2;
    [done|].
  simpl. destruct (classify categories issue) as [c entry]. apply IH.
Qed.

(** X12. Classification adds to what [classified_issues] already
    holds: classifying one list and then another is classifying their
    concatenation, and classifying the same issues twice leaves every
    category with its entries twice. *)
Theorem classification_accumulates classified issues1 issues2 :
  classify_concurrency_issues
    (classify_concurrency_issues classified issues1) issues2
  = classify_concurrency_issues classified (issues1 ++ issues2)
  ∧ ∀ category,
      classify_concurrency_issues
        (classify_concurrency_issues ∅ issues1) issues1 !!! category
      = (classify_concurrency_issues ∅ issues1 !!! category)
        ++ (classify_concurrency_issues ∅ issues1 !!! category).
Proof.
  unfold classify_concurrency_issues. split.
  - by rewrite classify_loop_app.
  - intros category.
    rewrite (classify_loop_buckets _ issues1 (classify_loop _ ∅ issues1)).
    f_equal. by rewrite classify_loop_buckets, lookup_total_empty.
Qed.







End Entries.

(** * The lines of a snippet *)

Section SnippetLines.

Context `{PythonLib}.
Import ConcurrencyAnalyzer.

Lemma omap_seq_lookup {A} (g : nat → option A) n : ∀ start k,
  (∀ j, (j < n)%nat → is_Some (g (start + j)%nat)) →
  omap g (seq start n) !! k
  = if decide (k < n)%nat then g (start + k)%nat else None.
Proof.
  induction n as [|n IH]; intros start k Hall; [done|].
  destruct (Hall O) as [y Hy]; [lia|]. rewrite Nat.add_0_r in Hy.
  cbn [seq]. csimpl. rewrite Hy.
  destruct k as [|k]; simpl.
  - by rewrite Nat.add_0_r.
  - rewrite IH.
    + replace (S start + k)%nat with (start + S k)%nat by lia.
      destruct (decide (k < n)%nat), (decide (S k < S n)%nat); done || lia.
    + intros j Hj. replace (S start + j)%nat with (start + S j)%nat by lia.
      apply Hall. lia.
Qed.

(** The entries of a window within the file: the [k]-th is the line
    numbered [first + k], annotated. *)
Lemma annotated_window_lookup (lines : list pystr) line first last k :
  1 ≤ first → last ≤ PyStr.len lines →
  annotated_window lines line first last !! k
  = if decide (Z.of_nat k < last + 1 - first)
    then annotated line (first + Z.of_nat k)
           <$> lines !! (Z.to_nat (first - 1) + k)%nat
    else None.
Proof.
  unfold PyStr.len. intros Hfirst Hlast.
  unfold annotated_window, PyStr.range. rewrite omap_fmap_compose.
  rewrite omap_seq_lookup.
  - destruct (decide (k < Z.to_nat (last + 1 - first))%nat),
             (decide (Z.of_nat k < last + 1 - first)); try lia; [|done].
    simpl. unfold PyStr.index.
    destruct (Z.ltb_spec (first + Z.of_nat k - 1) 0); [lia|].
    by replace (Z.to_nat (first + Z.of_nat k - 1))
      with (Z.to_nat (first - 1) + k)%nat by lia.
  - intros j Hj. simpl. unfold PyStr.index.
    destruct (Z.ltb_spec (first + Z.of_nat j - 1) 0); [lia|].
    destruct (lookup_lt_is_Some_2 lines (Z.to_nat (first + Z.of_nat j - 1)))
      as [l ->]; [lia|]. simpl. eauto.
Qed.

(** X14. When the path [extract_code_snippets] builds is a readable
    file, the snippet is made of the lines of the file from
    [max(1, line-5)] on, at most eleven, each with its own number in a
    field of four and its text without trailing white space; the line
    of the issue, when the file has it, is the one entry that starts
    with [>>>], the others start with four spaces.  Reading the lines
    never leaves the list. *)
Theorem snippet_lines fs kernel_dir issue bytes content :
  FS.lookup fs (PurePath.join kernel_dir (Issue.file issue))
    = Some (FS.Regular bytes) →
  Codec.read_text Codec.Ignore bytes = Returned content →
  let lines := PyStr.readlines content in
  let line := Issue.line issue in
  let first := Z.max 1 (line - 5) in
  let snippet := code_snippet_of fs kernel_dir issue in
  PyStr.len snippet ≤ 11
  ∧ (∀ k text,
       snippet !! k = Some text ↔
       first + Z.of_nat k ≤ line + 5
       ∧ ∃ l, lines !! (Z.to_nat (first - 1) + k)%nat = Some l
              ∧ text
                = (if bool_decide (first + Z.of_nat k = line)
                   then lit ">>> " else lit "    ")
                  ++ PyStr.format_d 4 (first + Z.of_nat k) ++ lit ": "
                  ++ PyStr.rstrip l)
  ∧ (1 ≤ line ≤ PyStr.len lines →
     ∃ l, PyStr.index lines (line - 1) = Some l
          ∧ PyStr.index snippet (line - first)
            = Some (lit ">>> " ++ PyStr.format_d 4 line ++ lit ": "
                    ++ PyStr.rstrip l)).
Proof.
  intros Hfile Hread lines line first snippet.
  assert (Hwindow : snippet
    = annotated_window lines line first (Z.min (PyStr.len lines) (line + 5))).
  { subst snippet. by rewrite (code_snippet_of_readable _ _ _ _ _ Hfile Hread). }
  assert (Hlookup : ∀ k,
    snippet !! k
    = if decide (Z.of_nat k < Z.min (PyStr.len lines) (line + 5) + 1 - first)
      then annotated line (first + Z.of_nat k)
             <$> lines !! (Z.to_nat (first - 1) + k)%nat
      else None).
  { intros k. rewrite Hwindow. apply annotated_window_lookup; lia. }
  unfold PyStr.len in *. split_and!.
  - destruct (decide (length snippet ≤ 11)%nat) as [|Hlong]; [lia|].
    destruct (lookup_lt_is_Some_2 snippet 11) as [text Htext]; [lia|].
    rewrite Hlookup in Htext. destruct (decide _); [lia|done].
  - intros k text. rewrite Hlookup. unfold annotated, first. split.
    + destruct (decide _) as [Hk|]; [|done].
      destruct (lines !! _) as [l|] eqn:Hl; [|done].
      intros [= <-]. split; [lia|]. by exists l.
    + intros [Hk [l [Hl ->]]]. apply lookup_lt_Some in Hl as Hlt.
      destruct (decide _) as [|Hout]; [by rewrite Hl|]. lia.
  - intros Hline.
    destruct (lookup_lt_is_Some_2 lines (Z.to_nat (line - 1))) as [l Hl];
      [lia|].
    exists l. unfold PyStr.index.
    destruct (Z.ltb_spec (line - 1) 0); [lia|]. split; [done|].
    destruct (Z.ltb_spec (line - first) 0); [lia|].
    rewrite Hlookup. destruct (decide _) as [|Hout]; [|lia].
    replace (Z.to_nat (first - 1) + Z.to_nat (line - first))%nat
      with (Z.to_nat (line - 1)) by lia.
    rewrite Hl. simpl. unfold annotated.
    replace (first + Z.of_nat (Z.to_nat (line - first))) with line by lia.
    by rewrite bool_decide_eq_true_2.
Qed.

End SnippetLines.

(** * The summary *)

Section SummaryCounts.

Context `{PythonLib}.
Import AntiPatternDetector.

(** X15. When no rule configures a severity outside the four, the
    summary of a report agrees with its findings: the total is the
    length of the findings list and the four priority counts are the
    numbers of findings of each severity. *)
Theorem summary_matches_findings config fs order kernel_path log results :
  severities_known config →
  analyze_kernel config fs order kernel_path = (log, Returned results) →
  total_issues_found (summary results) = PyStr.len (findings results)
  ∧ critical_issues (summary results)
    = count_severity (lit "critical") (findings results)
  ∧ high_priority_issues (summary results)
    = count_severity (lit "high") (findings results)
  ∧ medium_priority_issues (summary results)
    = count_severity (lit "medium") (findings results)
  ∧ low_priority_issues (summary results)
    = count_severity (lit "low") (findings results)
  ∧ total_files_analyzed (summary results)
    = analyzed_files (statistics results)
  ∧ files_with_issues (summary results)
    = files_with_findings (statistics results).
Proof.
  intros Hknown (log1 & c_files & log2 & _ & _ & Hf & Hs & Hsum)
                %analyze_kernel_returned.
  cbn zeta in *. rewrite Hf, Hs, Hsum.
  set (final := drain config fs _ (order c_files)).
  assert (Ht : tallied (stats final) (all_findings final)).
  { apply drain_tally; [|apply initial_tally].
    intros p f. by apply emitted_severity_known. }
  assert (Htot : totals_agree final) by (by apply drain_totals).
  destruct Ht as (Hsev & _). unfold summary_of. simpl.
  assert (Hlookup : ∀ severity, known_severity severity →
    findings_by_severity (stats final) !!! severity
    = count_severity severity (all_findings final)).
  { intros severity Hk. rewrite lookup_total_alt. by rewrite Hsev. }
  split_and!; [done| | | | |done|done];
    apply Hlookup; unfold known_severity; set_solver.
Qed.

End SummaryCounts.

(** * Examples of the properties above *)

(** The rule set of the examples configures known severities only. *)
Ltac demo_severities_known :=
  let Hin := fresh "Hin" in
  let Hsev := fresh "Hsev" in
  intros ? ? ? Hin Hsev;
  apply list_elem_of_In in Hin; vm_compute in Hin;
  destruct Hin as [Hin|[]]; injection Hin as <- <-;
  vm_compute in Hsev; injection Hsev as <-;
  unfold known_severity; apply (bool_decide_unpack _); vm_compute; exact I.

Lemma total_findings_is_length_witness :
  ∃ log results,
    AntiPatternDetector.analyze_kernel (H := SimplePython.lib)
      Demo.config Demo.fs id (lit "linux") = (log, Returned results)
    ∧ total_findings (statistics results) = PyStr.len (findings results).
Proof.
  eexists _, _. split; [reflexivity|].
  eapply (total_findings_is_length (H := SimplePython.lib)
            Demo.config Demo.fs id (lit "linux")).
  reflexivity.
Defined.

Lemma severities_sum_to_total_witness :
  ∃ log results,
    AntiPatternDetector.analyze_kernel (H := SimplePython.lib)
      Demo.config Demo.fs id (lit "linux") = (log, Returned results)
    ∧ sum_values (findings_by_severity (statistics results))
      = total_findings (statistics results).
Proof.
  eexists _, _. split; [reflexivity|].
  eapply (severities_sum_to_total (H := SimplePython.lib)
            Demo.config Demo.fs id (lit "linux"));
    [demo_severities_known|reflexivity].
Defined.

Lemma statistics_are_recount_witness :
  ∃ log results,
    AntiPatternDetector.analyze_kernel (H := SimplePython.lib)
      Demo.config Demo.fs id (lit "linux") = (log, Returned results)
    ∧ (∀ severity, known_severity severity →
         findings_by_severity (statistics results) !! severity
         = Some (count_severity severity (findings results)))
    ∧ (∀ severity, ¬ known_severity severity →
         findings_by_severity (statistics results) !! severity = None)
    ∧ (∀ rule, count_rule rule (findings results) ≠ 0 →
         findings_by_rule (statistics results) !! rule
         = Some (count_rule rule (findings results)))
    ∧ (∀ rule, count_rule rule (findings results) = 0 →
         findings_by_rule (statistics results) !! rule = None).
Proof.
  eexists _, _. split; [reflexivity|].
  eapply (statistics_are_recount (H := SimplePython.lib)
            Demo.config Demo.fs id (lit "linux"));
    [demo_severities_known|reflexivity].
Defined.

Lemma report_shape_witness :
  ∃ log1 c_files,
    AntiPatternDetector.get_c_files (H := SimplePython.lib)
      Demo.config Demo.fs (lit "linux") = (log1, Returned c_files)
    ∧ c_files = [Demo.foo_c].
Proof.
  edestruct (report_shape (H := SimplePython.lib)
               Demo.config Demo.fs id (lit "linux"))
    as (log1 & c_files & Hfiles & _); [reflexivity|].
  exists log1, c_files. split; [exact Hfiles|].
  vm_compute in Hfiles. by injection Hfiles as _ <-.
Defined.

Lemma completion_order_irrelevant_witness :
  ∃ log1 results1 log2 results2,
    AntiPatternDetector.analyze_kernel (H := SimplePython.lib)
      Demo.config Demo.fs_two id (lit "linux") = (log1, Returned results1)
    ∧ AntiPatternDetector.analyze_kernel (H := SimplePython.lib)
        Demo.config Demo.fs_two reverse (lit "linux")
      = (log2, Returned results2)
    ∧ Finding.file <$> findings results1
      = [lit "linux/kernel/foo.c"; lit "linux/kernel/bar.c"]
    ∧ Finding.file <$> findings results2
      = [lit "linux/kernel/bar.c"; lit "linux/kernel/foo.c"]
    ∧ findings results1 ≡ₚ findings results2
    ∧ statistics results1 = statistics results2
    ∧ summary results1 = summary results2.
Proof.
  eexists _, _, _, _. split; [reflexivity|]. split; [reflexivity|].
  split; [vm_compute; reflexivity|]. split; [vm_compute; reflexivity|].
  eapply (completion_order_irrelevant (H := SimplePython.lib)
            Demo.config Demo.fs_two id reverse (lit "linux"));
    [demo_severities_known| |reflexivity|reflexivity].
  intros c_files. symmetry. apply reverse_Permutation.
Defined.

Lemma get_c_files_walk_order_witness :
  AntiPatternDetector.get_c_files (H := SimplePython.lib)
    Demo.config_cap Demo.fs_cap (lit "linux")
  = ([skipping_large_file Demo.over_cap_c], Returned [Demo.at_cap_c]).
Proof.
  rewrite (get_c_files_walk_order (H := SimplePython.lib)
             Demo.config_cap Demo.fs_cap (lit "linux")).
  - vm_compute. reflexivity.
  - intros p Hp Hex. apply list_elem_of_In in Hp. vm_compute in Hp.
    destruct Hp as [<-|[<-|[<-|[]]]].
    + exists 5. reflexivity.
    + vm_compute in Hex. discriminate Hex.
    + exists 6. reflexivity.
Defined.

Lemma stat_failure_aborts_run_witness :
  (AntiPatternDetector.get_c_files (H := SimplePython.lib)
     Demo.config_all Demo.fs_cap (lit "linux")).2
  = Raised (OSError (lit "No such file or directory"))
  ∧ ∀ order,
      (AntiPatternDetector.analyze_kernel (H := SimplePython.lib)
         Demo.config_all Demo.fs_cap order (lit "linux")).2
      = Raised (OSError (lit "No such file or directory")).
Proof.
  apply (stat_failure_aborts_run (H := SimplePython.lib)
           Demo.config_all Demo.fs_cap (lit "linux")
           [Demo.at_cap_c] Demo.skip_c [Demo.over_cap_c]).
  - vm_compute. reflexivity.
  - intros q Hq _. apply list_elem_of_singleton in Hq as ->.
    exists 5. reflexivity.
  - reflexivity.
  - reflexivity.
Defined.

Lemma unreadable_file_counts_as_analyzed_witness :
  let e := OSError (lit "No such file or directory") in
  let acc :=
    {| AntiPatternDetector.log := [];
       AntiPatternDetector.all_findings := [];
       AntiPatternDetector.stats :=
         AntiPatternDetector.initial_statistics 1 |} in
  AntiPatternDetector.analyze_file (H := SimplePython.lib)
    Demo.config Demo.fs_cap Demo.skip_c
    = ([could_not_read Demo.skip_c e], Returned [])
  ∧ AntiPatternDetector.collect acc Demo.skip_c
      (AntiPatternDetector.analyze_file (H := SimplePython.lib)
         Demo.config Demo.fs_cap Demo.skip_c)
    = {| AntiPatternDetector.log := [] ++ [could_not_read Demo.skip_c e];
         AntiPatternDetector.all_findings := [];
         AntiPatternDetector.stats :=
           AntiPatternDetector.incr_analyzed_files
             (AntiPatternDetector.initial_statistics 1) |}.
Proof.
  exact (unreadable_file_counts_as_analyzed (H := SimplePython.lib)
           Demo.config Demo.fs_cap Demo.skip_c
           (OSError (lit "No such file or directory")) _ eq_refl).
Defined.

Lemma finding_context_contains_line_witness :
  ∃ content text,
    FS.read Demo.fs Demo.foo_c Codec.Ignore = Returned content
    ∧ PyStr.index (PyStr.split NL content) (Finding.line Demo.finding - 1)
      = Some text
    ∧ PyStr.index (Finding.context Demo.finding)
                  (Z.min (Finding.line Demo.finding - 1) 3) = Some text
    ∧ 1 ≤ PyStr.len (Finding.context Demo.finding) ≤ 7.
Proof.
  apply (finding_context_contains_line (H := SimplePython.lib)
           Demo.config Demo.fs Demo.foo_c Demo.finding).
  apply (bool_decide_unpack _). vm_compute. exact I.
Defined.

Lemma snippet_lines_witness :
  let snippet :=
    ConcurrencyAnalyzer.code_snippet_of Demo.fs (PurePath.of_str (lit "."))
                                        Demo.issue in
  PyStr.len snippet ≤ 11
  ∧ PyStr.index snippet 5
    = Some (lit ">>>   10:     /* possible race condition here */").
Proof.
  destruct (snippet_lines Demo.fs (PurePath.of_str (lit ".")) Demo.issue
              (list_byte_of_string Demo.foo_text) _ eq_refl eq_refl)
    as (Hlen & _ & Hmark).
  split; [exact Hlen|].
  destruct Hmark as (l & Hl & Hat); [vm_compute; split; discriminate|].
  vm_compute in Hl. injection Hl as <-. exact Hat.
Defined.

Lemma summary_matches_findings_witness :
  ∃ log results,
    AntiPatternDetector.analyze_kernel (H := SimplePython.lib)
      Demo.config Demo.fs id (lit "linux") = (log, Returned results)
    ∧ total_issues_found (summary results) = PyStr.len (findings results)
    ∧ high_priority_issues (summary results)
      = count_severity (lit "high") (findings results).
Proof.
  eexists _, _. split; [reflexivity|].
  edestruct (summary_matches_findings (H := SimplePython.lib)
               Demo.config Demo.fs id (lit "linux"))
    as (Htotal & _ & Hhigh & _);
    [demo_severities_known|reflexivity|].
  split; [exact Htotal|exact Hhigh].
Defined.

Example run_analysis_example :
  ∃ report,
    ConcurrencyReport.run_analysis (H := SimplePython.lib) Demo.fs
      (Returned [Demo.finding]) = Some report
    ∧ total_concurrency_issues report = 1
    ∧ categories_found report = 1
    ∧ CategoryReport.count <$> categories report !! lit "race_condition"
      = Some 1.
Proof. eexists. split; [reflexivity|]. vm_compute. repeat split. Qed.
